(** * Deep Q-learning trainer, grid world and episode batch: a shallow embedding

    Sources embedded here:
    - [agents/deep_q_learning/mountain_car/agent.py]  (class [MountainCarAgent])
    - [environments/move_to_goal/move_to_goal.py]     (class [MoveToGoal])
    - [agents/policy_gradient_methods/environments.py] (classes [Episode],
      [EpisodesBatch])

    Conventions.
    - Python [int] is [Z]; Python [float] and numpy floats are exact
      rationals [Q] (rounding is outside the model).
    - A Python exception is a [Raise] result; a [while] loop whose exit
      depends on the environment is a fuelled recursion that answers
      [OutOfFuel] when the fuel is spent.
    - The neural network, the gym environment and the random number
      generators are external to the repository; they enter as the
      interfaces [Network], [Environment] and [Random]. *)

From Stdlib Require Import ZArith QArith Lia Lqa Bool.
From stdpp Require Import base list strings.

Local Open Scope Z_scope.

(* ===================================================================== *)
(** ** Results of Python computations *)
(* ===================================================================== *)

Inductive exn : Type :=
  | IndexError
  | ValueError
  | ZeroDivisionError
  | TypeError
  | AssertionError
  | OverflowError.

Inductive result (A : Type) : Type :=
  | Ok (a : A)
  | Raise (e : exn)
  | OutOfFuel.

Arguments Ok {A} a.
Arguments Raise {A} e.
Arguments OutOfFuel {A}.

(** Sequencing: the first exception (or the lack of fuel) aborts what
    follows. Used through stdpp's [x ← c; k] notation. *)
#[global] Instance result_ret : MRet result := fun _ a => Ok a.
#[global] Instance result_bind : MBind result := fun _ _ k r =>
  match r with
  | Ok a => k a
  | Raise e => Raise e
  | OutOfFuel => OutOfFuel
  end.

(* ===================================================================== *)
(** ** Python and numpy primitives used by the sources *)
(* ===================================================================== *)

Module Py.

(** [a % b] on Python ints: floored, sign of the divisor, and
    [ZeroDivisionError] for a zero divisor. *)
Definition mod_ (a b : Z) : result Z :=
  if b =? 0 then Raise ZeroDivisionError else Ok (a mod b).

(** Position denoted by the index [i] in a sequence of length [n]: negative
    indices count from the end, anything outside [-n, n) is an
    [IndexError]. *)
Definition index (n : nat) (i : Z) : result nat :=
  if (0 <=? i) && (i <? Z.of_nat n) then Ok (Z.to_nat i)
  else if (- Z.of_nat n <=? i) && (i <? 0) then Ok (Z.to_nat (Z.of_nat n + i))
  else Raise IndexError.

(** [l[i]] *)
Definition getitem {A : Type} (l : list A) (i : Z) : result A :=
  k ← index (length l) i;
  match l !! k with
  | Some x => Ok x
  | None => Raise IndexError
  end.

(** [l[i] = x] *)
Definition setitem {A : Type} (l : list A) (i : Z) (x : A) : result (list A) :=
  k ← index (length l) i;
  Ok (<[k := x]> l).

(** [max(a, b)] on two floats: the first argument unless the second is
    strictly greater. *)
Definition max (a b : Q) : Q :=
  if Qle_bool b a then a else b.

(** [range(n)] as the list of its values; empty for [n <= 0]. *)
Definition range (n : Z) : list Z :=
  map Z.of_nat (seq 0 (Z.to_nat n)).

End Py.

Module Np.

(** Strict comparison [x > y] on floats. *)
Definition gt (x y : Q) : bool := negb (Qle_bool x y).

(** [x >= y] on floats. *)
Definition ge (x y : Q) : bool := Qle_bool y x.

(** Scan of [np.argmax]: [best_i] is the position of the running maximum
    [best], [i] the position of the head of the rest. A later element
    replaces the running maximum only when strictly greater, so the
    first maximizer wins. *)
Fixpoint argmax_from (best_i : nat) (best : Q) (i : nat) (l : list Q) : nat :=
  match l with
  | [] => best_i
  | x :: l' =>
      if gt x best then argmax_from i x (S i) l'
      else argmax_from best_i best (S i) l'
  end.

(** [np.argmax(v)]: [ValueError] on an empty vector. *)
Definition argmax (v : list Q) : result Z :=
  match v with
  | [] => Raise ValueError
  | x :: l => Ok (Z.of_nat (argmax_from 0 x 1 l))
  end.

(** [np.max(v)]: [ValueError] on an empty vector. *)
Definition max (v : list Q) : result Q :=
  match v with
  | [] => Raise ValueError
  | x :: l => Ok (fold_left (fun m y => if gt y m then y else m) l x)
  end.

(** The rows of a nested list all have the length of the first one. *)
Definition rectangular {A : Type} (rows : list (list A)) : bool :=
  match rows with
  | [] => true
  | r :: rows' => forallb (fun r' => (length r' =? length r)%nat) rows'
  end.

(** [np.array(rows, dtype=np.float32)] on a list of float vectors: rows
    of different lengths are a [ValueError]. (The floats are kept as they
    are: rounding to single precision is outside the model.) *)
Definition float32_matrix (rows : list (list Q)) : result (list (list Q)) :=
  if rectangular rows then Ok rows else Raise ValueError.

(** What [np.array(.., dtype=np.int32)] makes of a Python int that fits a
    C long but not 32 bits depends on the numpy release: releases before
    2.0 wrap it around, later ones raise [OverflowError]. *)
Class Narrowing : Type := narrow : Z -> result Z.

(** One element of [np.array(.., dtype=np.int32)]: an int of 32 bits is
    kept, one that does not fit a C long (64 bits) is an [OverflowError]. *)
Definition int32 {narrowing : Narrowing} (a : Z) : result Z :=
  if (- 2 ^ 31 <=? a) && (a <? 2 ^ 31) then Ok a
  else if (- 2 ^ 63 <=? a) && (a <? 2 ^ 63) then narrow a
  else Raise OverflowError.

(** [np.array(l, dtype=np.int32)] on a list of ints, element by element. *)
Fixpoint int32_array {narrowing : Narrowing} (l : list Z) : result (list Z) :=
  match l with
  | [] => Ok []
  | a :: l' => a' ← int32 a; l'' ← int32_array l'; Ok (a' :: l'')
  end.

End Np.

(** [i] is the first position of a largest element of [v]. *)
Definition first_maximizer (v : list Q) (i : nat) : Prop :=
  exists m, v !! i = Some m
    /\ (forall j x, v !! j = Some x -> (x <= m)%Q)
    /\ (forall j x, (j < i)%nat -> v !! j = Some x -> (x < m)%Q).

(** [m] is a largest element of [v]. *)
Definition maximum (v : list Q) (m : Q) : Prop :=
  m ∈ v /\ forall x, x ∈ v -> (x <= m)%Q.

(* ===================================================================== *)
(** ** [collections.deque] with a maximum length *)
(* ===================================================================== *)

Module Deque.

(** Oldest element first. *)
Record t (A : Type) : Type := Build
  { items : list A;
    maxlen : Z }.
Arguments Build {A} _ _.
Arguments items {A} _.
Arguments maxlen {A} _.

(** [deque(maxlen=n)]: a negative [maxlen] is refused. *)
Definition new {A : Type} (n : Z) : result (t A) :=
  if n <? 0 then Raise ValueError else Ok (Build [] n).

Definition len {A : Type} (d : t A) : Z := Z.of_nat (length (items d)).

(** [d.append(x)]: the element is added on the right and, when the deque
    has grown past [maxlen], one element is dropped on the left. *)
Definition append {A : Type} (d : t A) (x : A) : t A :=
  let grown := items d ++ [x] in
  if maxlen d <? Z.of_nat (length grown)
  then Build (drop 1 grown) (maxlen d)
  else Build grown (maxlen d).

End Deque.

(* ===================================================================== *)
(** ** [MoveToGoal]: the grid-world environment (move_to_goal.py) *)
(* ===================================================================== *)

Module MoveToGoal.

Abbreviation pos := (Z * Z)%type.
Abbreviation rgb := (Z * Z * Z)%type.

(** The attributes of a [MoveToGoal] object. [player] and [goal] are the
    two entries of the [positions] dictionary. *)
Record t : Type := Build
  { board_x : Z;
    board_y : Z;
    goal_reward : Z;
    move_reward : Z;
    game_end : Z;
    board : option (list (list rgb));
    steps_played : Z;
    player : option pos;
    goal : option pos;
    actions : list string }.

Definition color_player : rgb := (255, 150, 0).
Definition color_goal : rgb := (0, 255, 0).

(** A method call: its outcome together with the object as the call leaves
    it, also when the call raises. *)
Definition method (A : Type) : Type := t -> result A * t.

Definition set_board (b : option (list (list rgb))) (self : t) : t :=
  Build (board_x self) (board_y self) (goal_reward self) (move_reward self)
        (game_end self) b (steps_played self) (player self) (goal self)
        (actions self).

Definition set_steps_played (n : Z) (self : t) : t :=
  Build (board_x self) (board_y self) (goal_reward self) (move_reward self)
        (game_end self) (board self) n (player self) (goal self)
        (actions self).

Definition set_player (p : option pos) (self : t) : t :=
  Build (board_x self) (board_y self) (goal_reward self) (move_reward self)
        (game_end self) (board self) (steps_played self) p (goal self)
        (actions self).

Definition set_goal (g : option pos) (self : t) : t :=
  Build (board_x self) (board_y self) (goal_reward self) (move_reward self)
        (game_end self) (board self) (steps_played self) (player self) g
        (actions self).

(** [__init__] *)
Definition init (board_x board_y goal_reward move_reward game_end : Z) : t :=
  Build board_x board_y goal_reward move_reward game_end
        None 0 None None ["up"; "right"; "down"; "left"]%string.

(** [get_board_size] *)
Definition get_board_size (self : t) : Z * Z := (board_x self, board_y self).

(** [np.zeros((x, y, 3))]: negative dimensions are refused. *)
Definition zeros (x y : Z) : result (list (list rgb)) :=
  if (x <? 0) || (y <? 0) then Raise ValueError
  else Ok (replicate (Z.to_nat x) (replicate (Z.to_nat y) (0, 0, 0))).

(** [board[p] = c]. A pair selects one cell, with an [IndexError] outside
    the board; [None] is numpy's new axis, under which the assignment
    reaches every cell. *)
Definition paint (b : list (list rgb)) (p : option pos) (c : rgb)
  : result (list (list rgb)) :=
  match p with
  | None => Ok (map (map (fun _ => c)) b)
  | Some (x, y) =>
      row ← Py.getitem b x;
      row' ← Py.setitem row y c;
      Py.setitem b x row'
  end.

(** [generate_board]: a fresh board is stored first and then painted in
    place, so a failing paint leaves the board as far as it got. *)
Definition generate_board : method unit := fun self =>
  match zeros (board_x self) (board_y self) with
  | Ok b0 =>
      match paint b0 (player self) color_player with
      | Ok b1 =>
          match paint b1 (goal self) color_goal with
          | Ok b2 => (Ok (), set_board (Some b2) self)
          | Raise e => (Raise e, set_board (Some b1) self)
          | OutOfFuel => (OutOfFuel, self)
          end
      | Raise e => (Raise e, set_board (Some b0) self)
      | OutOfFuel => (OutOfFuel, self)
      end
  | Raise e => (Raise e, self)
  | OutOfFuel => (OutOfFuel, self)
  end.

(** [prepare_game] with both positions supplied by the caller. The
    branches that draw a missing position at random are not part of this
    model. *)
Definition prepare_game (player_pos goal_pos : pos) : method unit := fun self =>
  generate_board
    (set_steps_played 0 (set_goal (Some goal_pos) (set_player (Some player_pos) self))).

(** The [if]/[elif] chain of [execute_player_action] on the action's name:
    the player's coordinates after the move. *)
Definition moved (self : t) (name : string) (player_x player_y : Z) : result pos :=
  if String.eqb name "up"%string then
    Ok (player_x, if player_y <? board_y self - 1 then player_y + 1 else player_y)
  else if String.eqb name "right"%string then
    Ok (if player_x <? board_x self - 1 then player_x + 1 else player_x, player_y)
  else if String.eqb name "down"%string then
    Ok (player_x, if 0 <? player_y then player_y - 1 else player_y)
  else if String.eqb name "left"%string then
    Ok (if 0 <? player_x then player_x - 1 else player_x, player_y)
  else Raise ValueError.

(** [execute_player_action] *)
Definition execute_player_action (action : Z) : method unit := fun self =>
  match Py.getitem (actions self) action with
  | Ok name =>
      match player self with
      | Some (player_x, player_y) =>
          match moved self name player_x player_y with
          | Ok p => generate_board (set_player (Some p) self)
          | Raise e => (Raise e, self)
          | OutOfFuel => (OutOfFuel, self)
          end
      | None => (Raise TypeError, self)
      end
  | Raise e => (Raise e, self)
  | OutOfFuel => (OutOfFuel, self)
  end.

(** [get_state] *)
Definition get_state (self : t) : option pos * option pos :=
  (player self, goal self).

(** [step] *)
Definition step (action : Z)
  : method ((option pos * option pos) * Z * bool) := fun self =>
  match execute_player_action action self with
  | (Ok _, self1) =>
      let '(reward, done) :=
        if bool_decide (player self1 = goal self1)
        then (goal_reward self1, true)
        else (move_reward self1, false) in
      let self2 := set_steps_played (steps_played self1 + 1) self1 in
      let done := if game_end self2 <=? steps_played self2 then true else done in
      (Ok (get_state self2, reward, done), self2)
  | (Raise e, self1) => (Raise e, self1)
  | (OutOfFuel, self1) => (OutOfFuel, self1)
  end.

(** A game in play: both positions are set and lie on the board. *)
Definition on_board (self : t) (p : option pos) : Prop :=
  match p with
  | Some (x, y) => 0 <= x < board_x self /\ 0 <= y < board_y self
  | None => False
  end.

Definition in_play (self : t) : Prop :=
  on_board self (player self) /\ on_board self (goal self)
  /\ actions self = ["up"; "right"; "down"; "left"]%string.

(** *** [prepare_game] with its optional arguments

    [np.random.randint] enters through the type [G] of generator states and
    the function [randint_draw], the value drawn once the bounds are
    accepted. *)

Section Random.

Context {G : Type}.
Variable randint_draw : Z -> Z -> G -> Z * G.

(** [np.random.randint(low, high)]: refused unless [low < high]. *)
Definition randint (low high : Z) (g : G) : result (Z * G) :=
  if low <? high then Ok (randint_draw low high g) else Raise ValueError.

(** [(np.random.randint(0, self.board_x), np.random.randint(0, self.board_y))] *)
Definition random_pos (self : t) (g : G) : result (pos * G) :=
  '(x, g) ← randint 0 (board_x self) g;
  '(y, g) ← randint 0 (board_y self) g;
  Ok ((x, y), g).

(** Lines 39-40: [while goal_pos == player_pos], a new goal is drawn. Fuel
    is spent by the passes of the loop only. *)
Fixpoint redraw_goal (fuel : nat) (self : t) (player_pos goal_pos : pos) (g : G)
  : result (pos * G) :=
  if bool_decide (goal_pos = player_pos) then
    match fuel with
    | O => OutOfFuel
    | S fuel' =>
        '(goal_pos, g) ← random_pos self g;
        redraw_goal fuel' self player_pos goal_pos g
    end
  else Ok (goal_pos, g).

(** Lines 34-40: the positions [prepare_game] settles on. *)
Definition choose_positions (fuel : nat) (player_pos goal_pos : option pos)
    (self : t) (g : G) : result (pos * pos * G) :=
  '(player_pos, g) ←
    match player_pos with
    | Some p => Ok (p, g)
    | None => random_pos self g
    end;
  '(goal_pos, g) ←
    match goal_pos with
    | Some p => Ok (p, g)
    | None =>
        '(drawn, g) ← random_pos self g;
        redraw_goal fuel self player_pos drawn g
    end;
  Ok (player_pos, goal_pos, g).

(** [prepare_game(player_pos, goal_pos)], either argument possibly omitted:
    the outcome, the game and the generator as the call leaves them. A call
    that fails while choosing the positions has not touched the game. *)
Definition prepare_game_opt (fuel : nat) (player_pos goal_pos : option pos)
    (self : t) (g : G) : result unit * t * option G :=
  match choose_positions fuel player_pos goal_pos self g with
  | Ok (player_pos, goal_pos, g) =>
      let '(r, self) := prepare_game player_pos goal_pos self in
      (r, self, Some g)
  | Raise e => (Raise e, self, None)
  | OutOfFuel => (OutOfFuel, self, None)
  end.

End Random.

(** *** Calls of [step] in a row *)

(** [step(a)] for each action of the list in turn; the rewards and [done]
    flags returned, or the first exception, with the game as it is left. *)
Fixpoint play (actions : list Z) (self : t) : result (list (Z * bool)) * t :=
  match actions with
  | [] => (Ok [], self)
  | a :: actions' =>
      match step a self with
      | (Ok (_, reward, done), self1) =>
          match play actions' self1 with
          | (Ok l, self2) => (Ok ((reward, done) :: l), self2)
          | (Raise e, self2) => (Raise e, self2)
          | (OutOfFuel, self2) => (OutOfFuel, self2)
          end
      | (Raise e, self1) => (Raise e, self1)
      | (OutOfFuel, self1) => (OutOfFuel, self1)
      end
  end.

(** The cell an action name points to from [(x, y)]. *)
Definition target_cell (name : string) (x y : Z) : pos :=
  if String.eqb name "up"%string then (x, y + 1)
  else if String.eqb name "right"%string then (x + 1, y)
  else if String.eqb name "down"%string then (x, y - 1)
  else if String.eqb name "left"%string then (x - 1, y)
  else (x, y).

(** The cell lies on the board. *)
Definition inside (self : t) (p : pos) : bool :=
  (0 <=? p.1) && (p.1 <? board_x self) && (0 <=? p.2) && (p.2 <? board_y self).

(** The two games differ at most in the player, the step count and the
    board array. *)
Definition same_game (self self' : t) : Prop :=
  board_x self' = board_x self /\ board_y self' = board_y self
  /\ goal_reward self' = goal_reward self /\ move_reward self' = move_reward self
  /\ game_end self' = game_end self /\ goal self' = goal self
  /\ actions self' = actions self.

(** The colour the board is to show in cell [(x, y)]: the goal's on the
    goal, the player's on the player elsewhere, black otherwise. *)
Definition cell_colour (self : t) (x y : Z) : rgb :=
  if bool_decide (goal self = Some (x, y)) then color_goal
  else if bool_decide (player self = Some (x, y)) then color_player
  else (0, 0, 0).

(** The stored board has the size of the game and shows its positions. *)
Definition board_shows (self : t) : Prop :=
  exists b,
    board self = Some b
    /\ Z.of_nat (length b) = board_x self
    /\ forall x y, 0 <= x < board_x self -> 0 <= y < board_y self ->
         exists row, b !! Z.to_nat x = Some row
                     /\ Z.of_nat (length row) = board_y self
                     /\ row !! Z.to_nat y = Some (cell_colour self x y).

End MoveToGoal.

(** The board array has [nx] rows of [ny] cells. *)
Definition shaped (b : list (list (Z * Z * Z))) (nx ny : Z) : Prop :=
  Z.of_nat (length b) = nx /\ Forall (fun r => Z.of_nat (length r) = ny) b.

(* ===================================================================== *)
(** ** [Episode] and [EpisodesBatch] (policy_gradient_methods/environments.py) *)
(* ===================================================================== *)

Module Episode.

Record t : Type := Build
  { states : list (list Q);
    rewards : list Q;
    actions : list Z;
    total_reward : Q }.

(** [__init__]: the three lists must have one length; they are then
    turned into arrays, the states first, the actions last, and either
    conversion may raise. [total_reward] is [np.sum] of the rewards.
    (Floats stand for themselves: the rounding of states and rewards to
    single precision, and of the sum, is outside the model.) *)
Definition init {narrowing : Np.Narrowing} (states : list (list Q))
    (actions : list Z) (rewards : list Q) : result t :=
  if bool_decide (length states = length rewards
                  /\ length rewards = length actions)
  then
    states ← Np.float32_matrix states;
    actions ← Np.int32_array actions;
    Ok (Build states rewards actions (fold_left Qplus rewards (0%Q)))
  else Raise AssertionError.

(** [__len__] *)
Definition len (self : t) : Z := Z.of_nat (length (states self)).

End Episode.

Module EpisodesBatch.

Record t : Type := Build
  { episodes : list Episode.t;
    max_size : Z;
    current_size : Z }.

(** [__init__] *)
Definition init (max_size : Z) : t := Build [] max_size 0.

(** [__len__] *)
Definition len (self : t) : Z := current_size self.

(** [is_full] *)
Definition is_full (self : t) : bool := max_size self <=? current_size self.

(** [add_episode]: the outcome and the batch as the call leaves it. *)
Definition add_episode (episode : Episode.t) (self : t) : result unit * t :=
  if negb (is_full self) then
    (Ok (),
     Build (episodes self ++ [episode]) (max_size self)
           (current_size self + Episode.len episode))
  else (Raise ValueError, self).

(** [__iter__]: the episodes it yields, in order. *)
Definition iter (self : t) : list Episode.t := episodes self.

(** Calls of [add_episode] in a row, by a caller that goes on after a
    refusal: the outcome of each call and the batch as it is left. *)
Fixpoint add_episodes (es : list Episode.t) (self : t) : list (result unit) * t :=
  match es with
  | [] => ([], self)
  | e :: es' =>
      let '(r, self1) := add_episode e self in
      let '(rs, self2) := add_episodes es' self1 in
      (r :: rs, self2)
  end.

(** The number of steps in a list of episodes. *)
Definition steps_of (es : list Episode.t) : Z :=
  fold_right (fun e n => Episode.len e + n) 0 es.

End EpisodesBatch.

Module CartPoleEnvironment.

(** [win_condition] *)
Definition win_condition (episode : Episode.t) : bool :=
  Np.ge (Episode.total_reward episode) 200.

End CartPoleEnvironment.

Module AcrobotEnvironment.

(** [win_condition] *)
Definition win_condition (episode : Episode.t) : bool :=
  Np.ge (Episode.total_reward episode) 200.

End AcrobotEnvironment.

(* ===================================================================== *)
(** ** [MountainCarAgent]: the deep Q-learning trainer (agent.py) *)
(* ===================================================================== *)

Module DQN.

(** An observation of the environment: a vector of floats. *)
Abbreviation State := (list Q).

(** One entry of the replay memory: the tuple
    [(state, action, reward, new_state, done)]. *)
Record Transition : Type := Build_Transition
  { state : State;
    action : Z;
    reward : Q;
    new_state : State;
    done : bool }.

(** The Keras side of [DQNModel]: the forward pass of the three dense
    layers on one input row, and one optimizer update of [train_step]
    (mean squared error, Adam) on a batch of inputs and labels. *)
Class Network : Type :=
  { Weights : Type;
    Optimizer : Type;
    forward : Weights -> State -> list Q;
    apply_gradients :
      Weights -> Optimizer -> list State -> list (list Q) -> Weights * Optimizer }.

(** The gym environment held in [self.env]. *)
Class Environment : Type :=
  { Env : Type;
    env_reset : Env -> Env;
    env_state : Env -> State;
    env_step : Env -> Z -> (State * Q * bool) * Env;
    goal_position : Env -> Q;
    action_space_n : Env -> Z;
    observation_space_shape0 : Env -> Z }.

(** The generators behind [np.random] and [random]: each draw returns the
    drawn value and the generator's next state. [sample_draw] is the choice
    [random.sample] makes once its arguments are accepted. *)
Class Random : Type :=
  { Rng : Type;
    random_draw : Rng -> Q * Rng;
    randint_draw : Z -> Z -> Rng -> Z * Rng;
    sample_draw : list Transition -> Z -> Rng -> list Transition * Rng }.

Section Agent.

Context {net : Network} {environment : Environment} {rnd : Random}.

(** A [DQNModel] object: its trainable variables and its optimizer. *)
Record DQNModel : Type := Build_DQNModel
  { weights : Weights;
    optimizer : Optimizer }.

(** [DQNModel.call] on a batch, and [predict], row by row. (What Keras
    does with an empty batch is outside the model.) *)
Definition call (m : DQNModel) (inputs : list State) : list (list Q) :=
  map (forward (weights m)) inputs.

Definition predict (m : DQNModel) (inputs : list State) : list (list Q) :=
  call m inputs.

(** [DQNModel.train_step] *)
Definition train_step (m : DQNModel) (inputs : list State) (labels : list (list Q))
  : DQNModel :=
  let '(w, o) := apply_gradients (weights m) (optimizer m) inputs labels in
  Build_DQNModel w o.

Definition get_weights (m : DQNModel) : Weights := weights m.

Definition set_weights (w : Weights) (m : DQNModel) : DQNModel :=
  Build_DQNModel w (optimizer m).

(** The attributes of a [MountainCarAgent] object. *)
Record Agent : Type := Build_Agent
  { env : Env;
    action_space : Z;
    state_space : Z;
    model : DQNModel;
    target_model : DQNModel;
    replay_memory : Deque.t Transition;
    min_replay_memory_size : Z;
    batch_size : Z;
    target_update_counter : Z;
    update_target_every : Z }.

Definition with_env (e : Env) (self : Agent) : Agent :=
  Build_Agent e (action_space self) (state_space self) (model self)
    (target_model self) (replay_memory self) (min_replay_memory_size self)
    (batch_size self) (target_update_counter self) (update_target_every self).

Definition with_model (m : DQNModel) (self : Agent) : Agent :=
  Build_Agent (env self) (action_space self) (state_space self) m
    (target_model self) (replay_memory self) (min_replay_memory_size self)
    (batch_size self) (target_update_counter self) (update_target_every self).

Definition with_target_model (m : DQNModel) (self : Agent) : Agent :=
  Build_Agent (env self) (action_space self) (state_space self) (model self)
    m (replay_memory self) (min_replay_memory_size self)
    (batch_size self) (target_update_counter self) (update_target_every self).

Definition with_replay_memory (d : Deque.t Transition) (self : Agent) : Agent :=
  Build_Agent (env self) (action_space self) (state_space self) (model self)
    (target_model self) d (min_replay_memory_size self)
    (batch_size self) (target_update_counter self) (update_target_every self).

Definition with_target_update_counter (c : Z) (self : Agent) : Agent :=
  Build_Agent (env self) (action_space self) (state_space self) (model self)
    (target_model self) (replay_memory self) (min_replay_memory_size self)
    (batch_size self) c (update_target_every self).

(** [__init__]. [made] is the environment [gym.make] returns; [fresh] and
    [fresh_target] are the two newly built networks ([layer_size] and
    [learning_rate] are spent in building them). *)
Definition init (made : Env) (fresh fresh_target : DQNModel)
    (replay_memory_size min_replay_memory_size batch_size update_target_every : Z)
  : result Agent :=
  let env := env_reset made in
  let target := set_weights (get_weights fresh) fresh_target in
  memory ← Deque.new replay_memory_size;
  Ok (Build_Agent env (action_space_n env) (observation_space_shape0 env)
        fresh target memory min_replay_memory_size batch_size 0
        update_target_every).

(** [get_q_values]: the model applied to the batch holding [state] alone. *)
Definition get_q_values (self : Agent) (state : State) : list (list Q) :=
  call (model self) [state].

(** [produce_action]: [np.argmax] works on the flattened array. *)
Definition produce_action (self : Agent) (state : State) : result Z :=
  let q_values := get_q_values self state in
  Np.argmax (concat q_values).

(** [update_replay_memory] *)
Definition update_replay_memory (transition : Transition) (self : Agent) : Agent :=
  with_replay_memory (Deque.append (replay_memory self) transition) self.

(** [random.sample(population, k)]: refused unless [0 <= k <= len(population)]. *)
Definition random_sample (population : list Transition) (k : Z) (g : Rng)
  : result (list Transition * Rng) :=
  if (0 <=? k) && (k <=? Z.of_nat (length population))
  then Ok (sample_draw population k g)
  else Raise ValueError.

(** [np.random.randint(low, high)]: refused unless [low < high]. *)
Definition randint (low high : Z) (g : Rng) : result (Z * Rng) :=
  if low <? high then Ok (randint_draw low high g) else Raise ValueError.

(** Row [index] of a two-dimensional array. *)
Definition row (a : list (list Q)) (index : nat) : result (list Q) :=
  match a !! index with
  | Some r => Ok r
  | None => Raise IndexError
  end.

(** [for x in l: s = body(s, x)] *)
Fixpoint for_each {S A : Type} (body : S -> A -> result S) (l : list A) (s : S)
  : result S :=
  match l with
  | [] => Ok s
  | x :: l' => s' ← body s x; for_each body l' s'
  end.

(** [enumerate(l)] *)
Definition enumerate {A : Type} (l : list A) : list (nat * A) :=
  zip (seq 0 (length l)) l.

(** The arrays the loop of [training_step] works on. [current_qs_array]
    (the source's [current_qs_list]) is
    written in place; [target_q_values] holds views of its rows, recorded
    here by their row numbers. *)
Record Batch : Type := Build_Batch
  { current_qs_array : list (list Q);
    states_input : list State;
    target_q_values : list nat }.

(** Lines 203-207: the value the taken action is moved to. *)
Definition new_q (discount : Q) (future_qs_list : list (list Q)) (index : nat)
    (t : Transition) : result Q :=
  if negb (done t) then
    future_qs ← row future_qs_list index;
    max_future_q ← Np.max future_qs;
    Ok (reward t + discount * max_future_q)%Q
  else Ok (reward t).

(** Lines 199-216: one pass of the loop over the enumerated minibatch. *)
Definition fill (discount : Q) (future_qs_list : list (list Q)) (b : Batch)
    (it : nat * Transition) : result Batch :=
  let '(index, t) := it in
  q ← new_q discount future_qs_list index t;
  current_qs ← row (current_qs_array b) index;
  current_qs' ← Py.setitem current_qs (action t) q;
  Ok (Build_Batch (<[index := current_qs']> (current_qs_array b))
        (states_input b ++ [state t])
        (target_q_values b ++ [index])).

(** [np.array(target_q_values)]: the views are read when the loop is over. *)
Fixpoint read_rows (a : list (list Q)) (views : list nat) : result (list (list Q)) :=
  match views with
  | [] => Ok []
  | i :: views' => r ← row a i; rs ← read_rows a views'; Ok (r :: rs)
  end.

(** [training_step] *)
Definition training_step (discount : Q) (st : Agent * Rng) : result (Agent * Rng) :=
  let '(self, g) := st in
  if Deque.len (replay_memory self) <? min_replay_memory_size self then Ok (self, g)
  else
    '(minibatch, g') ← random_sample (Deque.items (replay_memory self)) (batch_size self) g;
    let current_states := map state minibatch in
    let current_qs_list := predict (model self) current_states in
    let new_current_states := map new_state minibatch in
    let future_qs_list := predict (target_model self) new_current_states in
    b ← for_each (fill discount future_qs_list) (enumerate minibatch)
          (Build_Batch current_qs_list [] []);
    labels ← read_rows (current_qs_array b) (target_q_values b);
    Ok (with_model (train_step (model self) (states_input b) labels) self, g').

(** Lines 185-219 on their own: what [training_step] does with the
    minibatch once [random.sample] has returned it. *)
Definition fit_minibatch (discount : Q) (self : Agent) (minibatch : list Transition)
    (g : Rng) : result (Agent * Rng) :=
  let current_states := map state minibatch in
  let current_qs_list := predict (model self) current_states in
  let new_current_states := map new_state minibatch in
  let future_qs_list := predict (target_model self) new_current_states in
  b ← for_each (fill discount future_qs_list) (enumerate minibatch)
        (Build_Batch current_qs_list [] []);
  labels ← read_rows (current_qs_array b) (target_q_values b);
  Ok (with_model (train_step (model self) (states_input b) labels) self, g).

(** [play_game]: the [while not done] loop. Rendering has no effect on the
    agent and is left out. *)
Fixpoint play_loop (fuel : nat) (self : Agent) : result Agent :=
  match fuel with
  | O => OutOfFuel
  | S fuel' =>
      let state := env_state (env self) in
      action ← produce_action self state;
      let '((_, _, done), e) := env_step (env self) action in
      let self := with_env e self in
      if done then Ok self else play_loop fuel' self
  end.

(** [play_game]: the pair it returns and the agent as it leaves it. *)
Definition play_game (fuel : nat) (self : Agent) : result ((State * bool) * Agent) :=
  let self := with_env (env_reset (env self)) self in
  let starting_state := env_state (env self) in
  self ← play_loop fuel self;
  position ← Py.getitem (env_state (env self)) 0;
  let win := Np.ge position (goal_position (env self)) in
  let self := with_env (env_reset (env self)) self in
  Ok ((starting_state, win), self).

(** *** [train_agent] *)

Definition epsilon_min : Q := 1 # 100.
Definition epsilon_decay_value : Q := 1 # 100.

(** What [train_agent] carries across steps: the agent, the generators and
    its own counters and lists. *)
Record Training : Type := Build_Training
  { agent : Agent;
    rng : Rng;
    episodes_counter : Z;
    episodes_wins : list bool;
    episodes_rewards : list Q }.

(** Lines 141-144: epsilon-greedy choice. *)
Definition choose_action (current_epsilon : Q) (self : Agent) (state : State) (g : Rng)
  : result (Z * Rng) :=
  let '(u, g) := random_draw g in
  if Np.gt u current_epsilon then
    action ← produce_action self state; Ok (action, g)
  else randint 0 (action_space_n (env self)) g.

(** Lines 140-148: choose an action, step the environment and store the
    transition. The stored transition is returned as well. *)
Definition interact (current_epsilon : Q) (st : Agent * Rng)
  : result (Agent * Rng * Transition) :=
  let '(self, g) := st in
  let state := env_state (env self) in
  '(action, g) ← choose_action current_epsilon self state g;
  let '((new_state, reward, done), e) := env_step (env self) action in
  let self := with_env e self in
  let transition := Build_Transition state action reward new_state done in
  Ok (update_replay_memory transition self, g, transition).

(** Lines 151-156: a finished episode is recorded as won or lost and
    counted. *)
Definition count_terminal (t : Transition) (self : Agent) (episodes_wins : list bool)
  : result (Agent * list bool) :=
  if done t then
    position ← Py.getitem (new_state t) 0;
    let episodes_wins :=
      if Np.ge position (goal_position (env self))
      then episodes_wins ++ [true]
      else episodes_wins ++ [false] in
    Ok (with_target_update_counter (target_update_counter self + 1) self,
        episodes_wins)
  else Ok (self, episodes_wins).

(** Line 159: the condition under which the target network is refreshed.
    The remainder is computed first. *)
Definition sync_due (self : Agent) : result bool :=
  m ← Py.mod_ (target_update_counter self) (update_target_every self);
  Ok ((m =? 0) && (0 <? target_update_counter self)).

(** Lines 159-161 *)
Definition sync_target (self : Agent) : result Agent :=
  due ← sync_due self;
  if (due : bool) then
    let self :=
      with_target_model
        (set_weights (get_weights (model self)) (target_model self)) self in
    Ok (with_target_update_counter 0 self)
  else Ok self.

(** Lines 151-161: what a step does once the transition is stored and the
    main network trained. *)
Definition bookkeeping (t : Transition) (self : Agent) (episodes_wins : list bool)
  : result (Agent * list bool) :=
  '(self, episodes_wins) ← count_terminal t self episodes_wins;
  self ← sync_target self;
  Ok (self, episodes_wins).

(** Lines 137-163: one pass of the [while not done] loop of [train_agent].
    Returns the updated state, the running episode reward and [done]. *)
Definition train_iteration (discount current_epsilon : Q) (tr : Training)
    (episode_reward : Q) : result (Training * Q * bool) :=
  '(self, g, t) ← interact current_epsilon (agent tr, rng tr);
  '(self, g) ← training_step discount (self, g);
  '(self, wins) ← bookkeeping t self (episodes_wins tr);
  Ok (Build_Training self g (episodes_counter tr) wins (episodes_rewards tr),
      (episode_reward + reward t)%Q, done t).

(** Lines 135-163: the [while not done] loop. *)
Fixpoint episode_steps (fuel : nat) (discount current_epsilon : Q) (tr : Training)
    (episode_reward : Q) : result (Training * Q) :=
  match fuel with
  | O => OutOfFuel
  | S fuel' =>
      '(tr, episode_reward, done) ←
        train_iteration discount current_epsilon tr episode_reward;
      if (done : bool) then Ok (tr, episode_reward)
      else episode_steps fuel' discount current_epsilon tr episode_reward
  end.

(** Lines 121-133: whether this episode is one to show; the logging is
    left out. *)
Definition show_episode (episodes show_every cycle episode : Z) : result bool :=
  if 0 <? episode + cycle * episodes then
    m ← Py.mod_ (episode + cycle * episodes) show_every;
    Ok (m =? 0)
  else Ok false.

(** Lines 115-168 for an episode played at the exploration rate
    [current_epsilon] (the value line 119 leaves in the variable). *)
Definition episode_at (fuel : nat) (episodes show_every : Z) (discount : Q)
    (cycle : Z) (current_epsilon : Q) (tr : Training) (episode : Z)
  : result Training :=
  let self := with_env (env_reset (env (agent tr))) (agent tr) in
  let tr := Build_Training self (rng tr) (episodes_counter tr)
              (episodes_wins tr) (episodes_rewards tr) in
  _ ← show_episode episodes show_every cycle episode;
  '(tr, episode_reward) ← episode_steps fuel discount current_epsilon tr 0%Q;
  Ok (Build_Training (agent tr) (rng tr) (episodes_counter tr + 1)
        (episodes_wins tr) (episodes_rewards tr ++ [episode_reward])).

(** The body of [for episode in range(episodes)]: line 119 clamps the
    variable [current_epsilon] from below, line 165 decays it. *)
Definition run_episode (fuel : nat) (episodes show_every : Z) (discount : Q)
    (cycle : Z) (st : Training * Q) (episode : Z) : result (Training * Q) :=
  let '(tr, current_epsilon) := st in
  let current_epsilon := Py.max epsilon_min current_epsilon in
  tr ← episode_at fuel episodes show_every discount cycle current_epsilon tr episode;
  let current_epsilon := (current_epsilon - epsilon_decay_value)%Q in
  Ok (tr, current_epsilon).

(** The body of [for cycle in range(cycles)]. *)
Definition run_cycle (fuel : nat) (episodes : Z) (epsilon : Q) (show_every : Z)
    (discount : Q) (tr : Training) (cycle : Z) : result Training :=
  let current_epsilon := epsilon in
  '(tr, _) ← for_each (run_episode fuel episodes show_every discount cycle)
               (Py.range episodes) (tr, current_epsilon);
  Ok tr.

(** [train_agent] up to the end of its loops (lines 102-168); [fuel] bounds
    the number of steps of each episode. Plotting and saving, which
    follow the loops, are left out. *)
Definition train_agent (fuel : nat) (episodes : Z) (epsilon : Q)
    (show_every : option Z) (discount : Q) (cycles : Z) (st : Agent * Rng)
  : result Training :=
  let '(self, g) := st in
  let show_every := default episodes show_every in
  for_each (run_cycle fuel episodes epsilon show_every discount)
    (Py.range cycles) (Build_Training self g 0 [] []).

(** *** Derived notions used in the statements below *)

(** The exploration rate line 119 leaves for episode [k] (counted from 0)
    of a cycle that starts at [epsilon]. *)
Fixpoint effective_epsilon (epsilon : Q) (k : nat) : Q :=
  match k with
  | O => Py.max epsilon_min epsilon
  | S k' => Py.max epsilon_min (effective_epsilon epsilon k' - epsilon_decay_value)%Q
  end.

(** A cycle in which episode [k] is played at [effective_epsilon epsilon k]. *)
Definition scheduled_cycle (fuel : nat) (episodes : Z) (epsilon : Q)
    (show_every : Z) (discount : Q) (tr : Training) (cycle : Z) : result Training :=
  for_each
    (fun tr episode =>
       episode_at fuel episodes show_every discount cycle
         (effective_epsilon epsilon (Z.to_nat episode)) tr episode)
    (Py.range episodes) tr.

(** [q] is the backup of the transition [t]: its reward when [t] is
    terminal, and otherwise its reward plus the discounted largest value
    the weights [target_w] give to its next state. *)
Definition backup (discount : Q) (target_w : Weights) (t : Transition) (q : Q) : Prop :=
  if done t then q = reward t
  else exists m, Np.max (forward target_w (new_state t)) = Ok m
                 /\ maximum (forward target_w (new_state t)) m
                 /\ q = (reward t + discount * m)%Q.

(** [label] is the prediction of the weights [w] for the state of [t] with
    the component of the taken action replaced by the backup of [t]. *)
Definition label_for (discount : Q) (w target_w : Weights) (t : Transition)
    (label : list Q) : Prop :=
  exists q, backup discount target_w t q
    /\ label = <[Z.to_nat (action t) := q]> (forward w (state t))
    /\ label !! Z.to_nat (action t) = Some q
    /\ (forall j, j <> Z.to_nat (action t) -> label !! j = forward w (state t) !! j).

(** The transition has an action that indexes the prediction of [w] for
    its state and, unless terminal, a next state to which [target_w] gives
    values. *)
Definition trainable (w target_w : Weights) (t : Transition) : Prop :=
  0 <= action t < Z.of_nat (length (forward w (state t)))
  /\ (done t = false -> forward target_w (new_state t) <> []).



(** The agent after a sequence of calls to [update_replay_memory]. *)
Definition pushes (ts : list Transition) (self : Agent) : Agent :=
  fold_left (fun a t => update_replay_memory t a) ts self.

(** [n] calls of [training_step] in a row. *)
Fixpoint training_steps (n : nat) (discount : Q) (st : Agent * Rng)
  : result (Agent * Rng) :=
  match n with
  | O => Ok st
  | S n' => st' ← training_step discount st; training_steps n' discount st'
  end.

(** [load_model]: the main model is replaced by the one read from disk. *)
Definition load_model (loaded : DQNModel) (self : Agent) : Agent :=
  with_model loaded self.

(** The memory is within its capacity and the refresh counter below
    [update_target_every]. *)
Definition within_bounds (self : Agent) : Prop :=
  0 <= Deque.maxlen (replay_memory self)
  /\ Deque.len (replay_memory self) <= Deque.maxlen (replay_memory self)
  /\ 0 <= target_update_counter self < update_target_every self.

(** The counters and lists of [train_agent] after [n] finished episodes. *)
Definition tallied (n : nat) (tr : Training) : Prop :=
  episodes_counter tr = Z.of_nat n
  /\ length (episodes_wins tr) = n
  /\ length (episodes_rewards tr) = n.

(** The two agents have the same settings. *)
Definition same_settings (self self' : Agent) : Prop :=
  Deque.maxlen (replay_memory self') = Deque.maxlen (replay_memory self)
  /\ min_replay_memory_size self' = min_replay_memory_size self
  /\ batch_size self' = batch_size self
  /\ update_target_every self' = update_target_every self
  /\ action_space self' = action_space self
  /\ state_space self' = state_space self.

End Agent.

End DQN.

(* ===================================================================== *)
(** ** [test_agent.main]: building the agent from a configuration *)
(* ===================================================================== *)

Module TestAgent.

Section Call.

(** The values a configuration holds. *)
Context {V : Type}.

(** How a call with keyword arguments ends before the body of the function
    runs: the arguments are bound, an argument expression [config[key]]
    has raised [KeyError], or the binding has raised [TypeError] on a
    keyword the function does not have or on a parameter left without a
    value. *)
Inductive outcome : Type :=
  | Bound (arguments : list (string * V))
  | KeyError (key : string)
  | TypeError (name : string).

(** The parameters of [MountainCarAgent.__init__] (agent.py, lines 61-63),
    [self] apart; none has a default. *)
Definition init_parameters : list string :=
  ["replay_memory_size"; "layer_size"; "min_replay_memory_size";
   "learning_rate"; "batch_size"; "update_target_every"]%string.

(** The keyword arguments of the call at lines 31-39 of test_agent.py, in
    the order written: each keyword with the configuration key it reads. *)
Definition call_arguments : list (string * string) :=
  [("min_replay_memory_size", "min_replay_memory_size");
   ("update_target_every", "update_target_every");
   ("replay_memory_size", "replay_memory_size");
   ("batch_size", "batch_size");
   ("layer_size", "hidden_layer_size");
   ("learning_rate", "learning_rate");
   ("double_q_learning", "double_q_learning");
   ("hidden_layers_count", "hidden_layers_count");
   ("activation", "activation")]%string.

(** The argument expressions are evaluated from left to right; the first
    key the configuration lacks raises [KeyError]. *)
Fixpoint evaluate (config : string -> option V) (arguments : list (string * string))
  : outcome :=
  match arguments with
  | [] => Bound []
  | (keyword, key) :: arguments' =>
      match config key with
      | None => KeyError key
      | Some v =>
          match evaluate config arguments' with
          | Bound l => Bound ((keyword, v) :: l)
          | failed => failed
          end
      end
  end.

(** Binding keywords to parameters: a keyword that names no parameter is
    refused, and so is a parameter that gets no value. *)
Definition bind (parameters : list string) (arguments : list (string * V)) : outcome :=
  match find (fun a => negb (bool_decide (a.1 ∈ parameters))) arguments with
  | Some (keyword, _) => TypeError keyword
  | None =>
      match find (fun p => negb (bool_decide (p ∈ map fst arguments))) parameters with
      | Some p => TypeError p
      | None => Bound arguments
      end
  end.

(** The call [MountainCarAgent(min_replay_memory_size=config[...], ...)] of
    [main], for a configuration given by its lookup. *)
Definition construct (config : string -> option V) : outcome :=
  match evaluate config call_arguments with
  | Bound arguments => bind init_parameters arguments
  | failed => failed
  end.

End Call.

End TestAgent.

(* ===================================================================== *)
(** ** A small network, environment and generator

    Concrete instances of the three interfaces, on which the general
    statements below are exercised. *)
(* ===================================================================== *)

Module Toy.

(** The weights are the output vector itself; an update replaces them by
    the first label row. *)
Definition net : DQN.Network :=
  {| DQN.Weights := list Q;
     DQN.Optimizer := unit;
     DQN.forward := fun w _ => w;
     DQN.apply_gradients := fun w o _ labels => (default w (head labels), o) |}.

(** A clock: the observation is the time, an episode ends at time 3. *)
Definition environment : DQN.Environment :=
  {| DQN.Env := Z;
     DQN.env_reset := fun _ => 0;
     DQN.env_state := fun e => [inject_Z e; 0%Q];
     DQN.env_step := fun e _ =>
       (([inject_Z (e + 1); 0%Q], (-1)%Q, 3 <=? e + 1), e + 1);
     DQN.goal_position := fun _ => 2%Q;
     DQN.action_space_n := fun _ => 3;
     DQN.observation_space_shape0 := fun _ => 2 |}.

(** A generator without state: the uniform draw is 1, the integer draw is
    the lower bound, a sample is a prefix. *)
Definition rnd : DQN.Random :=
  {| DQN.Rng := unit;
     DQN.random_draw := fun g => (1%Q, g);
     DQN.randint_draw := fun low _ g => (low, g);
     DQN.sample_draw := fun population k g => (take (Z.to_nat k) population, g) |}.

Definition model0 : @DQN.DQNModel net := DQN.Build_DQNModel (net := net) [0%Q; 1%Q; 1%Q] ().
Definition model1 : @DQN.DQNModel net := DQN.Build_DQNModel (net := net) [5%Q; 2%Q; 7%Q] ().

(** The transition labelled [n]. *)
Definition labelled (n : Z) : DQN.Transition :=
  DQN.Build_Transition [inject_Z n; 0%Q] 1 (inject_Z n) [inject_Z (n + 1); 0%Q] false.

Definition init (replay_memory_size min_replay_memory_size batch_size
                 update_target_every : Z)
  : result (@DQN.Agent net environment) :=
  DQN.init (net := net) (environment := environment) 0 model0 model1
    replay_memory_size min_replay_memory_size batch_size update_target_every.

(** A fresh agent with the given settings and an empty memory. *)
Definition fresh (replay_memory_size min_replay_memory_size batch_size
                  update_target_every : Z) : @DQN.Agent net environment :=
  DQN.Build_Agent (net := net) (environment := environment)
    0 3 2 model0 (DQN.set_weights (DQN.get_weights model0) model1)
    (Deque.Build [] replay_memory_size)
    min_replay_memory_size batch_size 0 update_target_every.

(** A 3 by 3 grid world with the player in the middle and the goal in a
    corner. *)
Definition grid : MoveToGoal.t :=
  (MoveToGoal.prepare_game (1, 1) (2, 2) (MoveToGoal.init 3 3 10 (-1) 5)).2.

(** A generator for the grid world that counts its draws: the value drawn
    is the count, brought into the bounds. *)
Definition counting_draw (low high : Z) (g : Z) : Z * Z :=
  (low + g mod (high - low), g + 1).

(** numpy before 2.0: an int beyond 32 bits is wrapped around. *)
Definition wraps : Np.Narrowing :=
  fun a => Ok ((a + 2 ^ 31) mod 2 ^ 32 - 2 ^ 31).

(** numpy from 2.0 on: an int beyond 32 bits is refused. *)
Definition refuses : Np.Narrowing :=
  fun _ => Raise OverflowError.

(** An episode of [n] steps that pays [r] at each step. *)
Definition flat_episode (n : nat) (r : Q) : Episode.t :=
  Episode.Build (replicate n [0%Q]) (replicate n r) (replicate n 0)
    (fold_left Qplus (replicate n r) 0%Q).

End Toy.

(* ===================================================================== *)
(** * Properties *)
(* ===================================================================== *)

(** In a goal [c = Ok v -> ...] about a sequence of calls, keep the case in
    which the first call returns; the other two cases contradict the
    hypothesis. *)
Ltac returns :=
  match goal with
  | |- mbind _ ?e = Ok _ -> _ =>
      destruct e as [?| |]; [|discriminate|discriminate];
      cbn [mbind result_bind]
  end.

(** ** Comparisons on floats *)

Lemma gt_true (x y : Q) : Np.gt x y = true <-> (y < x)%Q.
Proof.
  unfold Np.gt. rewrite negb_true_iff, <- not_true_iff_false, Qle_bool_iff.
  split; [apply Qnot_le_lt | apply Qlt_not_le].
Qed.

Lemma gt_false (x y : Q) : Np.gt x y = false <-> (x <= y)%Q.
Proof. unfold Np.gt. rewrite negb_false_iff. apply Qle_bool_iff. Qed.

Lemma ge_true (x y : Q) : Np.ge x y = true <-> (y <= x)%Q.
Proof. apply Qle_bool_iff. Qed.

Lemma py_max_lower (a b : Q) : (a <= Py.max a b)%Q.
Proof.
  unfold Py.max. destruct (Qle_bool b a) eqn:E; [apply Qle_refl|].
  apply Qlt_le_weak, Qnot_le_lt. rewrite <- Qle_bool_iff, E. discriminate.
Qed.

Lemma py_max_upper (a b c : Q) : (a <= c)%Q -> (b <= c)%Q -> (Py.max a b <= c)%Q.
Proof. unfold Py.max. destruct (Qle_bool b a); auto. Qed.

Lemma py_max_right (a b : Q) : (a < b)%Q -> Py.max a b = b.
Proof.
  intros H. unfold Py.max. destruct (Qle_bool b a) eqn:E; [|reflexivity].
  apply Qle_bool_iff in E. exfalso. exact (Qlt_not_le _ _ H E).
Qed.

Lemma py_max_left (a b : Q) : (b <= a)%Q -> Py.max a b = a.
Proof.
  intros H. unfold Py.max. apply Qle_bool_iff in H. now rewrite H.
Qed.

(** ** [np.argmax] and [np.max] *)

Lemma argmax_from_spec (l pre : list Q) (best_i : nat) (best : Q) :
  pre !! best_i = Some best ->
  (forall j x, pre !! j = Some x -> (x <= best)%Q) ->
  (forall j x, (j < best_i)%nat -> pre !! j = Some x -> (x < best)%Q) ->
  first_maximizer (pre ++ l) (Np.argmax_from best_i best (length pre) l).
Proof.
  revert pre best_i best.
  induction l as [|x l IH]; intros pre best_i best Hb Hmax Hfirst; simpl.
  - rewrite app_nil_r. exists best. auto.
  - assert (Hlen : length (pre ++ [x]) = S (length pre))
      by (rewrite length_app; simpl; lia).
    replace (pre ++ x :: l) with ((pre ++ [x]) ++ l)
      by (rewrite <- app_assoc; reflexivity).
    destruct (Np.gt x best) eqn:E; rewrite <- Hlen.
    + apply gt_true in E.
      apply IH.
      * rewrite lookup_app_r by lia. now rewrite Nat.sub_diag.
      * intros j y Hj. apply lookup_app_Some in Hj as [Hj|[Hge Hj]].
        -- apply Qlt_le_weak. eapply Qle_lt_trans; [eapply Hmax; eauto | exact E].
        -- destruct (j - length pre)%nat; simpl in Hj; [|discriminate].
           injection Hj as <-. apply Qle_refl.
      * intros j y Hlt Hj. rewrite lookup_app_l in Hj by lia.
        eapply Qle_lt_trans; [eapply Hmax; eauto | exact E].
    + apply gt_false in E.
      apply IH.
      * apply lookup_app_l_Some. exact Hb.
      * intros j y Hj. apply lookup_app_Some in Hj as [Hj|[Hge Hj]].
        -- eauto.
        -- destruct (j - length pre)%nat; simpl in Hj; [|discriminate].
           injection Hj as <-. exact E.
      * intros j y Hlt Hj.
        assert (best_i < length pre)%nat by (eapply lookup_lt_Some; eauto).
        rewrite lookup_app_l in Hj by lia. eauto.
Qed.

Lemma argmax_spec (v : list Q) :
  v <> [] ->
  exists i : nat, Np.argmax v = Ok (Z.of_nat i) /\ first_maximizer v i.
Proof.
  destruct v as [|x l]; [congruence|]. intros _.
  exists (Np.argmax_from 0 x 1 l). split; [reflexivity|].
  apply (argmax_from_spec l [x] 0 x).
  - reflexivity.
  - intros [|j] y Hj; simpl in Hj; [|discriminate].
    injection Hj as <-. apply Qle_refl.
  - intros j y Hlt. lia.
Qed.

Lemma max_fold_spec (l : list Q) (x : Q) :
  maximum (x :: l) (fold_left (fun m y => if Np.gt y m then y else m) l x).
Proof.
  revert x. induction l as [|y l IH]; intros x; simpl.
  - split; [left|]. intros z Hz. apply list_elem_of_singleton in Hz as ->.
    apply Qle_refl.
  - destruct (Np.gt y x) eqn:E.
    + apply gt_true in E. destruct (IH y) as [Hin Hmax]. split.
      * right. exact Hin.
      * intros z Hz. apply elem_of_cons in Hz as [->|Hz]; [|auto].
        apply Qlt_le_weak. eapply Qlt_le_trans; [exact E|]. apply Hmax. left.
    + apply gt_false in E. destruct (IH x) as [Hin Hmax]. split.
      * apply elem_of_cons in Hin as [->|Hin]; [left|right; right; exact Hin].
      * intros z Hz. apply elem_of_cons in Hz as [->|Hz]; [apply Hmax; left|].
        apply elem_of_cons in Hz as [->|Hz].
        -- eapply Qle_trans; [exact E|]. apply Hmax. left.
        -- apply Hmax. right. exact Hz.
Qed.

Lemma max_spec (v : list Q) :
  v <> [] -> exists m, Np.max v = Ok m /\ maximum v m.
Proof.
  destruct v as [|x l]; [congruence|]. intros _.
  eexists. split; [reflexivity|]. apply max_fold_spec.
Qed.

(** ** Indexing *)

Lemma index_nonneg (n : nat) (i : Z) :
  0 <= i < Z.of_nat n -> Py.index n i = Ok (Z.to_nat i).
Proof.
  intros H. unfold Py.index.
  destruct (Z.leb_spec 0 i), (Z.ltb_spec i (Z.of_nat n)); simpl; try lia.
  reflexivity.
Qed.

Lemma index_negative (n : nat) (i : Z) :
  - Z.of_nat n <= i < 0 -> Py.index n i = Ok (Z.to_nat (Z.of_nat n + i)).
Proof.
  intros H. unfold Py.index.
  destruct (Z.leb_spec 0 i); simpl; [lia|].
  destruct (Z.leb_spec (- Z.of_nat n) i), (Z.ltb_spec i 0); simpl; try lia.
  reflexivity.
Qed.

Lemma index_outside (n : nat) (i : Z) :
  i < - Z.of_nat n \/ Z.of_nat n <= i -> Py.index n i = Raise IndexError.
Proof.
  intros H. unfold Py.index.
  destruct (Z.leb_spec 0 i), (Z.ltb_spec i (Z.of_nat n)),
    (Z.leb_spec (- Z.of_nat n) i), (Z.ltb_spec i 0); simpl; try lia; reflexivity.
Qed.

Lemma getitem_nonneg {A : Type} (l : list A) (i : Z) (x : A) :
  0 <= i -> l !! Z.to_nat i = Some x -> Py.getitem l i = Ok x.
Proof.
  intros Hi Hx. unfold Py.getitem.
  rewrite index_nonneg; [simpl; now rewrite Hx|].
  apply lookup_lt_Some in Hx. lia.
Qed.

Lemma getitem_outside {A : Type} (l : list A) (i : Z) :
  i < - Z.of_nat (length l) \/ Z.of_nat (length l) <= i ->
  Py.getitem l i = Raise IndexError.
Proof. intros H. unfold Py.getitem. now rewrite index_outside. Qed.

Lemma getitem_first (s : list Q) :
  s <> [] -> exists p, s !! 0%nat = Some p /\ Py.getitem s 0 = Ok p.
Proof.
  destruct s as [|p s]; [congruence|]. intros _. exists p. split; reflexivity.
Qed.

Lemma setitem_nonneg {A : Type} (l : list A) (i : Z) (x : A) :
  0 <= i < Z.of_nat (length l) -> Py.setitem l i x = Ok (<[Z.to_nat i := x]> l).
Proof. intros H. unfold Py.setitem. now rewrite index_nonneg. Qed.

(** ** The bounded deque *)

Section DequeFacts.

Context {A : Type}.
Implicit Types (d : Deque.t A) (x : A) (l : list A).

Lemma append_maxlen d x : Deque.maxlen (Deque.append d x) = Deque.maxlen d.
Proof. unfold Deque.append. now destruct (_ <? _). Qed.

(** A deque within its bound stays within it. *)
Lemma append_bounded d x :
  0 <= Deque.maxlen d ->
  Deque.len d <= Deque.maxlen d ->
  Deque.len (Deque.append d x) <= Deque.maxlen d.
Proof.
  unfold Deque.len, Deque.append. intros H0 H.
  destruct (Z.ltb_spec (Deque.maxlen d) (Z.of_nat (length (Deque.items d ++ [x]))))
    as [Hlt|Hge]; simpl.
  - rewrite length_drop, length_app. simpl. lia.
  - exact Hge.
Qed.

(** Below the bound nothing is evicted. *)
Lemma append_room d x :
  Deque.len d < Deque.maxlen d ->
  Deque.items (Deque.append d x) = Deque.items d ++ [x].
Proof.
  unfold Deque.len, Deque.append. intros H.
  destruct (Z.ltb_spec (Deque.maxlen d) (Z.of_nat (length (Deque.items d ++ [x]))))
    as [Hlt|Hge]; simpl; [|reflexivity].
  rewrite length_app in Hlt. simpl in Hlt. lia.
Qed.

(** At the bound the oldest element leaves. *)
Lemma append_full d x old rest :
  Deque.items d = old :: rest ->
  Deque.len d = Deque.maxlen d ->
  Deque.items (Deque.append d x) = rest ++ [x].
Proof.
  unfold Deque.len, Deque.append. intros Hitems H. rewrite Hitems in *.
  destruct (Z.ltb_spec (Deque.maxlen d) (Z.of_nat (length ((old :: rest) ++ [x]))))
    as [Hlt|Hge]; simpl.
  - now rewrite drop_0.
  - rewrite length_app in Hge. simpl in *. lia.
Qed.

(** After any pushes into an empty deque, the deque holds the most recent
    [maxlen] of them, oldest first. *)
Lemma appends_recent (n : Z) (ts : list A) :
  0 <= n ->
  Deque.items (fold_left Deque.append ts (Deque.Build [] n))
  = drop (length ts - Z.to_nat n) ts
  /\ Deque.maxlen (fold_left Deque.append ts (Deque.Build [] n)) = n.
Proof.
  intros Hn. induction ts as [|t ts IH] using rev_ind; [split; reflexivity|].
  rewrite fold_left_app. cbn [fold_left]. destruct IH as [IHi IHm].
  split; [|now rewrite append_maxlen].
  set (d := fold_left Deque.append ts _) in *.
  unfold Deque.append. rewrite IHm, IHi.
  rewrite !length_app, length_drop. cbn [length].
  rewrite <- (drop_app_le ts [t]) by lia.
  destruct (Z.ltb_spec n (Z.of_nat (length ts - (length ts - Z.to_nat n) + 1)))
    as [Hlt|Hge]; simpl.
  - rewrite drop_drop. f_equal. lia.
  - f_equal. lia.
Qed.

End DequeFacts.

(** ** The episode batch *)

(** C10. [add_episode] raises [ValueError] exactly when [current_size] has
    reached [max_size] at the call, and then leaves the batch as it was;
    otherwise it appends the episode and adds the episode's length to
    [current_size]. Fullness is tested before the insertion only, so a
    successful call can take [current_size] past [max_size]. *)
Theorem add_episode_full_or_appends (self : EpisodesBatch.t) (episode : Episode.t) :
  ((EpisodesBatch.add_episode episode self).1 = Raise ValueError
     <-> EpisodesBatch.max_size self <= EpisodesBatch.current_size self)
  /\ (EpisodesBatch.max_size self <= EpisodesBatch.current_size self ->
      EpisodesBatch.add_episode episode self = (Raise ValueError, self))
  /\ (EpisodesBatch.current_size self < EpisodesBatch.max_size self ->
      EpisodesBatch.add_episode episode self
      = (Ok (),
         EpisodesBatch.Build
           (EpisodesBatch.episodes self ++ [episode])
           (EpisodesBatch.max_size self)
           (EpisodesBatch.current_size self + Episode.len episode)))
  /\ (EpisodesBatch.current_size self < EpisodesBatch.max_size self ->
      EpisodesBatch.max_size self - EpisodesBatch.current_size self
        < Episode.len episode ->
      EpisodesBatch.max_size (EpisodesBatch.add_episode episode self).2
        < EpisodesBatch.current_size (EpisodesBatch.add_episode episode self).2).
Proof.
  unfold EpisodesBatch.add_episode, EpisodesBatch.is_full.
  destruct (Z.leb_spec (EpisodesBatch.max_size self)
              (EpisodesBatch.current_size self)) as [Hfull|Hroom]; simpl.
  - repeat split; intros; try reflexivity; try assumption; lia.
  - repeat split; intros; try reflexivity; try discriminate; lia.
Qed.

Lemma add_episode_full_or_appends_witness :
  let self := EpisodesBatch.Build [] 2 0 in
  let episode := Episode.Build [[0%Q]; [1%Q]; [2%Q]] [1%Q; 1%Q; 1%Q] [0; 1; 0] 3%Q in
  EpisodesBatch.add_episode episode self
  = (Ok (), EpisodesBatch.Build [episode] 2 3)
  /\ EpisodesBatch.max_size (EpisodesBatch.add_episode episode self).2
     < EpisodesBatch.current_size (EpisodesBatch.add_episode episode self).2.
Proof.
  intros self episode.
  destruct (add_episode_full_or_appends self episode) as (_ & _ & Happend & Hpast).
  split.
  - apply Happend. reflexivity.
  - apply Hpast; reflexivity.
Defined.

(** ** The grid world *)

Lemma execute_player_action_outside (self : MoveToGoal.t) (action : Z) :
  action < - Z.of_nat (length (MoveToGoal.actions self))
  \/ Z.of_nat (length (MoveToGoal.actions self)) <= action ->
  MoveToGoal.execute_player_action action self = (Raise IndexError, self).
Proof.
  intros H. unfold MoveToGoal.execute_player_action.
  now rewrite getitem_outside.
Qed.

(** A negative index in [-4, 0) names the same action as the index plus 4. *)
Lemma execute_player_action_wraps (self : MoveToGoal.t) (action : Z) :
  MoveToGoal.actions self = ["up"; "right"; "down"; "left"]%string ->
  -4 <= action < 0 ->
  MoveToGoal.execute_player_action action self
  = MoveToGoal.execute_player_action (action + 4) self.
Proof.
  intros Hactions H. unfold MoveToGoal.execute_player_action. rewrite Hactions.
  assert (action = -4 \/ action = -3 \/ action = -2 \/ action = -1) as Hcases by lia.
  destruct Hcases as [-> | [-> | [-> | ->]]]; reflexivity.
Qed.

(** C8 (the code departs from the claim). The index [-1] is not in [0, 4),
    yet [execute_player_action] does not raise on it: the list lookup reads
    it as the last action, ["left"], and the player moves from (1, 1) to
    (0, 1). *)
Theorem execute_player_action_accepts_negative_index :
  MoveToGoal.player Toy.grid = Some (1, 1)
  /\ (MoveToGoal.execute_player_action (-1) Toy.grid).1 = Ok ()
  /\ MoveToGoal.player (MoveToGoal.execute_player_action (-1) Toy.grid).2
     = Some (0, 1)
  /\ MoveToGoal.execute_player_action (-1) Toy.grid
     = MoveToGoal.execute_player_action 3 Toy.grid.
Proof. repeat split; reflexivity. Qed.

Lemma zeros_shaped (x y : Z) :
  0 <= x -> 0 <= y -> exists b, MoveToGoal.zeros x y = Ok b /\ shaped b x y.
Proof.
  intros Hx Hy. unfold MoveToGoal.zeros.
  destruct (Z.ltb_spec x 0), (Z.ltb_spec y 0); try lia. simpl.
  eexists. split; [reflexivity|]. split.
  - rewrite length_replicate. lia.
  - apply Forall_replicate. rewrite length_replicate. lia.
Qed.

Lemma paint_shaped (b : list (list MoveToGoal.rgb)) (nx ny x y : Z)
    (c : MoveToGoal.rgb) :
  shaped b nx ny -> 0 <= x < nx -> 0 <= y < ny ->
  exists b', MoveToGoal.paint b (Some (x, y)) c = Ok b' /\ shaped b' nx ny.
Proof.
  intros [Hlen Hrows] Hx Hy. unfold MoveToGoal.paint.
  destruct (lookup_lt_is_Some_2 b (Z.to_nat x)) as [r Hr]; [lia|].
  assert (Hrlen : Z.of_nat (length r) = ny)
    by (eapply (proj1 (Forall_lookup _ _) Hrows); eauto).
  rewrite (getitem_nonneg b x r) by (lia || assumption). simpl.
  rewrite setitem_nonneg by lia. simpl.
  rewrite setitem_nonneg by lia.
  eexists. split; [reflexivity|]. split.
  - rewrite length_insert. exact Hlen.
  - apply Forall_insert; [exact Hrows|]. rewrite length_insert. exact Hrlen.
Qed.

Lemma generate_board_on_board (self : MoveToGoal.t) :
  MoveToGoal.on_board self (MoveToGoal.player self) ->
  MoveToGoal.on_board self (MoveToGoal.goal self) ->
  exists b,
    MoveToGoal.generate_board self = (Ok (), MoveToGoal.set_board (Some b) self).
Proof.
  unfold MoveToGoal.on_board, MoveToGoal.generate_board.
  destruct (MoveToGoal.player self) as [[px py]|]; [|tauto].
  destruct (MoveToGoal.goal self) as [[gx gy]|]; [|tauto].
  intros Hp Hg.
  destruct (zeros_shaped (MoveToGoal.board_x self) (MoveToGoal.board_y self))
    as (b0 & E0 & Hb0); [lia|lia|].
  destruct (paint_shaped b0 _ _ px py MoveToGoal.color_player Hb0)
    as (b1 & E1 & Hb1); [lia|lia|].
  destruct (paint_shaped b1 _ _ gx gy MoveToGoal.color_goal Hb1)
    as (b2 & E2 & Hb2); [lia|lia|].
  exists b2. rewrite E0. cbv beta iota. rewrite E1. cbv beta iota. now rewrite E2.
Qed.

Lemma moved_on_board (self : MoveToGoal.t) (name : string) (x y : Z) :
  name ∈ ["up"; "right"; "down"; "left"]%string ->
  MoveToGoal.on_board self (Some (x, y)) ->
  exists p, MoveToGoal.moved self name x y = Ok p
            /\ MoveToGoal.on_board self (Some p).
Proof.
  intros Hname Hon. unfold MoveToGoal.on_board in *.
  repeat (apply elem_of_cons in Hname as [-> | Hname]);
    [| | | | apply elem_of_nil in Hname; contradiction];
    unfold MoveToGoal.moved; simpl.
  - destruct (Z.ltb_spec y (MoveToGoal.board_y self - 1));
      eexists; (split; [reflexivity|]); simpl; lia.
  - destruct (Z.ltb_spec x (MoveToGoal.board_x self - 1));
      eexists; (split; [reflexivity|]); simpl; lia.
  - destruct (Z.ltb_spec 0 y);
      eexists; (split; [reflexivity|]); simpl; lia.
  - destruct (Z.ltb_spec 0 x);
      eexists; (split; [reflexivity|]); simpl; lia.
Qed.

Lemma getitem_actions (action : Z) :
  -4 <= action < 4 ->
  exists name, Py.getitem ["up"; "right"; "down"; "left"]%string action = Ok name
               /\ name ∈ ["up"; "right"; "down"; "left"]%string.
Proof.
  intros H.
  assert (action = -4 \/ action = -3 \/ action = -2 \/ action = -1
          \/ action = 0 \/ action = 1 \/ action = 2 \/ action = 3) as Hcases by lia.
  destruct Hcases as [-> | [-> | [-> | [-> | [-> | [-> | [-> | ->]]]]]]];
    eexists; (split; [reflexivity|]); repeat constructor.
Qed.

(** In a game in play, any index the action list accepts moves the player
    to a cell of the board. *)
Lemma execute_player_action_in_play (self : MoveToGoal.t) (action : Z) :
  MoveToGoal.in_play self -> -4 <= action < 4 ->
  exists p b,
    MoveToGoal.execute_player_action action self
    = (Ok (), MoveToGoal.set_board (Some b) (MoveToGoal.set_player (Some p) self))
    /\ MoveToGoal.on_board self (Some p).
Proof.
  intros (Hp & Hg & Hactions) Haction. unfold MoveToGoal.execute_player_action.
  rewrite Hactions.
  destruct (getitem_actions action Haction) as (name & Ename & Hname).
  destruct (MoveToGoal.player self) as [[x y]|] eqn:Hplayer; [|contradiction].
  destruct (moved_on_board self name x y Hname Hp) as (p & Ep & Hon).
  destruct (generate_board_on_board (MoveToGoal.set_player (Some p) self))
    as (b & Eb); [exact Hon | exact Hg |].
  exists p, b. rewrite Ename. cbv beta iota. rewrite Ep.
  split; [exact Eb | exact Hon].
Qed.

(** ** The replay memory *)

Section ReplayMemory.

Context {net : DQN.Network} {environment : DQN.Environment}.
Implicit Types (self : DQN.Agent) (t : DQN.Transition) (ts : list DQN.Transition).

Lemma pushes_replay_memory ts self :
  DQN.replay_memory (DQN.pushes ts self)
  = fold_left Deque.append ts (DQN.replay_memory self).
Proof.
  revert self. induction ts as [|t ts IH]; intros self; [reflexivity|].
  unfold DQN.pushes in *. simpl. now rewrite IH.
Qed.

Lemma init_replay_memory made fresh fresh_target size min_size batch every self :
  DQN.init made fresh fresh_target size min_size batch every = Ok self ->
  0 <= size /\ DQN.replay_memory self = Deque.Build [] size.
Proof.
  unfold DQN.init, Deque.new. destruct (Z.ltb_spec size 0); simpl; [discriminate|].
  intros [= <-]. split; [assumption | reflexivity].
Qed.

(** C2. Whatever is pushed into the memory of a newly built agent, the
    memory never holds more than [replay_memory_size] transitions; it holds
    the most recent ones in the order they came; a push into a memory at
    capacity drops exactly the oldest transition; and seven pushes into a
    memory of capacity 5 leave the third to the seventh, in that order. *)
Theorem replay_memory_bounded_fifo
    made fresh fresh_target size min_size batch every self :
  DQN.init made fresh fresh_target size min_size batch every = Ok self ->
  (forall ts, Deque.len (DQN.replay_memory (DQN.pushes ts self)) <= size)
  /\ (forall ts,
        Deque.items (DQN.replay_memory (DQN.pushes ts self))
        = drop (length ts - Z.to_nat size) ts)
  /\ (forall ts t old rest,
        Deque.items (DQN.replay_memory (DQN.pushes ts self)) = old :: rest ->
        Deque.len (DQN.replay_memory (DQN.pushes ts self)) = size ->
        Deque.items
          (DQN.replay_memory (DQN.update_replay_memory t (DQN.pushes ts self)))
        = rest ++ [t])
  /\ (size = 5 ->
      forall t1 t2 t3 t4 t5 t6 t7,
        Deque.items
          (DQN.replay_memory (DQN.pushes [t1; t2; t3; t4; t5; t6; t7] self))
        = [t3; t4; t5; t6; t7]).
Proof.
  intros Hinit. apply init_replay_memory in Hinit as [Hsize Hempty].
  assert (Hrecent : forall ts,
             Deque.items (DQN.replay_memory (DQN.pushes ts self))
             = drop (length ts - Z.to_nat size) ts
             /\ Deque.maxlen (DQN.replay_memory (DQN.pushes ts self)) = size).
  { intros ts. rewrite pushes_replay_memory, Hempty. now apply appends_recent. }
  repeat split.
  - intros ts. unfold Deque.len. rewrite (proj1 (Hrecent ts)), length_drop. lia.
  - intros ts. apply Hrecent.
  - intros ts t old rest Hitems Hfull. simpl.
    eapply append_full; [exact Hitems|]. now rewrite (proj2 (Hrecent ts)).
  - intros -> t1 t2 t3 t4 t5 t6 t7. now rewrite (proj1 (Hrecent _)).
Qed.

End ReplayMemory.

Lemma replay_memory_bounded_fifo_witness :
  Toy.init 5 2 2 3 = Ok (Toy.fresh 5 2 2 3)
  /\ Deque.items
       (DQN.replay_memory
          (DQN.pushes (map Toy.labelled [1; 2; 3; 4; 5; 6; 7]) (Toy.fresh 5 2 2 3)))
     = map Toy.labelled [3; 4; 5; 6; 7].
Proof.
  split; [reflexivity|].
  exact (proj2 (proj2 (proj2
    (replay_memory_bounded_fifo (net := Toy.net) (environment := Toy.environment)
       0 Toy.model0 Toy.model1 5 2 2 3 (Toy.fresh 5 2 2 3) eq_refl)))
    eq_refl _ _ _ _ _ _ _).
Defined.

(** ** [training_step] *)

Section TrainingStep.

Context {net : DQN.Network} {environment : DQN.Environment} {rnd : DQN.Random}.
Implicit Types (self : DQN.Agent) (g : DQN.Rng) (t : DQN.Transition).

(** C5. While the memory holds fewer than [min_replay_memory_size]
    transitions, [training_step] returns at once: nothing is drawn from the
    generator and the agent, with both networks, is what it was; the same
    holds for any number of such calls in a row. *)
Theorem training_step_below_threshold discount self g (n : nat) :
  Deque.len (DQN.replay_memory self) < DQN.min_replay_memory_size self ->
  DQN.training_step discount (self, g) = Ok (self, g)
  /\ DQN.training_steps n discount (self, g) = Ok (self, g).
Proof.
  intros Hlow.
  assert (Hstep : DQN.training_step discount (self, g) = Ok (self, g)).
  { unfold DQN.training_step.
    destruct (Z.ltb_spec (Deque.len (DQN.replay_memory self))
                (DQN.min_replay_memory_size self)); [reflexivity | lia]. }
  split; [exact Hstep|].
  induction n as [|n IH]; [reflexivity|].
  cbn [DQN.training_steps]. rewrite Hstep. exact IH.
Qed.

(** C6, as the code has it. [training_step] calls [random.sample] in one
    place, behind the fill check: on a memory below
    [min_replay_memory_size] it returns at once and draws nothing, and on
    any other memory it asks for [batch_size] of the stored transitions and
    goes on with what it gets. When [batch_size] lies between 0 and
    [min_replay_memory_size], a call that gets past the check asks for no
    more transitions than the memory holds: the request is accepted and
    [training_step] goes on with the minibatch drawn, so the [ValueError]
    of [random.sample] does not occur. *)
Theorem sample_request_within_memory discount self g :
  let memory := Deque.items (DQN.replay_memory self) in
  DQN.training_step discount (self, g)
  = (if Deque.len (DQN.replay_memory self) <? DQN.min_replay_memory_size self
     then Ok (self, g)
     else '(minibatch, g') ← DQN.random_sample memory (DQN.batch_size self) g;
          DQN.fit_minibatch discount self minibatch g')
  /\ (0 <= DQN.batch_size self <= DQN.min_replay_memory_size self ->
      (Deque.len (DQN.replay_memory self) < DQN.min_replay_memory_size self ->
       DQN.training_step discount (self, g) = Ok (self, g))
      /\ (DQN.min_replay_memory_size self <= Deque.len (DQN.replay_memory self) ->
          DQN.batch_size self <= Deque.len (DQN.replay_memory self)
          /\ DQN.random_sample memory (DQN.batch_size self) g
             = Ok (DQN.sample_draw memory (DQN.batch_size self) g)
          /\ DQN.training_step discount (self, g)
             = DQN.fit_minibatch discount self
                 (DQN.sample_draw memory (DQN.batch_size self) g).1
                 (DQN.sample_draw memory (DQN.batch_size self) g).2)).
Proof.
  intros memory.
  assert (Hstep : DQN.training_step discount (self, g)
                  = (if Deque.len (DQN.replay_memory self)
                        <? DQN.min_replay_memory_size self
                     then Ok (self, g)
                     else '(minibatch, g') ←
                            DQN.random_sample memory (DQN.batch_size self) g;
                          DQN.fit_minibatch discount self minibatch g'))
    by reflexivity.
  split; [exact Hstep|]. intros Hbatch. rewrite Hstep. split; intros Hlen.
  - destruct (Z.ltb_spec (Deque.len (DQN.replay_memory self))
                (DQN.min_replay_memory_size self)); [reflexivity | lia].
  - assert (Hsample : DQN.random_sample memory (DQN.batch_size self) g
                      = Ok (DQN.sample_draw memory (DQN.batch_size self) g)).
    { unfold DQN.random_sample, Deque.len in *. fold memory in Hlen.
      destruct (Z.leb_spec 0 (DQN.batch_size self)),
        (Z.leb_spec (DQN.batch_size self) (Z.of_nat (length memory))); try lia.
      reflexivity. }
    split; [lia|]. split; [exact Hsample|].
    destruct (Z.ltb_spec (Deque.len (DQN.replay_memory self))
                (DQN.min_replay_memory_size self)); [lia|].
    rewrite Hsample. cbn [mbind result_bind].
    now destruct (DQN.sample_draw memory (DQN.batch_size self) g).
Qed.

End TrainingStep.

Lemma training_step_below_threshold_witness :
  DQN.training_step (rnd := Toy.rnd) (95 # 100)
    (DQN.pushes [Toy.labelled 1] (Toy.fresh 5 2 2 3), ())
  = Ok (DQN.pushes [Toy.labelled 1] (Toy.fresh 5 2 2 3), ()).
Proof.
  exact (proj1 (training_step_below_threshold (rnd := Toy.rnd) (95 # 100)
                  (DQN.pushes [Toy.labelled 1] (Toy.fresh 5 2 2 3)) () 4 eq_refl)).
Defined.

Lemma sample_request_within_memory_witness :
  let self := DQN.pushes (map Toy.labelled [1; 2; 3]) (Toy.fresh 5 2 2 3) in
  DQN.batch_size self <= Deque.len (DQN.replay_memory self)
  /\ DQN.training_step (rnd := Toy.rnd) (95 # 100) (self, ())
     = DQN.fit_minibatch (rnd := Toy.rnd) (95 # 100) self
         [Toy.labelled 1; Toy.labelled 2] ().
Proof.
  intros self.
  destruct (proj2 (sample_request_within_memory (rnd := Toy.rnd) (95 # 100) self ()))
    as [_ Hfilled].
  - vm_compute. split; discriminate.
  - destruct Hfilled as (Hle & _ & Hstep).
    + vm_compute. discriminate.
    + split; [exact Hle | exact Hstep].
Defined.

(** C6, as stated, fails: a newly built agent with [min_replay_memory_size]
    1 and [batch_size] 2 passes the fill check after one push, asks
    [random.sample] for 2 transitions out of 1, and [training_step] (and
    with it [train_agent]) raises [ValueError]. *)
Lemma sample_request_exceeds_memory :
  let self := DQN.pushes [Toy.labelled 1] (Toy.fresh 5 1 2 3) in
  Toy.init 5 1 2 3 = Ok (Toy.fresh 5 1 2 3)
  /\ (Deque.len (DQN.replay_memory self) <? DQN.min_replay_memory_size self) = false
  /\ Deque.len (DQN.replay_memory self) < DQN.batch_size self
  /\ DQN.random_sample (rnd := Toy.rnd) (Deque.items (DQN.replay_memory self))
       (DQN.batch_size self) () = Raise ValueError
  /\ DQN.training_step (rnd := Toy.rnd) (95 # 100) (self, ()) = Raise ValueError
  /\ DQN.train_agent (rnd := Toy.rnd) 5 7 1%Q None (95 # 100) 1
       (Toy.fresh 5 1 2 3, ()) = Raise ValueError.
Proof. repeat split; vm_compute; reflexivity. Qed.

(** ** The targets of [training_step] *)

Section Targets.

Context {net : DQN.Network} {environment : DQN.Environment} {rnd : DQN.Random}.
Implicit Types (self : DQN.Agent) (g : DQN.Rng) (t : DQN.Transition).

Variables (discount : Q) (w target_w : DQN.Weights).

Lemma new_q_backup (future_qs_list : list (list Q)) (index : nat) t :
  future_qs_list !! index = Some (DQN.forward target_w (DQN.new_state t)) ->
  DQN.trainable w target_w t ->
  exists q, DQN.new_q discount future_qs_list index t = Ok q
            /\ DQN.backup discount target_w t q.
Proof.
  intros Hrow [_ Hfuture]. unfold DQN.new_q, DQN.backup, DQN.row.
  destruct (DQN.done t); simpl.
  - eexists. split; reflexivity.
  - rewrite Hrow. simpl.
    destruct (max_spec _ (Hfuture eq_refl)) as (m & Em & Hm).
    rewrite Em. simpl. eexists. split; [reflexivity|]. eauto.
Qed.

Lemma fill_row (future_qs_list array : list (list Q)) (inputs : list (list Q))
    (views : list nat) (index : nat) t (q : Q) (current_qs : list Q) :
  DQN.new_q discount future_qs_list index t = Ok q ->
  array !! index = Some current_qs ->
  0 <= DQN.action t < Z.of_nat (length current_qs) ->
  DQN.fill discount future_qs_list (DQN.Build_Batch array inputs views) (index, t)
  = Ok (DQN.Build_Batch
          (<[index := <[Z.to_nat (DQN.action t) := q]> current_qs]> array)
          (inputs ++ [DQN.state t]) (views ++ [index])).
Proof.
  intros Eq Erow Haction. unfold DQN.fill, DQN.row. rewrite Eq. simpl.
  rewrite Erow. simpl. now rewrite setitem_nonneg.
Qed.

(** The loop over the enumerated minibatch, started after the transitions
    [pre] have been handled: it writes, for each remaining transition, its
    label into its own row and leaves the rows already written alone. *)
Lemma fill_loop (rest pre : list DQN.Transition) (written : list (list Q))
    (inputs : list (list Q)) (views : list nat) :
  length written = length pre ->
  Forall (DQN.trainable w target_w) rest ->
  exists labels,
    Forall2 (DQN.label_for discount w target_w) rest labels
    /\ DQN.for_each
         (DQN.fill discount
            (map (fun t => DQN.forward target_w (DQN.new_state t)) (pre ++ rest)))
         (zip (seq (length pre) (length rest)) rest)
         (DQN.Build_Batch
            (written ++ map (fun t => DQN.forward w (DQN.state t)) rest)
            inputs views)
       = Ok (DQN.Build_Batch (written ++ labels)
               (inputs ++ map DQN.state rest)
               (views ++ seq (length pre) (length rest))).
Proof.
  revert pre written inputs views.
  induction rest as [|t rest IH]; intros pre written inputs views Hlen Hok.
  - exists []. split; [constructor|]. simpl. now rewrite !app_nil_r.
  - apply Forall_cons in Hok as [Ht Hrest].
    destruct (new_q_backup
                (map (fun t => DQN.forward target_w (DQN.new_state t)) (pre ++ t :: rest))
                (length pre) t) as (q & Eq & Hq); [|exact Ht|].
    { rewrite list_lookup_fmap, list_lookup_middle by reflexivity. reflexivity. }
    set (label := <[Z.to_nat (DQN.action t) := q]> (DQN.forward w (DQN.state t))).
    destruct (IH (pre ++ [t]) (written ++ [label]) (inputs ++ [DQN.state t])
                (views ++ [length pre])) as (labels & Hlabels & Eloop).
    { rewrite !length_app. simpl. lia. }
    { exact Hrest. }
    exists (label :: labels). split.
    + constructor; [|exact Hlabels].
      exists q. repeat split; [exact Hq | |].
      * apply list_lookup_insert_eq. destruct Ht as [Ha _]. lia.
      * intros j Hj. apply list_lookup_insert_ne. congruence.
    + cbn [length seq zip zip_with DQN.for_each map].
      rewrite (fill_row _ _ _ _ _ _ q (DQN.forward w (DQN.state t)) Eq);
        [| now apply list_lookup_middle | now destruct Ht].
      cbn [mbind result_bind].
      replace (<[length pre := _]> (written ++ _))
        with ((written ++ [label])
              ++ map (fun t => DQN.forward w (DQN.state t)) rest).
      2:{ rewrite <- Hlen, <- (Nat.add_0_r (length written)), insert_app_r.
          simpl. now rewrite <- app_assoc. }
      rewrite length_app, Nat.add_1_r in Eloop.
      rewrite <- (app_assoc pre [t] rest) in Eloop. simpl in Eloop.
      rewrite Eloop. simpl. now rewrite <- !app_assoc.
Qed.

Lemma read_rows_all (rows pre : list (list Q)) :
  DQN.read_rows (pre ++ rows) (seq (length pre) (length rows)) = Ok rows.
Proof.
  revert pre. induction rows as [|r rows IH]; intros pre; [reflexivity|].
  cbn [length seq DQN.read_rows]. unfold DQN.row.
  rewrite list_lookup_middle by reflexivity. cbn [mbind result_bind].
  specialize (IH (pre ++ [r])). rewrite length_app, Nat.add_1_r in IH.
  rewrite <- app_assoc in IH. simpl in IH. now rewrite IH.
Qed.

End Targets.

Section TrainingTargets.

Context {net : DQN.Network} {environment : DQN.Environment} {rnd : DQN.Random}.

(** C1. When [training_step] trains, the labels it hands to [train_step]
    are, transition by transition of the minibatch, the main model's
    current prediction for the transition's state with the component of
    the taken action alone replaced: by the reward for a terminal
    transition, by the reward plus the discounted largest value the target
    network predicts for the next state otherwise. All other components are
    the main model's own prediction. The inputs are the minibatch's states. *)
Theorem training_step_targets (discount : Q) (self : DQN.Agent) (g : DQN.Rng) :
  let memory := Deque.items (DQN.replay_memory self) in
  let minibatch := (DQN.sample_draw memory (DQN.batch_size self) g).1 in
  let g' := (DQN.sample_draw memory (DQN.batch_size self) g).2 in
  let w := DQN.weights (DQN.model self) in
  let target_w := DQN.weights (DQN.target_model self) in
  (Deque.len (DQN.replay_memory self) <? DQN.min_replay_memory_size self) = false ->
  0 <= DQN.batch_size self <= Deque.len (DQN.replay_memory self) ->
  Forall (DQN.trainable w target_w) minibatch ->
  exists labels,
    Forall2 (DQN.label_for discount w target_w) minibatch labels
    /\ DQN.training_step discount (self, g)
       = Ok (DQN.with_model
               (DQN.train_step (DQN.model self) (map DQN.state minibatch) labels)
               self, g').
Proof.
  intros memory minibatch g' w target_w Hfilled Hbatch Hok.
  destruct (fill_loop discount w target_w minibatch [] [] [] [] eq_refl Hok)
    as (labels & Hlabels & Eloop).
  exists labels. split; [exact Hlabels|].
  unfold DQN.training_step. rewrite Hfilled.
  unfold DQN.random_sample. fold memory.
  replace ((0 <=? DQN.batch_size self)
           && (DQN.batch_size self <=? Z.of_nat (length memory))) with true.
  2:{ symmetry. apply andb_true_iff. unfold Deque.len in Hbatch. fold memory in Hbatch.
      split; apply Z.leb_le; lia. }
  cbn [mbind result_bind].
  subst minibatch g'. destruct (DQN.sample_draw memory (DQN.batch_size self) g)
    as [minibatch g'].
  cbn [fst snd] in *. unfold DQN.enumerate, DQN.predict, DQN.call.
  simpl in Eloop. fold w target_w. rewrite !map_map, Eloop. cbn [mbind result_bind].
  cbn [DQN.current_qs_array DQN.target_q_values DQN.states_input].
  pose proof (read_rows_all labels []) as Eread. simpl in Eread.
  apply Forall2_length in Hlabels. rewrite Hlabels, Eread. reflexivity.
Qed.

End TrainingTargets.

Lemma training_step_targets_witness :
  let self := DQN.pushes (map Toy.labelled [1; 2; 3]) (Toy.fresh 5 2 2 3) in
  exists labels,
    Forall2 (DQN.label_for (net := Toy.net) (95 # 100)
               (DQN.weights (DQN.model self)) (DQN.weights (DQN.target_model self)))
      [Toy.labelled 1; Toy.labelled 2] labels
    /\ DQN.training_step (rnd := Toy.rnd) (95 # 100) (self, ())
       = Ok (DQN.with_model
               (DQN.train_step (DQN.model self)
                  (map DQN.state [Toy.labelled 1; Toy.labelled 2]) labels)
               self, ()).
Proof.
  intros self.
  apply (training_step_targets (rnd := Toy.rnd) (95 # 100) self ()).
  - reflexivity.
  - vm_compute. split; discriminate.
  - repeat constructor; vm_compute; discriminate.
Defined.

(** ** Refreshing the target network *)

Section TargetSync.

Context {net : DQN.Network} {environment : DQN.Environment}.
Implicit Types (self : DQN.Agent) (t : DQN.Transition) (wins : list bool).

Lemma with_same_counter self :
  DQN.with_target_update_counter (DQN.target_update_counter self) self = self.
Proof. now destruct self. Qed.

Lemma count_terminal_counts t self wins :
  (DQN.done t = true -> DQN.new_state t <> []) ->
  exists wins',
    DQN.count_terminal t self wins
    = Ok (DQN.with_target_update_counter
            (DQN.target_update_counter self + (if DQN.done t then 1 else 0)) self,
          wins').
Proof.
  intros Hstate. unfold DQN.count_terminal. destruct (DQN.done t).
  - destruct (getitem_first _ (Hstate eq_refl)) as (p & _ & ->). simpl.
    eexists. reflexivity.
  - exists wins. now rewrite Z.add_0_r, with_same_counter.
Qed.

Lemma sync_due_spec self :
  DQN.update_target_every self <> 0 ->
  DQN.sync_due self
  = Ok ((DQN.target_update_counter self mod DQN.update_target_every self =? 0)
        && (0 <? DQN.target_update_counter self)).
Proof.
  intros Hevery. unfold DQN.sync_due, Py.mod_.
  destruct (Z.eqb_spec (DQN.update_target_every self) 0); [contradiction|].
  reflexivity.
Qed.

Lemma sync_due_zero self :
  DQN.update_target_every self = 0 -> DQN.sync_due self = Raise ZeroDivisionError.
Proof. intros Hevery. unfold DQN.sync_due, Py.mod_. now rewrite Hevery. Qed.

Lemma sync_target_spec self :
  DQN.update_target_every self <> 0 ->
  DQN.sync_target self
  = Ok (if (DQN.target_update_counter self mod DQN.update_target_every self =? 0)
           && (0 <? DQN.target_update_counter self)
        then DQN.with_target_update_counter 0
               (DQN.with_target_model
                  (DQN.set_weights (DQN.get_weights (DQN.model self))
                     (DQN.target_model self)) self)
        else self).
Proof.
  intros Hevery. unfold DQN.sync_target. rewrite sync_due_spec by assumption.
  simpl. now destruct (_ && _).
Qed.

End TargetSync.

(** ** The exploration rate *)

Lemma effective_epsilon_floor (epsilon : Q) (k : nat) :
  (DQN.epsilon_min <= DQN.effective_epsilon epsilon k)%Q.
Proof. destruct k; apply py_max_lower. Qed.

Lemma effective_epsilon_decreases (epsilon : Q) (k : nat) :
  (DQN.effective_epsilon epsilon (S k) <= DQN.effective_epsilon epsilon k)%Q.
Proof.
  cbn [DQN.effective_epsilon]. apply py_max_upper.
  - apply effective_epsilon_floor.
  - unfold DQN.epsilon_decay_value. lra.
Qed.

Section Exploration.

Context {net : DQN.Network} {environment : DQN.Environment} {rnd : DQN.Random}.

Variables (fuel : nat) (episodes : Z) (epsilon : Q) (show_every : Z)
          (discount : Q) (cycle : Z).

Lemma run_episode_unfold (tr : DQN.Training) (current_epsilon : Q) (episode : Z) :
  DQN.run_episode fuel episodes show_every discount cycle (tr, current_epsilon) episode
  = (tr' ← DQN.episode_at fuel episodes show_every discount cycle
             (Py.max DQN.epsilon_min current_epsilon) tr episode;
     Ok (tr', (Py.max DQN.epsilon_min current_epsilon - DQN.epsilon_decay_value)%Q)).
Proof. reflexivity. Qed.

(** From episode [a] on, the loop that carries the variable
    [current_epsilon] plays the episodes the schedule prescribes. *)
Lemma run_episodes_scheduled (n a : nat) (tr : DQN.Training) (current_epsilon : Q) :
  Py.max DQN.epsilon_min current_epsilon = DQN.effective_epsilon epsilon a ->
  ('(tr', _) ← DQN.for_each (DQN.run_episode fuel episodes show_every discount cycle)
                 (map Z.of_nat (seq a n)) (tr, current_epsilon);
   Ok tr')
  = DQN.for_each
      (fun tr episode =>
         DQN.episode_at fuel episodes show_every discount cycle
           (DQN.effective_epsilon epsilon (Z.to_nat episode)) tr episode)
      (map Z.of_nat (seq a n)) tr.
Proof.
  revert a tr current_epsilon.
  induction n as [|n IH]; intros a tr current_epsilon Hclamp; [reflexivity|].
  cbn [seq map DQN.for_each]. rewrite run_episode_unfold, Nat2Z.id, Hclamp.
  destruct (DQN.episode_at fuel episodes show_every discount cycle
              (DQN.effective_epsilon epsilon a) tr (Z.of_nat a)) as [tr1| |];
    [|reflexivity|reflexivity].
  cbn [mbind result_bind]. apply IH. reflexivity.
Qed.

End Exploration.

Section ExplorationSchedule.

Context {net : DQN.Network} {environment : DQN.Environment} {rnd : DQN.Random}.

(** C4. Within a cycle of [train_agent], episode [k] is played at the
    exploration rate [effective_epsilon epsilon k]. That rate starts at
    [max(epsilon_min, epsilon)]; after each finished episode the next rate is
    [max(epsilon_min, previous rate - epsilon_decay_value)]; so it never
    increases, is never below [epsilon_min], and goes down by exactly the
    decay as long as that stays above the floor. *)
Theorem epsilon_schedule :
  (forall (fuel : nat) (episodes : Z) (epsilon : Q) (show_every : Z) (discount : Q)
          (tr : DQN.Training) (cycle : Z),
      DQN.run_cycle fuel episodes epsilon show_every discount tr cycle
      = DQN.scheduled_cycle fuel episodes epsilon show_every discount tr cycle)
  /\ (forall epsilon : Q,
        DQN.effective_epsilon epsilon 0 = Py.max DQN.epsilon_min epsilon)
  /\ (forall (epsilon : Q) (k : nat),
        DQN.effective_epsilon epsilon (S k)
        = Py.max DQN.epsilon_min
            (DQN.effective_epsilon epsilon k - DQN.epsilon_decay_value)%Q)
  /\ (forall (epsilon : Q) (k : nat),
        (DQN.epsilon_min <= DQN.effective_epsilon epsilon k)%Q)
  /\ (forall (epsilon : Q) (k : nat),
        (DQN.effective_epsilon epsilon (S k) <= DQN.effective_epsilon epsilon k)%Q)
  /\ (forall (epsilon : Q) (k : nat),
        (DQN.epsilon_min < DQN.effective_epsilon epsilon k - DQN.epsilon_decay_value)%Q ->
        DQN.effective_epsilon epsilon (S k)
        = (DQN.effective_epsilon epsilon k - DQN.epsilon_decay_value)%Q)
  /\ (forall (epsilon : Q) (k : nat),
        (DQN.effective_epsilon epsilon k - DQN.epsilon_decay_value <= DQN.epsilon_min)%Q ->
        DQN.effective_epsilon epsilon (S k) = DQN.epsilon_min).
Proof.
  repeat split.
  - intros fuel episodes epsilon show_every discount tr cycle.
    unfold DQN.run_cycle, DQN.scheduled_cycle, Py.range.
    now apply run_episodes_scheduled.
  - apply effective_epsilon_floor.
  - apply effective_epsilon_decreases.
  - intros epsilon k H. cbn [DQN.effective_epsilon]. now apply py_max_right.
  - intros epsilon k H. cbn [DQN.effective_epsilon]. now apply py_max_left.
Qed.

End ExplorationSchedule.

Lemma epsilon_schedule_witness :
  DQN.effective_epsilon 1 1
  = (DQN.effective_epsilon 1 0 - DQN.epsilon_decay_value)%Q
  /\ DQN.effective_epsilon (3 # 100) 3 = DQN.epsilon_min.
Proof.
  destruct (epsilon_schedule (net := Toy.net) (environment := Toy.environment)
              (rnd := Toy.rnd)) as (_ & _ & _ & _ & _ & Hdecay & Hfloor).
  split.
  - apply Hdecay. vm_compute. reflexivity.
  - apply Hfloor. vm_compute. discriminate.
Defined.

(** ** Greedy play *)

Section GreedyPlay.

Context {net : DQN.Network} {environment : DQN.Environment}.
Implicit Types (self final : DQN.Agent).

Lemma produce_action_first_maximizer self (s : list Q) :
  DQN.forward (DQN.weights (DQN.model self)) s <> [] ->
  exists i : nat,
    DQN.produce_action self s = Ok (Z.of_nat i)
    /\ first_maximizer (DQN.forward (DQN.weights (DQN.model self)) s) i.
Proof.
  intros Hq. unfold DQN.produce_action, DQN.get_q_values, DQN.call.
  cbn [map concat]. rewrite app_nil_r. now apply argmax_spec.
Qed.

Lemma play_loop_unfold (fuel : nat) self :
  DQN.play_loop (S fuel) self
  = (action ← DQN.produce_action self (DQN.env_state (DQN.env self));
     let step := DQN.env_step (DQN.env self) action in
     if step.1.2 then Ok (DQN.with_env step.2 self)
     else DQN.play_loop fuel (DQN.with_env step.2 self)).
Proof.
  cbn [DQN.play_loop].
  destruct (DQN.produce_action self (DQN.env_state (DQN.env self))) as [a| |];
    [|reflexivity|reflexivity].
  cbn [mbind result_bind].
  now destruct (DQN.env_step (DQN.env self) a) as [[[s r] d] e].
Qed.

(** The loop changes nothing of the agent but its environment. *)
Lemma play_loop_frame (fuel : nat) self final :
  DQN.play_loop fuel self = Ok final ->
  final = DQN.with_env (DQN.env final) self.
Proof.
  revert self. induction fuel as [|fuel IH]; intros self; [discriminate|].
  rewrite play_loop_unfold.
  destruct (DQN.produce_action self (DQN.env_state (DQN.env self))) as [a| |];
    [|discriminate|discriminate].
  cbn [mbind result_bind]. cbv zeta.
  destruct (DQN.env_step (DQN.env self) a).1.2.
  - intros [= <-]. reflexivity.
  - intros Hrun. apply IH in Hrun. rewrite Hrun at 1. reflexivity.
Qed.

(** More fuel does not change the outcome of a loop that ends. *)
Lemma play_loop_fuel (n m : nat) self final :
  DQN.play_loop n self = Ok final -> (n <= m)%nat ->
  DQN.play_loop m self = Ok final.
Proof.
  revert m self. induction n as [|n IH]; intros m self; [discriminate|].
  intros Hrun Hle. destruct m as [|m]; [lia|].
  rewrite play_loop_unfold in *.
  destruct (DQN.produce_action self (DQN.env_state (DQN.env self))) as [a| |];
    [|discriminate|discriminate].
  cbn [mbind result_bind] in *. cbv zeta in *.
  destruct (DQN.env_step (DQN.env self) a).1.2; [exact Hrun|].
  apply IH; [exact Hrun | lia].
Qed.

(** C9. [play_game] is greedy and leaves the learner alone: each action of
    its loop is [produce_action]'s, the first position of a largest value
    the main model predicts for the current state; the replay memory, the
    main model, the target model and the refresh counter come out as they
    went in; and once the episode ends within the fuel, the call returns the
    state the episode started from together with the comparison of the
    final position with the environment's goal position. *)
Theorem play_game_greedy_frame :
  (forall self (s : list Q),
      DQN.forward (DQN.weights (DQN.model self)) s <> [] ->
      exists i : nat,
        DQN.produce_action self s = Ok (Z.of_nat i)
        /\ first_maximizer (DQN.forward (DQN.weights (DQN.model self)) s) i)
  /\ (forall (fuel : nat) self,
        DQN.play_loop (S fuel) self
        = (action ← DQN.produce_action self (DQN.env_state (DQN.env self));
           let step := DQN.env_step (DQN.env self) action in
           if step.1.2 then Ok (DQN.with_env step.2 self)
           else DQN.play_loop fuel (DQN.with_env step.2 self)))
  /\ (forall (fuel : nat) self (r : list Q * bool) self',
        DQN.play_game fuel self = Ok (r, self') ->
        DQN.replay_memory self' = DQN.replay_memory self
        /\ DQN.model self' = DQN.model self
        /\ DQN.target_model self' = DQN.target_model self
        /\ DQN.target_update_counter self' = DQN.target_update_counter self)
  /\ (forall (n m : nat) self final,
        DQN.play_loop n (DQN.with_env (DQN.env_reset (DQN.env self)) self) = Ok final ->
        (n <= m)%nat ->
        DQN.play_game m self
        = (position ← Py.getitem (DQN.env_state (DQN.env final)) 0;
           Ok ((DQN.env_state (DQN.env_reset (DQN.env self)),
                Np.ge position (DQN.goal_position (DQN.env final))),
               DQN.with_env (DQN.env_reset (DQN.env final)) self))).
Proof.
  split; [exact produce_action_first_maximizer|].
  split; [exact play_loop_unfold|].
  split.
  - intros fuel self r self'. unfold DQN.play_game.
    destruct (DQN.play_loop fuel _) as [final| |] eqn:Hrun; [|discriminate|discriminate].
    cbn [mbind result_bind].
    destruct (Py.getitem _ 0) as [p| |]; [|discriminate|discriminate].
    cbn [mbind result_bind]. intros [= _ <-].
    apply play_loop_frame in Hrun. rewrite Hrun. now destruct self.
  - intros n m self final Hrun Hle. unfold DQN.play_game.
    rewrite (play_loop_fuel n m _ final Hrun Hle). cbn [mbind result_bind].
    apply play_loop_frame in Hrun.
    destruct (Py.getitem _ 0) as [p| |]; [|reflexivity|reflexivity].
    cbn [mbind result_bind]. rewrite Hrun at 3. reflexivity.
Qed.

End GreedyPlay.

Lemma play_game_greedy_frame_witness :
  DQN.play_game 5 (DQN.pushes [Toy.labelled 1] (Toy.fresh 5 2 2 3))
  = Ok (([0%Q; 0%Q], true), DQN.pushes [Toy.labelled 1] (Toy.fresh 5 2 2 3))
  /\ exists i : nat,
       DQN.produce_action (Toy.fresh 5 2 2 3) [0%Q; 0%Q] = Ok (Z.of_nat i)
       /\ first_maximizer [0%Q; 1%Q; 1%Q] i.
Proof.
  destruct (play_game_greedy_frame (net := Toy.net) (environment := Toy.environment))
    as (Hgreedy & _ & _ & Hgame).
  split.
  - exact (Hgame 3%nat 5%nat (DQN.pushes [Toy.labelled 1] (Toy.fresh 5 2 2 3))
             (DQN.with_env (environment := Toy.environment) 3
                (DQN.pushes [Toy.labelled 1] (Toy.fresh 5 2 2 3)))
             eq_refl (le_S _ _ (le_S _ _ (le_n _)))).
  - apply (Hgreedy (Toy.fresh 5 2 2 3) [0%Q; 0%Q]). discriminate.
Defined.

(** ** The terminal flag *)

Section TerminalFlag.

Context {net : DQN.Network} {environment : DQN.Environment} {rnd : DQN.Random}.
Implicit Types (self : DQN.Agent) (g : DQN.Rng) (t : DQN.Transition).

Lemma choose_action_total (current_epsilon : Q) self g :
  DQN.forward (DQN.weights (DQN.model self)) (DQN.env_state (DQN.env self)) <> [] ->
  0 < DQN.action_space_n (DQN.env self) ->
  exists action g',
    DQN.choose_action current_epsilon self (DQN.env_state (DQN.env self)) g
    = Ok (action, g').
Proof.
  intros Hq Hn. unfold DQN.choose_action.
  destruct (DQN.random_draw g) as [u g1].
  destruct (Np.gt u current_epsilon).
  - destruct (produce_action_first_maximizer self _ Hq) as (i & -> & _).
    eexists _, _. reflexivity.
  - unfold DQN.randint.
    destruct (Z.ltb_spec 0 (DQN.action_space_n (DQN.env self))); [|lia].
    eexists _, _. apply f_equal, surjective_pairing.
Qed.

Lemma interact_unfold (current_epsilon : Q) self g (action : Z) (g' : DQN.Rng) :
  DQN.choose_action current_epsilon self (DQN.env_state (DQN.env self)) g
  = Ok (action, g') ->
  let step := DQN.env_step (DQN.env self) action in
  let t := DQN.Build_Transition (DQN.env_state (DQN.env self)) action
             step.1.1.2 step.1.1.1 step.1.2 in
  DQN.interact current_epsilon (self, g)
  = Ok (DQN.update_replay_memory t (DQN.with_env step.2 self), g', t).
Proof.
  intros Hchoice. unfold DQN.interact. rewrite Hchoice. cbn [mbind result_bind].
  now destruct (DQN.env_step (DQN.env self) action) as [[[s r] d] e].
Qed.

Lemma training_step_replay_memory (discount : Q) self g self' g' :
  DQN.training_step discount (self, g) = Ok (self', g') ->
  DQN.replay_memory self' = DQN.replay_memory self.
Proof.
  unfold DQN.training_step.
  destruct (_ <? _); [now intros [= <- <-]|].
  destruct (DQN.random_sample _ _ _) as [[minibatch g1]| |];
    [|discriminate|discriminate].
  cbn [mbind result_bind].
  returns. returns. now intros [= <- <-].
Qed.

Lemma bookkeeping_replay_memory t self (wins : list bool) self' (wins' : list bool) :
  DQN.bookkeeping t self wins = Ok (self', wins') ->
  DQN.replay_memory self' = DQN.replay_memory self.
Proof.
  unfold DQN.bookkeeping, DQN.count_terminal, DQN.sync_target.
  destruct (DQN.done t).
  - destruct (Py.getitem _ 0) as [p| |]; [|discriminate|discriminate].
    cbn [mbind result_bind].
    destruct (DQN.sync_due _) as [[|]| |]; [| |discriminate|discriminate];
      cbn [mbind result_bind]; now intros [= <- <-].
  - cbn [mbind result_bind].
    destruct (DQN.sync_due _) as [[|]| |]; [| |discriminate|discriminate];
      cbn [mbind result_bind]; now intros [= <- <-].
Qed.

(** What a pass of the training loop stores is what [interact] stored, and
    the flag that ends the loop is the flag of that transition. *)
Lemma train_iteration_stores (discount current_epsilon : Q) (tr tr' : DQN.Training)
    (episode_reward episode_reward' : Q) (done : bool) :
  DQN.train_iteration discount current_epsilon tr episode_reward
  = Ok (tr', episode_reward', done) ->
  exists self1 g1 t,
    DQN.interact current_epsilon (DQN.agent tr, DQN.rng tr) = Ok (self1, g1, t)
    /\ DQN.done t = done
    /\ DQN.replay_memory (DQN.agent tr') = DQN.replay_memory self1.
Proof.
  unfold DQN.train_iteration.
  destruct (DQN.interact _ _) as [[[self1 g1] t]| |]; [|discriminate|discriminate].
  cbn [mbind result_bind].
  destruct (DQN.training_step _ _) as [[self2 g2]| |] eqn:Htrain;
    [|discriminate|discriminate].
  cbn [mbind result_bind].
  destruct (DQN.bookkeeping _ _ _) as [[self3 wins]| |] eqn:Hbook;
    [|discriminate|discriminate].
  cbn [mbind result_bind]. intros [= <- _ <-].
  exists self1, g1, t. repeat split. cbn [DQN.agent].
  apply training_step_replay_memory in Htrain.
  apply bookkeeping_replay_memory in Hbook. congruence.
Qed.

End TerminalFlag.

Lemma step_in_play (self : MoveToGoal.t) (action : Z) :
  MoveToGoal.in_play self -> -4 <= action < 4 ->
  exists reward done self',
    MoveToGoal.step action self = (Ok (MoveToGoal.get_state self', reward, done), self')
    /\ MoveToGoal.steps_played self' = MoveToGoal.steps_played self + 1
    /\ MoveToGoal.game_end self' = MoveToGoal.game_end self
    /\ MoveToGoal.goal self' = MoveToGoal.goal self
    /\ (done = true <->
        MoveToGoal.player self' = MoveToGoal.goal self'
        \/ MoveToGoal.game_end self' <= MoveToGoal.steps_played self')
    /\ (reward = if bool_decide (MoveToGoal.player self' = MoveToGoal.goal self')
                 then MoveToGoal.goal_reward self else MoveToGoal.move_reward self)
    /\ MoveToGoal.in_play self'.
Proof.
  intros Hplay Haction.
  destruct (execute_player_action_in_play self action Hplay Haction)
    as (p & b & Eexec & Hon).
  destruct Hplay as (Hp & Hg & Hactions).
  unfold MoveToGoal.step. rewrite Eexec.
  set (self1 := MoveToGoal.set_board (Some b) (MoveToGoal.set_player (Some p) self)).
  set (self2 := MoveToGoal.set_steps_played (MoveToGoal.steps_played self1 + 1) self1).
  destruct (bool_decide (MoveToGoal.player self1 = MoveToGoal.goal self1)) eqn:Egoal;
    cbv beta iota zeta; fold self2.
  - eexists _, _, self2. split; [reflexivity|].
    apply bool_decide_eq_true in Egoal.
    repeat split; try reflexivity; try assumption.
    + intros _. left. exact Egoal.
    + now destruct (_ <=? _).
    + change (MoveToGoal.player self2) with (MoveToGoal.player self1).
      change (MoveToGoal.goal self2) with (MoveToGoal.goal self1).
      now rewrite bool_decide_eq_true_2.
  - eexists _, _, self2. split; [reflexivity|].
    apply bool_decide_eq_false in Egoal.
    repeat split; try reflexivity; try assumption.
    + destruct (Z.leb_spec (MoveToGoal.game_end self2) (MoveToGoal.steps_played self2));
        [intros _; right; assumption | discriminate].
    + intros [Hgoal|Hcap]; [contradiction|].
      destruct (Z.leb_spec (MoveToGoal.game_end self2) (MoveToGoal.steps_played self2));
        [reflexivity | lia].
    + change (MoveToGoal.player self2) with (MoveToGoal.player self1).
      change (MoveToGoal.goal self2) with (MoveToGoal.goal self1).
      now rewrite bool_decide_eq_false_2.
Qed.

Section TerminalFlagClaim.

Context {net : DQN.Network} {environment : DQN.Environment} {rnd : DQN.Random}.

(** C7. The transition a training step stores carries, as its terminal
    flag, the [done] flag the environment's [step] returned, and that same
    flag ends the episode loop; the backup of a stored transition is its
    bare reward when the flag is set and bootstraps from the next state only
    when it is not. For [MoveToGoal.step] the flag is set exactly when the
    player stands on the goal after the move or [steps_played] has reached
    [game_end]. *)
Theorem terminal_flag_is_environment_done :
  (forall (current_epsilon : Q) (self : DQN.Agent) (g : DQN.Rng),
      DQN.forward (DQN.weights (DQN.model self)) (DQN.env_state (DQN.env self)) <> [] ->
      0 < DQN.action_space_n (DQN.env self) ->
      exists action g',
        let step := DQN.env_step (DQN.env self) action in
        let t := DQN.Build_Transition (DQN.env_state (DQN.env self)) action
                   step.1.1.2 step.1.1.1 step.1.2 in
        DQN.interact current_epsilon (self, g)
        = Ok (DQN.update_replay_memory t (DQN.with_env step.2 self), g', t)
        /\ DQN.done t = step.1.2)
  /\ (forall (discount current_epsilon : Q) (tr tr' : DQN.Training)
             (episode_reward episode_reward' : Q) (done : bool),
        DQN.train_iteration discount current_epsilon tr episode_reward
        = Ok (tr', episode_reward', done) ->
        exists self1 g1 t,
          DQN.interact current_epsilon (DQN.agent tr, DQN.rng tr) = Ok (self1, g1, t)
          /\ DQN.done t = done
          /\ DQN.replay_memory (DQN.agent tr') = DQN.replay_memory self1)
  /\ (forall (discount : Q) (future_qs_list : list (list Q)) (index : nat)
             (t : DQN.Transition),
        (DQN.done t = true ->
         DQN.new_q discount future_qs_list index t = Ok (DQN.reward t))
        /\ (DQN.done t = false ->
            DQN.new_q discount future_qs_list index t
            = (future_qs ← DQN.row future_qs_list index;
               max_future_q ← Np.max future_qs;
               Ok (DQN.reward t + discount * max_future_q)%Q)))
  /\ (forall (self : MoveToGoal.t) (action : Z),
        MoveToGoal.in_play self -> -4 <= action < 4 ->
        exists reward done self',
          MoveToGoal.step action self
          = (Ok (MoveToGoal.get_state self', reward, done), self')
          /\ MoveToGoal.steps_played self' = MoveToGoal.steps_played self + 1
          /\ MoveToGoal.game_end self' = MoveToGoal.game_end self
          /\ (done = true <->
              MoveToGoal.player self' = MoveToGoal.goal self'
              \/ MoveToGoal.game_end self' <= MoveToGoal.steps_played self')).
Proof.
  split; [|split; [|split]].
  - intros current_epsilon self g Hq Hn.
    destruct (choose_action_total current_epsilon self g Hq Hn) as (action & g' & Hchoice).
    exists action, g'. cbv zeta. split; [|reflexivity].
    exact (interact_unfold current_epsilon self g action g' Hchoice).
  - exact train_iteration_stores.
  - intros discount future_qs_list index t. unfold DQN.new_q.
    split; intros ->; reflexivity.
  - intros self action Hplay Haction.
    destruct (step_in_play self action Hplay Haction)
      as (reward & done & self' & Estep & Hsteps & Hend & _ & Hdone & _).
    exists reward, done, self'. auto.
Qed.

End TerminalFlagClaim.

Lemma terminal_flag_is_environment_done_witness :
  (exists reward done self',
      MoveToGoal.step 1 Toy.grid
      = (Ok (MoveToGoal.get_state self', reward, done), self')
      /\ (done = true <->
          MoveToGoal.player self' = MoveToGoal.goal self'
          \/ MoveToGoal.game_end self' <= MoveToGoal.steps_played self'))
  /\ exists action g',
       let t := DQN.Build_Transition [0%Q; 0%Q] action (-1)%Q [1%Q; 0%Q] false in
       DQN.interact (rnd := Toy.rnd) (1 # 2) (Toy.fresh 5 2 2 3, ())
       = Ok (DQN.update_replay_memory t
               (DQN.with_env (environment := Toy.environment) 1 (Toy.fresh 5 2 2 3)),
             g', t).
Proof.
  destruct (terminal_flag_is_environment_done (net := Toy.net)
              (environment := Toy.environment) (rnd := Toy.rnd))
    as (Hinteract & _ & _ & Hstep).
  split.
  - destruct (Hstep Toy.grid 1) as (reward & done & self' & Estep & _ & _ & Hdone).
    + repeat split; vm_compute; discriminate.
    + split; [discriminate | reflexivity].
    + exists reward, done, self'. split; [exact Estep | exact Hdone].
  - destruct (Hinteract (1 # 2)%Q (Toy.fresh 5 2 2 3) ()) as (action & g' & Estore & Hflag).
    + discriminate.
    + reflexivity.
    + exists action, g'. exact Estore.
Defined.

(* ===================================================================== *)
(** * Further properties of the grid world *)
(* ===================================================================== *)

Lemma paint_rows (b : list (list (Z * Z * Z))) (nx ny x y : Z) (c : Z * Z * Z) :
  shaped b nx ny -> 0 <= x < nx -> 0 <= y < ny ->
  exists b',
    MoveToGoal.paint b (Some (x, y)) c = Ok b'
    /\ shaped b' nx ny
    /\ forall (i : nat) row,
         b !! i = Some row ->
         b' !! i = Some (if decide (i = Z.to_nat x)
                         then <[Z.to_nat y := c]> row else row).
Proof.
  intros [Hlen Hrows] Hx Hy. unfold MoveToGoal.paint.
  destruct (lookup_lt_is_Some_2 b (Z.to_nat x)) as [r Hr]; [lia|].
  assert (Hrlen : Z.of_nat (length r) = ny)
    by (eapply (proj1 (Forall_lookup _ _) Hrows); eauto).
  rewrite (getitem_nonneg b x r) by (lia || assumption). simpl.
  rewrite setitem_nonneg by lia. simpl.
  rewrite setitem_nonneg by lia.
  eexists. split; [reflexivity|]. split; [split|].
  - rewrite length_insert. exact Hlen.
  - apply Forall_insert; [exact Hrows|]. rewrite length_insert. exact Hrlen.
  - intros i row Hi. destruct (decide (i = Z.to_nat x)) as [->|Hne].
    + rewrite list_lookup_insert_eq by (eapply lookup_lt_Some; eauto). congruence.
    + rewrite list_lookup_insert_ne by congruence. exact Hi.
Qed.

(** With both positions on the board, [generate_board] succeeds and the
    board it stores shows them. *)
Lemma generate_board_shows (self : MoveToGoal.t) :
  MoveToGoal.on_board self (MoveToGoal.player self) ->
  MoveToGoal.on_board self (MoveToGoal.goal self) ->
  exists b,
    MoveToGoal.generate_board self = (Ok (), MoveToGoal.set_board (Some b) self)
    /\ MoveToGoal.board_shows (MoveToGoal.set_board (Some b) self).
Proof.
  unfold MoveToGoal.on_board, MoveToGoal.generate_board.
  destruct (MoveToGoal.player self) as [[px py]|] eqn:Eplayer; [|tauto].
  destruct (MoveToGoal.goal self) as [[gx gy]|] eqn:Egoal; [|tauto].
  intros Hp Hg.
  destruct (zeros_shaped (MoveToGoal.board_x self) (MoveToGoal.board_y self))
    as (b0 & E0 & Hb0); [lia|lia|].
  destruct (paint_rows b0 _ _ px py MoveToGoal.color_player Hb0)
    as (b1 & E1 & Hb1 & Hrows1); [lia|lia|].
  destruct (paint_rows b1 _ _ gx gy MoveToGoal.color_goal Hb1)
    as (b2 & E2 & Hb2 & Hrows2); [lia|lia|].
  exists b2. rewrite E0. cbv beta iota. rewrite E1. cbv beta iota. rewrite E2.
  split; [reflexivity|].
  exists b2. split; [reflexivity|]. split; [apply Hb2|].
  intros x y Hx Hy. cbn [MoveToGoal.board_x MoveToGoal.board_y MoveToGoal.set_board] in *.
  assert (Hzero : b0 !! Z.to_nat x
                  = Some (replicate (Z.to_nat (MoveToGoal.board_y self)) (0, 0, 0))).
  { unfold MoveToGoal.zeros in E0.
    destruct ((_ <? 0) || (_ <? 0)); [discriminate|]. injection E0 as <-.
    apply lookup_replicate_2. lia. }
  specialize (Hrows1 _ _ Hzero). specialize (Hrows2 _ _ Hrows1).
  eexists. split; [exact Hrows2|].
  unfold MoveToGoal.cell_colour.
  cbn [MoveToGoal.goal MoveToGoal.player MoveToGoal.set_board].
  rewrite Eplayer, Egoal.
  split.
  - destruct (decide (Z.to_nat x = Z.to_nat gx)), (decide (Z.to_nat x = Z.to_nat px));
      rewrite ?length_insert, length_replicate; lia.
  - destruct (bool_decide_reflect (Some (gx, gy) = Some (x, y))) as [E|E].
    + injection E as -> ->. rewrite decide_True by reflexivity.
      apply list_lookup_insert_eq.
      destruct (decide (Z.to_nat x = Z.to_nat px));
        rewrite ?length_insert, length_replicate; lia.
    + assert (Hgoal : Z.to_nat x <> Z.to_nat gx \/ Z.to_nat y <> Z.to_nat gy).
      { destruct (decide (x = gx)) as [->|]; [|left; lia].
        destruct (decide (y = gy)) as [->|]; [congruence | right; lia]. }
      assert (Hafter :
                (if decide (Z.to_nat x = Z.to_nat gx)
                 then <[Z.to_nat gy := MoveToGoal.color_goal]>
                        (if decide (Z.to_nat x = Z.to_nat px)
                         then <[Z.to_nat py := MoveToGoal.color_player]>
                                (replicate (Z.to_nat (MoveToGoal.board_y self)) (0, 0, 0))
                         else replicate (Z.to_nat (MoveToGoal.board_y self)) (0, 0, 0))
                 else (if decide (Z.to_nat x = Z.to_nat px)
                       then <[Z.to_nat py := MoveToGoal.color_player]>
                              (replicate (Z.to_nat (MoveToGoal.board_y self)) (0, 0, 0))
                       else replicate (Z.to_nat (MoveToGoal.board_y self)) (0, 0, 0)))
                !! Z.to_nat y
                = (if decide (Z.to_nat x = Z.to_nat px)
                   then <[Z.to_nat py := MoveToGoal.color_player]>
                          (replicate (Z.to_nat (MoveToGoal.board_y self)) (0, 0, 0))
                   else replicate (Z.to_nat (MoveToGoal.board_y self)) (0, 0, 0))
                  !! Z.to_nat y).
      { destruct (decide (Z.to_nat x = Z.to_nat gx)); [|reflexivity].
        apply list_lookup_insert_ne. destruct Hgoal; congruence. }
      rewrite Hafter.
      destruct (bool_decide_reflect (Some (px, py) = Some (x, y))) as [E'|E'].
      * injection E' as -> ->. rewrite decide_True by reflexivity.
        apply list_lookup_insert_eq. rewrite length_replicate. lia.
      * destruct (decide (Z.to_nat x = Z.to_nat px)) as [Ex|Ex].
           { rewrite list_lookup_insert_ne.
             - apply lookup_replicate_2. lia.
             - intros Ey. apply E'. f_equal. f_equal; lia. }
           { apply lookup_replicate_2. lia. }
Qed.

Lemma same_game_refl (self : MoveToGoal.t) : MoveToGoal.same_game self self.
Proof. repeat split. Qed.

Lemma same_game_trans (s1 s2 s3 : MoveToGoal.t) :
  MoveToGoal.same_game s1 s2 -> MoveToGoal.same_game s2 s3 ->
  MoveToGoal.same_game s1 s3.
Proof. unfold MoveToGoal.same_game. intuition congruence. Qed.

(** On the board, the edge tests of [execute_player_action] amount to
    this: go to the cell the action points to when it is on the board, stay
    otherwise. *)
Lemma moved_target (self : MoveToGoal.t) (name : string) (x y : Z) :
  name ∈ ["up"; "right"; "down"; "left"]%string ->
  MoveToGoal.on_board self (Some (x, y)) ->
  MoveToGoal.moved self name x y
  = Ok (if MoveToGoal.inside self (MoveToGoal.target_cell name x y)
        then MoveToGoal.target_cell name x y else (x, y)).
Proof.
  intros Hname Hon. unfold MoveToGoal.on_board in Hon.
  repeat (apply elem_of_cons in Hname as [-> | Hname]);
    [| | | | apply elem_of_nil in Hname; contradiction];
    unfold MoveToGoal.moved, MoveToGoal.target_cell, MoveToGoal.inside; simpl.
  - destruct (Z.ltb_spec y (MoveToGoal.board_y self - 1)),
      (Z.leb_spec 0 x), (Z.ltb_spec x (MoveToGoal.board_x self)),
      (Z.leb_spec 0 (y + 1)), (Z.ltb_spec (y + 1) (MoveToGoal.board_y self));
      simpl; try lia; reflexivity.
  - destruct (Z.ltb_spec x (MoveToGoal.board_x self - 1)),
      (Z.leb_spec 0 (x + 1)), (Z.ltb_spec (x + 1) (MoveToGoal.board_x self)),
      (Z.leb_spec 0 y), (Z.ltb_spec y (MoveToGoal.board_y self));
      simpl; try lia; reflexivity.
  - destruct (Z.ltb_spec 0 y),
      (Z.leb_spec 0 x), (Z.ltb_spec x (MoveToGoal.board_x self)),
      (Z.leb_spec 0 (y - 1)), (Z.ltb_spec (y - 1) (MoveToGoal.board_y self));
      simpl; try lia; reflexivity.
  - destruct (Z.ltb_spec 0 x),
      (Z.leb_spec 0 (x - 1)), (Z.ltb_spec (x - 1) (MoveToGoal.board_x self)),
      (Z.leb_spec 0 y), (Z.ltb_spec y (MoveToGoal.board_y self));
      simpl; try lia; reflexivity.
Qed.

(** One step of a game in play, in full. *)
Lemma step_moves (self : MoveToGoal.t) (action x y : Z) :
  MoveToGoal.in_play self -> MoveToGoal.player self = Some (x, y) ->
  -4 <= action < 4 ->
  exists name self',
    Py.getitem ["up"; "right"; "down"; "left"]%string action = Ok name
    /\ name ∈ ["up"; "right"; "down"; "left"]%string
    /\ MoveToGoal.step action self
       = (Ok (MoveToGoal.get_state self',
              (if bool_decide (MoveToGoal.player self' = MoveToGoal.goal self')
               then MoveToGoal.goal_reward self else MoveToGoal.move_reward self),
              (bool_decide (MoveToGoal.player self' = MoveToGoal.goal self')
               || (MoveToGoal.game_end self <=? MoveToGoal.steps_played self + 1))),
          self')
    /\ MoveToGoal.player self'
       = Some (if MoveToGoal.inside self (MoveToGoal.target_cell name x y)
               then MoveToGoal.target_cell name x y else (x, y))
    /\ MoveToGoal.steps_played self' = MoveToGoal.steps_played self + 1
    /\ MoveToGoal.same_game self self'
    /\ MoveToGoal.in_play self'
    /\ MoveToGoal.board_shows self'.
Proof.
  intros (Hp & Hg & Hactions) Hplayer Haction.
  destruct (getitem_actions action Haction) as (name & Ename & Hname).
  exists name.
  rewrite Hplayer in Hp.
  pose proof (moved_target self name x y Hname Hp) as Emoved.
  set (p := if MoveToGoal.inside self (MoveToGoal.target_cell name x y)
            then MoveToGoal.target_cell name x y else (x, y)) in *.
  assert (Hon : MoveToGoal.on_board self (Some p)).
  { destruct (moved_on_board self name x y Hname Hp) as (p' & Ep' & Hon).
    rewrite Emoved in Ep'. now injection Ep' as <-. }
  destruct (generate_board_shows (MoveToGoal.set_player (Some p) self))
    as (b & Eb & Hshows); [exact Hon | exact Hg |].
  set (self1 := MoveToGoal.set_board (Some b) (MoveToGoal.set_player (Some p) self)) in *.
  exists (MoveToGoal.set_steps_played (MoveToGoal.steps_played self + 1) self1).
  split; [exact Ename|]. split; [exact Hname|].
  split; [|repeat split; try assumption].
  - unfold MoveToGoal.step, MoveToGoal.execute_player_action.
    rewrite Hactions, Ename, Hplayer. cbv beta iota. rewrite Emoved, Eb.
    fold self1. cbv beta iota.
    change (MoveToGoal.steps_played self1) with (MoveToGoal.steps_played self).
    change (MoveToGoal.player
              (MoveToGoal.set_steps_played (MoveToGoal.steps_played self + 1) self1))
      with (MoveToGoal.player self1).
    change (MoveToGoal.goal
              (MoveToGoal.set_steps_played (MoveToGoal.steps_played self + 1) self1))
      with (MoveToGoal.goal self1).
    destruct (bool_decide (MoveToGoal.player self1 = MoveToGoal.goal self1));
      cbv beta iota zeta; cbn [MoveToGoal.game_end MoveToGoal.steps_played
                                 MoveToGoal.set_steps_played MoveToGoal.set_board
                                 MoveToGoal.set_player MoveToGoal.goal_reward
                                 MoveToGoal.move_reward orb];
      now destruct (_ <=? _).
Qed.

Lemma prepare_game_on_board (self : MoveToGoal.t) (player_pos goal_pos : Z * Z) :
  MoveToGoal.actions self = ["up"; "right"; "down"; "left"]%string ->
  MoveToGoal.on_board self (Some player_pos) ->
  MoveToGoal.on_board self (Some goal_pos) ->
  exists self',
    MoveToGoal.prepare_game player_pos goal_pos self = (Ok (), self')
    /\ MoveToGoal.player self' = Some player_pos
    /\ MoveToGoal.goal self' = Some goal_pos
    /\ MoveToGoal.steps_played self' = 0
    /\ MoveToGoal.same_game
         (MoveToGoal.set_goal (Some goal_pos) self) self'
    /\ MoveToGoal.in_play self'
    /\ MoveToGoal.board_shows self'.
Proof.
  intros Hactions Hp Hg. unfold MoveToGoal.prepare_game.
  set (self0 := MoveToGoal.set_steps_played 0 _).
  destruct (generate_board_shows self0) as (b & Eb & Hshows); [exact Hp | exact Hg |].
  exists (MoveToGoal.set_board (Some b) self0). rewrite Eb.
  repeat split; assumption.
Qed.

(** [prepare_game] with both positions on the board starts a game in play:
    the positions are the ones given, no step has been played, and the
    board shows the goal and the player. *)
Theorem prepare_game_starts_game (self : MoveToGoal.t) (player_pos goal_pos : Z * Z) :
  MoveToGoal.actions self = ["up"; "right"; "down"; "left"]%string ->
  MoveToGoal.on_board self (Some player_pos) ->
  MoveToGoal.on_board self (Some goal_pos) ->
  exists self',
    MoveToGoal.prepare_game player_pos goal_pos self = (Ok (), self')
    /\ MoveToGoal.player self' = Some player_pos
    /\ MoveToGoal.goal self' = Some goal_pos
    /\ MoveToGoal.steps_played self' = 0
    /\ MoveToGoal.same_game
         (MoveToGoal.set_goal (Some goal_pos) self) self'
    /\ MoveToGoal.in_play self'
    /\ MoveToGoal.board_shows self'.
Proof. apply prepare_game_on_board. Qed.

Lemma prepare_game_starts_game_witness :
  exists self',
    MoveToGoal.prepare_game (1, 1) (2, 2) (MoveToGoal.init 3 3 10 (-1) 5) = (Ok (), self')
    /\ MoveToGoal.player self' = Some (1, 1)
    /\ MoveToGoal.goal self' = Some (2, 2)
    /\ MoveToGoal.steps_played self' = 0
    /\ MoveToGoal.same_game
         (MoveToGoal.set_goal (Some (2, 2)) (MoveToGoal.init 3 3 10 (-1) 5)) self'
    /\ MoveToGoal.in_play self'
    /\ MoveToGoal.board_shows self'.
Proof.
  apply prepare_game_starts_game; [reflexivity | |]; simpl; lia.
Defined.

(** [prepare_game] is not all-or-nothing: with a player position beyond the
    board it raises [IndexError] from [generate_board], after the new
    positions and the step count have been stored; the game is left with
    the rejected position and a board that shows nothing. *)
Theorem prepare_game_off_board_keeps_positions
    (self : MoveToGoal.t) (x y : Z) (goal_pos : Z * Z) :
  0 <= MoveToGoal.board_x self -> 0 <= MoveToGoal.board_y self ->
  0 <= x -> 0 <= y ->
  MoveToGoal.board_x self <= x \/ MoveToGoal.board_y self <= y ->
  exists self',
    MoveToGoal.prepare_game (x, y) goal_pos self = (Raise IndexError, self')
    /\ MoveToGoal.player self' = Some (x, y)
    /\ MoveToGoal.goal self' = Some goal_pos
    /\ MoveToGoal.steps_played self' = 0
    /\ MoveToGoal.board self'
       = Some (replicate (Z.to_nat (MoveToGoal.board_x self))
                 (replicate (Z.to_nat (MoveToGoal.board_y self)) (0, 0, 0)))
    /\ ~ MoveToGoal.in_play self'.
Proof.
  intros Hbx Hby Hx Hy Hout.
  unfold MoveToGoal.prepare_game, MoveToGoal.generate_board, MoveToGoal.zeros.
  cbn [MoveToGoal.board_x MoveToGoal.board_y MoveToGoal.player MoveToGoal.goal
         MoveToGoal.set_steps_played MoveToGoal.set_goal MoveToGoal.set_player].
  destruct (Z.ltb_spec (MoveToGoal.board_x self) 0); [lia|].
  destruct (Z.ltb_spec (MoveToGoal.board_y self) 0); [lia|].
  cbn [orb].
  set (b0 := replicate _ _).
  assert (Epaint : MoveToGoal.paint b0 (Some (x, y)) MoveToGoal.color_player
                   = Raise IndexError).
  { unfold MoveToGoal.paint.
    destruct (Z.le_gt_cases (MoveToGoal.board_x self) x) as [Hxout|Hxin].
    - rewrite getitem_outside; [reflexivity|].
      subst b0. rewrite length_replicate. lia.
    - rewrite (getitem_nonneg b0 x
                 (replicate (Z.to_nat (MoveToGoal.board_y self)) (0, 0, 0)));
        [| lia | subst b0; apply lookup_replicate_2; lia].
      cbn [mbind result_bind]. unfold Py.setitem.
      rewrite (index_outside _ y); [reflexivity|]. rewrite length_replicate. lia. }
  rewrite Epaint. eexists. split; [reflexivity|].
  repeat split.
  intros (Hon & _). cbn in Hon. lia.
Qed.

Lemma prepare_game_off_board_keeps_positions_witness :
  exists self',
    MoveToGoal.prepare_game (3, 0) (2, 2) (MoveToGoal.init 3 3 10 (-1) 5)
    = (Raise IndexError, self')
    /\ MoveToGoal.player self' = Some (3, 0)
    /\ ~ MoveToGoal.in_play self'.
Proof.
  destruct (prepare_game_off_board_keeps_positions
              (MoveToGoal.init 3 3 10 (-1) 5) 3 0 (2, 2))
    as (self' & E & Hp & _ & _ & _ & Hnot); try (simpl; lia).
  exists self'. auto.
Defined.

(** An index the action list does not accept makes [step] raise
    [IndexError] before anything is changed: the player, the board and the
    step count are as they were. *)
Theorem step_rejects_unknown_index (self : MoveToGoal.t) (action : Z) :
  action < - Z.of_nat (length (MoveToGoal.actions self))
  \/ Z.of_nat (length (MoveToGoal.actions self)) <= action ->
  MoveToGoal.step action self = (Raise IndexError, self)
  /\ forall actions,
       MoveToGoal.play (action :: actions) self = (Raise IndexError, self).
Proof.
  intros Hout.
  assert (E : MoveToGoal.step action self = (Raise IndexError, self)).
  { unfold MoveToGoal.step. now rewrite execute_player_action_outside. }
  split; [exact E|]. intros actions. cbn [MoveToGoal.play]. now rewrite E.
Qed.

Lemma step_rejects_unknown_index_witness :
  MoveToGoal.step 4 Toy.grid = (Raise IndexError, Toy.grid).
Proof.
  apply step_rejects_unknown_index. right. vm_compute. discriminate.
Defined.

(** A step takes the player to the neighbouring cell the action points to
    when that cell is on the board, and leaves the player in place
    otherwise; nothing else of the game changes but the step count and the
    board, which shows the new position. *)
Theorem step_moves_to_target_or_stays (self : MoveToGoal.t) (action x y : Z) :
  MoveToGoal.in_play self -> MoveToGoal.player self = Some (x, y) ->
  -4 <= action < 4 ->
  exists name,
    Py.getitem ["up"; "right"; "down"; "left"]%string action = Ok name
    /\ (MoveToGoal.step action self).1 <> Raise IndexError
    /\ MoveToGoal.player (MoveToGoal.step action self).2
       = Some (if MoveToGoal.inside self (MoveToGoal.target_cell name x y)
               then MoveToGoal.target_cell name x y else (x, y))
    /\ MoveToGoal.same_game self (MoveToGoal.step action self).2
    /\ MoveToGoal.in_play (MoveToGoal.step action self).2
    /\ MoveToGoal.board_shows (MoveToGoal.step action self).2.
Proof.
  intros Hplay Hplayer Haction.
  destruct (step_moves self action x y Hplay Hplayer Haction)
    as (name & self' & Ename & _ & Estep & Hmove & _ & Hsame & Hplay' & Hshows).
  exists name. rewrite Estep. cbn [fst snd].
  repeat split; try assumption; try apply Hsame; try apply Hplay'. discriminate.
Qed.

Lemma step_moves_to_target_or_stays_witness :
  MoveToGoal.player (MoveToGoal.step 0 Toy.grid).2 = Some (1, 2)
  /\ MoveToGoal.player (MoveToGoal.step 0 (MoveToGoal.step 0 Toy.grid).2).2 = Some (1, 2).
Proof.
  split.
  - destruct (step_moves_to_target_or_stays Toy.grid 0 1 1)
      as (name & Ename & _ & Hmove & _).
    + repeat split; vm_compute; discriminate.
    + reflexivity.
    + split; [discriminate | reflexivity].
    + injection Ename as <-. exact Hmove.
  - destruct (step_moves_to_target_or_stays (MoveToGoal.step 0 Toy.grid).2 0 1 2)
      as (name & Ename & _ & Hmove & _).
    + repeat split; vm_compute; discriminate.
    + reflexivity.
    + split; [discriminate | reflexivity].
    + injection Ename as <-. exact Hmove.
Defined.

Lemma play_cons (a : Z) (actions : list Z) (self self1 : MoveToGoal.t)
    (st : option (Z * Z) * option (Z * Z)) (reward : Z) (done : bool) :
  MoveToGoal.step a self = (Ok (st, reward, done), self1) ->
  (MoveToGoal.play (a :: actions) self).2 = (MoveToGoal.play actions self1).2
  /\ forall l self2,
       MoveToGoal.play actions self1 = (Ok l, self2) ->
       MoveToGoal.play (a :: actions) self = (Ok ((reward, done) :: l), self2).
Proof.
  intros Estep. cbn [MoveToGoal.play]. rewrite Estep. split.
  - now destruct (MoveToGoal.play actions self1) as [[l| |] self2].
  - now intros l self2 ->.
Qed.

Lemma play_in_play (actions : list Z) (self : MoveToGoal.t) :
  MoveToGoal.in_play self ->
  Forall (fun a => -4 <= a < 4) actions ->
  exists l self',
    MoveToGoal.play actions self = (Ok l, self')
    /\ length l = length actions
    /\ MoveToGoal.in_play self'
    /\ MoveToGoal.same_game self self'
    /\ MoveToGoal.steps_played self'
       = MoveToGoal.steps_played self + Z.of_nat (length actions).
Proof.
  intros Hplay Hactions. revert self Hplay.
  induction Hactions as [|a actions Ha _ IH]; intros self Hplay.
  - exists [], self. repeat split; [exact (proj1 Hplay) | apply Hplay | apply Hplay |].
    simpl. lia.
  - destruct (MoveToGoal.player self) as [[x y]|] eqn:Hplayer;
      [|destruct Hplay as (Hp & _); rewrite Hplayer in Hp; contradiction].
    destruct (step_moves self a x y Hplay Hplayer Ha)
      as (name & self1 & _ & _ & Estep & _ & Hsteps & Hsame & Hplay1 & _).
    destruct (IH self1 Hplay1) as (l & self' & Erun & Hlen & Hplay' & Hsame' & Hsteps').
    eexists _, self'. split; [exact (proj2 (play_cons _ _ _ _ _ _ _ Estep) _ _ Erun)|].
    split; [simpl; now rewrite Hlen|]. split; [exact Hplay'|].
    split; [eapply same_game_trans; eauto|].
    rewrite Hsteps', Hsteps. cbn [length]. lia.
Qed.

(** The player never leaves the board: any calls of [step] with indices
    the action list accepts, from a game in play, all return; they leave a
    game in play with the same goal, sizes, rewards and step limit, and
    [steps_played] has grown by the number of calls. *)
Theorem play_stays_in_play (actions : list Z) (self : MoveToGoal.t) :
  MoveToGoal.in_play self ->
  Forall (fun a => -4 <= a < 4) actions ->
  exists l self',
    MoveToGoal.play actions self = (Ok l, self')
    /\ length l = length actions
    /\ MoveToGoal.in_play self'
    /\ MoveToGoal.same_game self self'
    /\ MoveToGoal.steps_played self'
       = MoveToGoal.steps_played self + Z.of_nat (length actions).
Proof. apply play_in_play. Qed.

Lemma play_stays_in_play_witness :
  exists l self',
    MoveToGoal.play [0; 0; 1; -1; 3] Toy.grid = (Ok l, self')
    /\ length l = 5%nat
    /\ MoveToGoal.in_play self'.
Proof.
  destruct (play_stays_in_play [0; 0; 1; -1; 3] Toy.grid)
    as (l & self' & Erun & Hlen & Hplay & _).
  - repeat split; vm_compute; discriminate.
  - repeat constructor; discriminate.
  - exists l, self'. auto.
Defined.

(** Along calls of [step] in a game in play, call number [k + 1] reports
    [done] exactly when the player then stands on the goal or the step
    count has reached [game_end], so every call from the one that reaches
    [game_end] on reports [done]; and it pays [goal_reward] exactly when the
    player then stands on the goal, [move_reward] otherwise. *)
Theorem play_done_flags (actions : list Z) (self : MoveToGoal.t) :
  MoveToGoal.in_play self ->
  Forall (fun a => -4 <= a < 4) actions ->
  forall l self',
    MoveToGoal.play actions self = (Ok l, self') ->
    forall (k : nat) (reward : Z) (done : bool),
      l !! k = Some (reward, done) ->
      let there := (MoveToGoal.play (take (S k) actions) self).2 in
      (done = true <->
       MoveToGoal.player there = MoveToGoal.goal self
       \/ MoveToGoal.game_end self <= MoveToGoal.steps_played self + Z.of_nat k + 1)
      /\ reward = (if bool_decide (MoveToGoal.player there = MoveToGoal.goal self)
                   then MoveToGoal.goal_reward self else MoveToGoal.move_reward self).
Proof.
  intros Hplay Hactions. revert self Hplay.
  induction Hactions as [|a actions Ha Hrest IH]; intros self Hplay l self' Erun k reward done Hk.
  - injection Erun as <- <-. discriminate.
  - destruct (MoveToGoal.player self) as [[x y]|] eqn:Hplayer;
      [|destruct Hplay as (Hp & _); rewrite Hplayer in Hp; contradiction].
    destruct (step_moves self a x y Hplay Hplayer Ha)
      as (name & self1 & _ & _ & Estep & _ & Hsteps & Hsame & Hplay1 & _).
    destruct (play_in_play actions self1 Hplay1 Hrest)
      as (l1 & self2 & Erun1 & _).
    pose proof (proj2 (play_cons _ actions _ _ _ _ _ Estep) _ _ Erun1) as Erun'.
    rewrite Erun' in Erun. injection Erun as <- <-.
    destruct Hsame as (_ & _ & Hgr & Hmr & Hend & Hgoal & _).
    destruct k as [|k].
    + injection Hk as <- <-. cbn [take]. rewrite take_0.
      rewrite (proj1 (play_cons _ [] _ _ _ _ _ Estep)). cbn [MoveToGoal.play snd].
      rewrite <- Hgoal. split; [|reflexivity].
      rewrite orb_true_iff, bool_decide_eq_true, Z.leb_le.
      split; (intros [?|?]; [left; assumption | right; lia]).
    + cbn [take]. rewrite (proj1 (play_cons _ _ _ _ _ _ _ Estep)).
      cbn [lookup] in Hk. simpl in Hk.
      specialize (IH self1 Hplay1 l1 self2 Erun1 k reward done Hk).
      cbv zeta in IH. rewrite Hgoal, Hend, Hgr, Hmr, Hsteps in IH.
      replace (MoveToGoal.steps_played self + Z.of_nat (S k) + 1)
        with (MoveToGoal.steps_played self + 1 + Z.of_nat k + 1) by lia.
      exact IH.
Qed.

Lemma play_done_flags_witness :
  true = true <->
  MoveToGoal.player (MoveToGoal.play (take 5 [0; 0; 1; -1; 3]) Toy.grid).2
  = MoveToGoal.goal Toy.grid
  \/ MoveToGoal.game_end Toy.grid
     <= MoveToGoal.steps_played Toy.grid + Z.of_nat 4 + 1.
Proof.
  assert (Erun : MoveToGoal.play [0; 0; 1; -1; 3] Toy.grid
                 = (Ok [(-1, false); (-1, false); (10, true); (-1, false); (-1, true)],
                    (MoveToGoal.play [0; 0; 1; -1; 3] Toy.grid).2))
    by (vm_compute; reflexivity).
  assert (Hplay : MoveToGoal.in_play Toy.grid)
    by (repeat split; vm_compute; discriminate).
  assert (Hvalid : Forall (fun a => -4 <= a < 4) [0; 0; 1; -1; 3])
    by (repeat constructor; discriminate).
  exact (proj1 (play_done_flags _ _ Hplay Hvalid _ _ Erun 4%nat (-1) true eq_refl)).
Defined.

(** Opposite actions undo each other: when a step has moved the player,
    the step in the opposite direction brings the player back. *)
Theorem step_back (self : MoveToGoal.t) (a b : Z) :
  MoveToGoal.in_play self ->
  (a, b) ∈ [(0, 2); (2, 0); (1, 3); (3, 1)] ->
  MoveToGoal.player (MoveToGoal.step a self).2 <> MoveToGoal.player self ->
  MoveToGoal.player (MoveToGoal.step b (MoveToGoal.step a self).2).2
  = MoveToGoal.player self.
Proof.
  intros Hplay Hpair Hmoved.
  destruct (MoveToGoal.player self) as [[x y]|] eqn:Hplayer;
    [|destruct Hplay as (Hp & _); rewrite Hplayer in Hp; contradiction].
  assert (Ha : -4 <= a < 4 /\ -4 <= b < 4).
  { repeat (apply elem_of_cons in Hpair as [[= -> ->] | Hpair]); try lia.
    apply elem_of_nil in Hpair. contradiction. }
  destruct (step_moves self a x y Hplay Hplayer (proj1 Ha))
    as (name & self1 & Ename & _ & Estep & Hmove & _ & Hsame & Hplay1 & _).
  rewrite Estep in *. cbn [snd] in *.
  assert (Hin : MoveToGoal.inside self (MoveToGoal.target_cell name x y) = true).
  { destruct (MoveToGoal.inside self _); [reflexivity|]. now rewrite Hmove in Hmoved. }
  rewrite Hin in Hmove.
  destruct (MoveToGoal.target_cell name x y) as [tx ty] eqn:Etarget.
  destruct (step_moves self1 b tx ty Hplay1 Hmove (proj2 Ha))
    as (name' & self2 & Ename' & _ & Estep' & Hmove' & _).
  rewrite Estep'. cbn [snd]. rewrite Hmove'.
  destruct Hsame as (Hbx & Hby & _).
  destruct Hplay as (Hp & _). rewrite Hplayer in Hp. cbn in Hp.
  clear Hmoved Hmove Hmove' Estep Estep'.
  assert (Hinside : forall u v,
             0 <= u < MoveToGoal.board_x self -> 0 <= v < MoveToGoal.board_y self ->
             MoveToGoal.inside self1 (u, v) = true).
  { intros u v Hu Hv. unfold MoveToGoal.inside. rewrite Hbx, Hby. cbn [fst snd].
    destruct (Z.leb_spec 0 u), (Z.ltb_spec u (MoveToGoal.board_x self)),
      (Z.leb_spec 0 v), (Z.ltb_spec v (MoveToGoal.board_y self)); simpl; lia. }
  repeat (apply elem_of_cons in Hpair as [[= -> ->] | Hpair]);
    [| | | | apply elem_of_nil in Hpair; contradiction];
    injection Ename as <-; injection Ename' as <-;
    injection Etarget as <- <-; unfold MoveToGoal.target_cell; simpl;
    rewrite Hinside by lia; do 2 f_equal; lia.
Qed.

Lemma step_back_witness :
  MoveToGoal.player (MoveToGoal.step 2 (MoveToGoal.step 0 Toy.grid).2).2
  = MoveToGoal.player Toy.grid.
Proof.
  apply step_back.
  - repeat split; vm_compute; discriminate.
  - repeat constructor.
  - vm_compute. discriminate.
Defined.

(** ** Positions drawn at random *)

Section RandomPositions.

Context {G : Type}.
Variable draw : Z -> Z -> G -> Z * G.

(** The generator keeps to the bounds it is given. *)
Hypothesis draw_in_range :
  forall low high g, low < high -> low <= (draw low high g).1 < high.

Lemma random_pos_on_board (self : MoveToGoal.t) (g : G) :
  0 < MoveToGoal.board_x self -> 0 < MoveToGoal.board_y self ->
  exists p g',
    MoveToGoal.random_pos draw self g = Ok (p, g')
    /\ MoveToGoal.on_board self (Some p).
Proof.
  intros Hx Hy. unfold MoveToGoal.random_pos, MoveToGoal.randint.
  destruct (Z.ltb_spec 0 (MoveToGoal.board_x self)); [|lia].
  destruct (Z.ltb_spec 0 (MoveToGoal.board_y self)); [|lia].
  pose proof (draw_in_range 0 (MoveToGoal.board_x self) g Hx) as Hdx.
  destruct (draw 0 (MoveToGoal.board_x self) g) as [x g1]. cbn [mbind result_bind].
  pose proof (draw_in_range 0 (MoveToGoal.board_y self) g1 Hy) as Hdy.
  destruct (draw 0 (MoveToGoal.board_y self) g1) as [y g2]. cbn [mbind result_bind].
  exists (x, y), g2. split; [reflexivity|]. simpl in *. lia.
Qed.

(** The redrawing loop ends only on a goal that is not the player's cell,
    and it cannot raise. *)
Lemma redraw_goal_differs (fuel : nat) (self : MoveToGoal.t)
    (player_pos goal_pos : Z * Z) (g : G) :
  0 < MoveToGoal.board_x self -> 0 < MoveToGoal.board_y self ->
  MoveToGoal.on_board self (Some goal_pos) ->
  (exists q g',
      MoveToGoal.redraw_goal draw fuel self player_pos goal_pos g = Ok (q, g')
      /\ q <> player_pos /\ MoveToGoal.on_board self (Some q))
  \/ MoveToGoal.redraw_goal draw fuel self player_pos goal_pos g = OutOfFuel.
Proof.
  intros Hx Hy. revert goal_pos g.
  induction fuel as [|fuel IH]; intros goal_pos g Hon; cbn [MoveToGoal.redraw_goal];
    destruct (bool_decide_reflect (goal_pos = player_pos)) as [E|E].
  - right. reflexivity.
  - left. exists goal_pos, g. auto.
  - destruct (random_pos_on_board self g Hx Hy) as (p & g1 & -> & Hp).
    cbn [mbind result_bind]. apply IH. exact Hp.
  - left. exists goal_pos, g. auto.
Qed.

(** [prepare_game] without a goal position (and with the player position
    given on the board, or left out as well) never raises: either it starts
    a game in play whose goal is not on the player's cell, or its redrawing
    loop has not ended within the fuel and the game is untouched. *)
Theorem prepare_game_drawn_goal_differs (fuel : nat) (player_pos : option (Z * Z))
    (self : MoveToGoal.t) (g : G) :
  MoveToGoal.actions self = ["up"; "right"; "down"; "left"]%string ->
  0 < MoveToGoal.board_x self -> 0 < MoveToGoal.board_y self ->
  (forall p, player_pos = Some p -> MoveToGoal.on_board self (Some p)) ->
  (exists self' g',
      MoveToGoal.prepare_game_opt draw fuel player_pos None self g
      = (Ok (), self', Some g')
      /\ MoveToGoal.in_play self'
      /\ MoveToGoal.player self' <> MoveToGoal.goal self'
      /\ MoveToGoal.steps_played self' = 0
      /\ MoveToGoal.board_shows self')
  \/ MoveToGoal.prepare_game_opt draw fuel player_pos None self g
     = (OutOfFuel, self, None).
Proof.
  intros Hactions Hx Hy Hgiven.
  unfold MoveToGoal.prepare_game_opt, MoveToGoal.choose_positions.
  assert (Hplayer : exists p g1,
             match player_pos with
             | Some p => Ok (p, g)
             | None => MoveToGoal.random_pos draw self g
             end = Ok (p, g1) /\ MoveToGoal.on_board self (Some p)).
  { destruct player_pos as [p|].
    - exists p, g. split; [reflexivity | now apply Hgiven].
    - now apply random_pos_on_board. }
  destruct Hplayer as (p & g1 & -> & Hp). cbn [mbind result_bind].
  destruct (random_pos_on_board self g1 Hx Hy) as (q0 & g2 & -> & Hq0).
  cbn [mbind result_bind].
  destruct (redraw_goal_differs fuel self p q0 g2 Hx Hy Hq0)
    as [(q & g3 & -> & Hne & Hq) | ->]; [|right; reflexivity].
  cbn [mbind result_bind]. left.
  destruct (prepare_game_on_board self p q Hactions Hp Hq)
    as (self' & -> & Hpl & Hgl & Hsteps & _ & Hplay & Hshows).
  exists self', g3. split; [reflexivity|].
  repeat split; try assumption; try apply Hplay.
  rewrite Hpl, Hgl. congruence.
Qed.

(** On a board of one cell, [prepare_game] without a goal position never
    returns: every goal drawn is the player's cell. *)
Theorem prepare_game_single_cell_diverges (fuel : nat) (player_pos : option (Z * Z))
    (self : MoveToGoal.t) (g : G) :
  MoveToGoal.board_x self = 1 -> MoveToGoal.board_y self = 1 ->
  player_pos = None \/ player_pos = Some (0, 0) ->
  MoveToGoal.prepare_game_opt draw fuel player_pos None self g
  = (OutOfFuel, self, None).
Proof.
  intros Hx Hy Hplayer.
  assert (Hdraw : forall g, exists g',
             MoveToGoal.random_pos draw self g = Ok ((0, 0), g')).
  { intros g0. destruct (random_pos_on_board self g0) as ([x y] & g' & E & Hon);
      [lia | lia |].
    exists g'. rewrite E. simpl in Hon. do 3 f_equal; lia. }
  assert (Hloop : forall fuel g,
             MoveToGoal.redraw_goal draw fuel self (0, 0) (0, 0) g = OutOfFuel).
  { intros n. induction n as [|n IH]; intros g0; cbn [MoveToGoal.redraw_goal];
      rewrite bool_decide_eq_true_2 by reflexivity; [reflexivity|].
    destruct (Hdraw g0) as (g' & ->). cbn [mbind result_bind]. apply IH. }
  unfold MoveToGoal.prepare_game_opt, MoveToGoal.choose_positions.
  assert (Hp : exists g1,
             match player_pos with
             | Some p => Ok (p, g)
             | None => MoveToGoal.random_pos draw self g
             end = Ok ((0, 0), g1)).
  { destruct Hplayer as [-> | ->]; [apply Hdraw | exists g; reflexivity]. }
  destruct Hp as (g1 & ->). cbn [mbind result_bind].
  destruct (Hdraw g1) as (g2 & ->). cbn [mbind result_bind].
  now rewrite Hloop.
Qed.

End RandomPositions.

Lemma counting_draw_in_range (low high g : Z) :
  low < high -> low <= (Toy.counting_draw low high g).1 < high.
Proof.
  intros H. unfold Toy.counting_draw. cbn [fst].
  pose proof (Z.mod_pos_bound g (high - low)). lia.
Qed.

Lemma prepare_game_drawn_goal_differs_witness :
  exists self' g',
    MoveToGoal.prepare_game_opt Toy.counting_draw 5 None None
      (MoveToGoal.init 3 3 10 (-1) 5) 0
    = (Ok (), self', Some g')
    /\ MoveToGoal.player self' <> MoveToGoal.goal self'.
Proof.
  destruct (prepare_game_drawn_goal_differs Toy.counting_draw counting_draw_in_range
              5 None (MoveToGoal.init 3 3 10 (-1) 5) 0)
    as [(self' & g' & E & _ & Hne & _) | E].
  - reflexivity.
  - reflexivity.
  - reflexivity.
  - discriminate.
  - exists self', g'. auto.
  - vm_compute in E. discriminate.
Defined.

Lemma prepare_game_single_cell_diverges_witness :
  MoveToGoal.prepare_game_opt Toy.counting_draw 50 None None
    (MoveToGoal.init 1 1 10 (-1) 5) 0
  = (OutOfFuel, MoveToGoal.init 1 1 10 (-1) 5, None).
Proof.
  apply (prepare_game_single_cell_diverges Toy.counting_draw counting_draw_in_range);
    [reflexivity | reflexivity | left; reflexivity].
Defined.

(* ===================================================================== *)
(** * Further properties of episodes and batches *)
(* ===================================================================== *)

Lemma steps_of_app (es es' : list Episode.t) :
  EpisodesBatch.steps_of (es ++ es')
  = EpisodesBatch.steps_of es + EpisodesBatch.steps_of es'.
Proof.
  unfold EpisodesBatch.steps_of.
  induction es as [|e es IH]; cbn [app fold_right]; [reflexivity|].
  rewrite IH. lia.
Qed.

Lemma steps_of_nonneg (es : list Episode.t) : 0 <= EpisodesBatch.steps_of es.
Proof.
  unfold EpisodesBatch.steps_of.
  induction es as [|e es IH]; cbn [fold_right]; [reflexivity|].
  assert (0 <= Episode.len e) by (unfold Episode.len; lia). lia.
Qed.

Lemma add_episode_full_or_appends_aux (self : EpisodesBatch.t) (episode : Episode.t) :
  (EpisodesBatch.current_size self < EpisodesBatch.max_size self ->
   EpisodesBatch.add_episode episode self
   = (Ok (),
      EpisodesBatch.Build
        (EpisodesBatch.episodes self ++ [episode])
        (EpisodesBatch.max_size self)
        (EpisodesBatch.current_size self + Episode.len episode)))
  /\ (EpisodesBatch.max_size self <= EpisodesBatch.current_size self ->
      EpisodesBatch.add_episode episode self = (Raise ValueError, self)).
Proof.
  unfold EpisodesBatch.add_episode, EpisodesBatch.is_full.
  destruct (Z.leb_spec (EpisodesBatch.max_size self)
              (EpisodesBatch.current_size self)); simpl;
    repeat split; intros; try reflexivity; lia.
Qed.

(** What every batch built by [__init__] and [add_episode] satisfies:
    [current_size] is the number of steps stored, and without its last
    episode the batch would not be full. *)
Lemma add_episode_consistent (e : Episode.t) (self : EpisodesBatch.t) :
  EpisodesBatch.current_size self = EpisodesBatch.steps_of (EpisodesBatch.episodes self) ->
  (forall front last,
      EpisodesBatch.episodes self = front ++ [last] ->
      EpisodesBatch.steps_of front < EpisodesBatch.max_size self) ->
  let self' := (EpisodesBatch.add_episode e self).2 in
  EpisodesBatch.current_size self' = EpisodesBatch.steps_of (EpisodesBatch.episodes self')
  /\ EpisodesBatch.max_size self' = EpisodesBatch.max_size self
  /\ (forall front last,
        EpisodesBatch.episodes self' = front ++ [last] ->
        EpisodesBatch.steps_of front < EpisodesBatch.max_size self')
  /\ sublist (EpisodesBatch.episodes self') (EpisodesBatch.episodes self ++ [e]).
Proof.
  intros Hsize Hlast. unfold EpisodesBatch.add_episode, EpisodesBatch.is_full.
  destruct (Z.leb_spec (EpisodesBatch.max_size self) (EpisodesBatch.current_size self));
    cbn [negb snd EpisodesBatch.current_size EpisodesBatch.episodes EpisodesBatch.max_size].
  - repeat split; try assumption. now apply sublist_inserts_r.
  - repeat split.
    + rewrite steps_of_app, Hsize. unfold EpisodesBatch.steps_of.
      cbn [fold_right]. lia.
    + intros front last Hsplit. apply app_inj_tail in Hsplit as [<- _]. lia.
    + reflexivity.
Qed.

(** Whatever episodes are offered to a new batch, and whichever of them it
    refuses: [len(batch)] is the number of steps of the episodes it holds
    (not their number), it holds accepted episodes only, in the order they
    were offered, and it is over [max_size] by less than the length of the
    episode stored last. *)
Theorem batch_size_is_stored_steps (max_size : Z) (es : list Episode.t) :
  let self := (EpisodesBatch.add_episodes es (EpisodesBatch.init max_size)).2 in
  EpisodesBatch.len self = EpisodesBatch.steps_of (EpisodesBatch.iter self)
  /\ 0 <= EpisodesBatch.len self
  /\ EpisodesBatch.max_size self = max_size
  /\ sublist (EpisodesBatch.iter self) es
  /\ (forall e, last (EpisodesBatch.iter self) = Some e ->
        EpisodesBatch.len self - Episode.len e < max_size).
Proof.
  cbv zeta. unfold EpisodesBatch.len, EpisodesBatch.iter.
  assert (Hgen : forall es self,
             EpisodesBatch.current_size self
             = EpisodesBatch.steps_of (EpisodesBatch.episodes self) ->
             (forall front last,
                 EpisodesBatch.episodes self = front ++ [last] ->
                 EpisodesBatch.steps_of front < EpisodesBatch.max_size self) ->
             let self' := (EpisodesBatch.add_episodes es self).2 in
             EpisodesBatch.current_size self'
             = EpisodesBatch.steps_of (EpisodesBatch.episodes self')
             /\ EpisodesBatch.max_size self' = EpisodesBatch.max_size self
             /\ (forall front last,
                   EpisodesBatch.episodes self' = front ++ [last] ->
                   EpisodesBatch.steps_of front < EpisodesBatch.max_size self')
             /\ sublist (EpisodesBatch.episodes self') (EpisodesBatch.episodes self ++ es)).
  { clear es. intros es. induction es as [|e es IH]; intros self Hsize Hlast.
    - cbn. rewrite app_nil_r. auto.
    - cbn [EpisodesBatch.add_episodes].
      destruct (add_episode_consistent e self Hsize Hlast) as (Hs1 & Hm1 & Hl1 & Hsub1).
      destruct (EpisodesBatch.add_episode e self) as [r self1]. cbn [snd] in *.
      specialize (IH self1 Hs1 Hl1).
      destruct (EpisodesBatch.add_episodes es self1) as [rs self2]. cbn [snd] in *.
      destruct IH as (Hs2 & Hm2 & Hl2 & Hsub2).
      repeat split; try assumption; try congruence.
      etransitivity; [exact Hsub2|].
      rewrite (cons_middle e), app_assoc. now apply sublist_app. }
  destruct (Hgen es (EpisodesBatch.init max_size)) as (Hs & Hm & Hl & Hsub).
  - reflexivity.
  - intros [|? ?] last' E; discriminate.
  - repeat split; try assumption.
    + rewrite Hs. apply steps_of_nonneg.
    + intros e He. apply last_Some in He as (front & Efront).
      rewrite Hs, Efront, steps_of_app. specialize (Hl _ _ Efront).
      unfold EpisodesBatch.steps_of at 2. cbn [fold_right]. cbn in Hm. lia.
Qed.

(** A full batch stays full: every later [add_episode] raises [ValueError]
    and the batch is as it was. In particular a batch created with
    [max_size <= 0] accepts nothing. *)
Theorem full_batch_refuses_everything (es : list Episode.t) (self : EpisodesBatch.t) :
  EpisodesBatch.max_size self <= EpisodesBatch.current_size self ->
  EpisodesBatch.add_episodes es self
  = (replicate (length es) (Raise ValueError), self).
Proof.
  intros Hfull. induction es as [|e es IH]; [reflexivity|].
  cbn [EpisodesBatch.add_episodes].
  rewrite (proj2 (add_episode_full_or_appends_aux self e) Hfull), IH.
  reflexivity.
Qed.

Lemma batch_size_is_stored_steps_witness :
  let self := (EpisodesBatch.add_episodes
                 [Toy.flat_episode 3 1; Toy.flat_episode 2 1; Toy.flat_episode 4 1]
                 (EpisodesBatch.init 4)).2 in
  EpisodesBatch.len self = 5
  /\ EpisodesBatch.len self - Episode.len (Toy.flat_episode 2 1) < 4.
Proof.
  intros self. split; [reflexivity|].
  refine (proj2 (proj2 (proj2 (proj2
    (batch_size_is_stored_steps 4
       [Toy.flat_episode 3 1; Toy.flat_episode 2 1; Toy.flat_episode 4 1]))))
    (Toy.flat_episode 2 1) _).
  reflexivity.
Defined.

Lemma full_batch_refuses_everything_witness :
  EpisodesBatch.add_episodes [Toy.flat_episode 3 1; Toy.flat_episode 0 1]
    (EpisodesBatch.init 0)
  = ([Raise ValueError; Raise ValueError], EpisodesBatch.init 0).
Proof.
  apply (full_batch_refuses_everything
           [Toy.flat_episode 3 1; Toy.flat_episode 0 1] (EpisodesBatch.init 0)).
  simpl. lia.
Defined.

(** Episodes without steps never fill a batch: a batch that is not full
    accepts any number of them, and its size stays what it was. *)
Theorem empty_episodes_never_fill (es : list Episode.t) (self : EpisodesBatch.t) :
  EpisodesBatch.current_size self < EpisodesBatch.max_size self ->
  Forall (fun e => Episode.len e = 0) es ->
  EpisodesBatch.add_episodes es self
  = (replicate (length es) (Ok ()),
     EpisodesBatch.Build (EpisodesBatch.episodes self ++ es)
       (EpisodesBatch.max_size self) (EpisodesBatch.current_size self)).
Proof.
  intros Hroom Hes. revert self Hroom.
  induction Hes as [|e es He _ IH]; intros self Hroom.
  - cbn. rewrite app_nil_r. now destruct self.
  - cbn [EpisodesBatch.add_episodes].
    rewrite (proj1 (add_episode_full_or_appends_aux self e) Hroom), He, Z.add_0_r.
    rewrite IH by exact Hroom.
    cbn [EpisodesBatch.episodes EpisodesBatch.max_size EpisodesBatch.current_size
           length replicate].
    now rewrite <- app_assoc.
Qed.

Lemma empty_episodes_never_fill_witness :
  (EpisodesBatch.add_episodes (replicate 7 (Toy.flat_episode 0 1))
     (EpisodesBatch.init 1)).1
  = replicate 7 (Ok ()).
Proof.
  rewrite (empty_episodes_never_fill (replicate 7 (Toy.flat_episode 0 1))
             (EpisodesBatch.init 1)).
  - reflexivity.
  - reflexivity.
  - repeat constructor.
Defined.

(** The sum [np.sum] computes, from a starting value. *)
Lemma total_reward_flat (n : nat) (r a : Q) :
  (fold_left Qplus (replicate n r) a == a + inject_Z (Z.of_nat n) * r)%Q.
Proof.
  revert a. induction n as [|n IH]; intros a.
  - simpl. ring.
  - cbn [replicate fold_left]. rewrite IH, Nat2Z.inj_succ.
    unfold Z.succ. rewrite inject_Z_plus. ring.
Qed.

Lemma total_reward_nonpositive (rewards : list Q) (a : Q) :
  Forall (fun r => (r <= 0)%Q) rewards ->
  (fold_left Qplus rewards a <= a)%Q.
Proof.
  intros H. revert a. induction H as [|r rewards Hr _ IH]; intros a.
  - apply Qle_refl.
  - cbn [fold_left]. eapply Qle_trans; [apply IH|]. lra.
Qed.

Section Episodes.

Context {narrowing : Np.Narrowing}.

Lemma int32_small (a : Z) : - 2 ^ 31 <= a < 2 ^ 31 -> Np.int32 a = Ok a.
Proof.
  intros H. unfold Np.int32.
  destruct (Z.leb_spec (- 2 ^ 31) a), (Z.ltb_spec a (2 ^ 31)); try lia.
  reflexivity.
Qed.

Lemma int32_long (a a' : Z) : Np.int32 a = Ok a' -> - 2 ^ 63 <= a < 2 ^ 63.
Proof.
  unfold Np.int32.
  destruct ((- 2 ^ 31 <=? a) && (a <? 2 ^ 31)) eqn:E1.
  - intros _. apply andb_true_iff in E1 as [H1%Z.leb_le H2%Z.ltb_lt]. lia.
  - destruct ((- 2 ^ 63 <=? a) && (a <? 2 ^ 63)) eqn:E2; [|discriminate].
    intros _. apply andb_true_iff in E2 as [H1%Z.leb_le H2%Z.ltb_lt]. lia.
Qed.

Lemma int32_beyond (a : Z) :
  ~ (- 2 ^ 63 <= a < 2 ^ 63) -> Np.int32 a = Raise OverflowError.
Proof.
  intros H. unfold Np.int32.
  destruct (Z.leb_spec (- 2 ^ 31) a), (Z.ltb_spec a (2 ^ 31)),
    (Z.leb_spec (- 2 ^ 63) a), (Z.ltb_spec a (2 ^ 63)); try lia; reflexivity.
Qed.

Lemma int32_array_small (l : list Z) :
  Forall (fun a => - 2 ^ 31 <= a < 2 ^ 31) l -> Np.int32_array l = Ok l.
Proof.
  induction 1 as [|a l Ha _ IH]; [reflexivity|].
  cbn [Np.int32_array]. now rewrite (int32_small a Ha), IH.
Qed.

Lemma int32_array_long (l l' : list Z) :
  Np.int32_array l = Ok l' ->
  Forall (fun a => - 2 ^ 63 <= a < 2 ^ 63) l /\ length l' = length l.
Proof.
  revert l'. induction l as [|a l IH]; intros l'; cbn [Np.int32_array].
  - intros [= <-]. split; [constructor | reflexivity].
  - destruct (Np.int32 a) as [a'| |] eqn:Ea; [|discriminate|discriminate].
    cbn [mbind result_bind].
    destruct (Np.int32_array l) as [l''| |]; [|discriminate|discriminate].
    cbn [mbind result_bind]. intros [= <-].
    destruct (IH l'' eq_refl) as [Hl Hlen].
    split; [constructor; [exact (int32_long a a' Ea) | exact Hl]|].
    cbn [length]. now rewrite Hlen.
Qed.

Lemma int32_array_beyond (before after : list Z) (a : Z) :
  Forall (fun b => - 2 ^ 31 <= b < 2 ^ 31) before ->
  ~ (- 2 ^ 63 <= a < 2 ^ 63) ->
  Np.int32_array (before ++ a :: after) = Raise OverflowError.
Proof.
  intros Hbefore Ha. induction Hbefore as [|b before Hb _ IH].
  - cbn [app Np.int32_array]. now rewrite (int32_beyond a Ha).
  - cbn [app Np.int32_array]. now rewrite (int32_small b Hb), IH.
Qed.

Lemma episode_init_ok (states : list (list Q)) (actions : list Z) (rewards : list Q)
    (e : Episode.t) :
  Episode.init states actions rewards = Ok e ->
  length states = length rewards /\ length rewards = length actions
  /\ Np.rectangular states = true
  /\ Np.int32_array actions = Ok (Episode.actions e)
  /\ Episode.states e = states
  /\ Episode.total_reward e = fold_left Qplus rewards 0%Q.
Proof.
  unfold Episode.init, Np.float32_matrix.
  destruct (bool_decide_reflect (length states = length rewards
                                 /\ length rewards = length actions)) as [[H1 H2]|];
    [|discriminate].
  destruct (Np.rectangular states); [|discriminate].
  cbn [mbind result_bind].
  destruct (Np.int32_array actions) as [actions'| |]; [|discriminate|discriminate].
  cbn [mbind result_bind]. intros [= <-]. repeat split; assumption.
Qed.

(** [Episode(...)] fails its assertion unless the three lists have one
    length. With lists of one length it raises [ValueError] when the state
    vectors differ in length, and [OverflowError] when it meets an action
    that does not fit a C long after actions of 32 bits only. With state
    vectors of one length and actions of 32 bits it builds the episode,
    whose length is the number of actions and which holds the actions as
    given. An episode is built only from lists of one length, state vectors
    of one length and actions that fit a C long, and [len(episode)] is
    then the number of states, of actions and of rewards. *)
Theorem episode_init_lengths (states : list (list Q)) (actions : list Z)
    (rewards : list Q) :
  let one_length :=
    length states = length rewards /\ length rewards = length actions in
  (~ one_length -> Episode.init states actions rewards = Raise AssertionError)
  /\ (one_length -> Np.rectangular states = false ->
      Episode.init states actions rewards = Raise ValueError)
  /\ (one_length -> Np.rectangular states = true ->
      forall (before after : list Z) (a : Z),
        actions = before ++ a :: after ->
        Forall (fun b => - 2 ^ 31 <= b < 2 ^ 31) before ->
        ~ (- 2 ^ 63 <= a < 2 ^ 63) ->
        Episode.init states actions rewards = Raise OverflowError)
  /\ (one_length -> Np.rectangular states = true ->
      Forall (fun a => - 2 ^ 31 <= a < 2 ^ 31) actions ->
      exists e,
        Episode.init states actions rewards = Ok e
        /\ Episode.len e = Z.of_nat (length actions)
        /\ Episode.actions e = actions)
  /\ (forall e,
        Episode.init states actions rewards = Ok e ->
        one_length
        /\ Np.rectangular states = true
        /\ Forall (fun a => - 2 ^ 63 <= a < 2 ^ 63) actions
        /\ Episode.len e = Z.of_nat (length states)
        /\ Episode.len e = Z.of_nat (length actions)
        /\ Episode.len e = Z.of_nat (length rewards)
        /\ length (Episode.actions e) = length actions).
Proof.
  intros one_length. split; [|split; [|split; [|split]]].
  - intros H. unfold Episode.init. now rewrite bool_decide_eq_false_2.
  - intros H Hrect. unfold Episode.init, Np.float32_matrix.
    rewrite bool_decide_eq_true_2 by exact H. now rewrite Hrect.
  - intros H Hrect before after a -> Hbefore Ha.
    unfold Episode.init, Np.float32_matrix.
    rewrite bool_decide_eq_true_2 by exact H. rewrite Hrect.
    cbn [mbind result_bind]. now rewrite int32_array_beyond.
  - intros H Hrect Hactions. unfold Episode.init, Np.float32_matrix.
    rewrite bool_decide_eq_true_2 by exact H. rewrite Hrect.
    cbn [mbind result_bind]. rewrite int32_array_small by exact Hactions.
    cbn [mbind result_bind]. eexists. split; [reflexivity|].
    unfold Episode.len. cbn [Episode.states Episode.actions].
    destruct H as [-> ->]. split; reflexivity.
  - intros e H.
    apply episode_init_ok in H as (H1 & H2 & Hrect & Hact & Hst & _).
    apply int32_array_long in Hact as [Hlong Hlen].
    unfold Episode.len. rewrite Hst.
    split; [split; assumption|]. split; [exact Hrect|]. split; [exact Hlong|].
    split; [reflexivity|]. split; [now rewrite H1, H2|].
    split; [now rewrite H1 | exact Hlen].
Qed.

(** CartPole pays 1 at every step: such an episode is a win for
    [CartPoleEnvironment.win_condition] exactly when it has at least 200
    steps. *)
Theorem cart_pole_wins_at_200_steps (states : list (list Q)) (actions : list Z)
    (n : nat) (e : Episode.t) :
  Episode.init states actions (replicate n 1%Q) = Ok e ->
  CartPoleEnvironment.win_condition e = true <-> 200 <= Episode.len e.
Proof.
  intros Hinit. apply episode_init_ok in Hinit as (Hs & _ & _ & _ & Hst & Htotal).
  unfold CartPoleEnvironment.win_condition, Episode.len.
  rewrite Htotal, Hst, ge_true, total_reward_flat, Hs, length_replicate.
  rewrite Qplus_0_l, Qmult_1_r.
  change 200%Q with (inject_Z 200). rewrite <- Zle_Qle. reflexivity.
Qed.

(** Acrobot never pays a positive reward: no such episode, however long,
    is a win for [AcrobotEnvironment.win_condition], which asks for a total
    of 200. *)
Theorem acrobot_never_wins (states : list (list Q)) (actions : list Z)
    (rewards : list Q) (e : Episode.t) :
  Episode.init states actions rewards = Ok e ->
  Forall (fun r => (r <= 0)%Q) rewards ->
  AcrobotEnvironment.win_condition e = false.
Proof.
  intros Hinit Hrewards.
  apply episode_init_ok in Hinit as (_ & _ & _ & _ & _ & Htotal).
  unfold AcrobotEnvironment.win_condition. rewrite Htotal.
  apply not_true_iff_false. rewrite ge_true.
  pose proof (total_reward_nonpositive rewards 0%Q Hrewards). lra.
Qed.

End Episodes.

Lemma episode_init_lengths_witness :
  Episode.init (narrowing := Toy.wraps) [[0%Q]; [1%Q]] [0; 1; 0] [1%Q; 1%Q]
  = Raise AssertionError
  /\ Episode.init (narrowing := Toy.wraps) [[0%Q]; [1%Q; 2%Q]] [0; 1] [1%Q; 1%Q]
     = Raise ValueError
  /\ Episode.init (narrowing := Toy.wraps) [[0%Q]; [1%Q]] [0; 2 ^ 70] [1%Q; 1%Q]
     = Raise OverflowError
  /\ Episode.init (narrowing := Toy.refuses) [[0%Q]; [1%Q]] [0; 2 ^ 70] [1%Q; 1%Q]
     = Raise OverflowError
  /\ exists e,
       Episode.init (narrowing := Toy.wraps) [[0%Q]; [1%Q]] [0; 1] [1%Q; 1%Q] = Ok e
       /\ Episode.len e = 2.
Proof.
  destruct (episode_init_lengths (narrowing := Toy.wraps)
              [[0%Q]; [1%Q]] [0; 1; 0] [1%Q; 1%Q]) as (Hassert & _).
  destruct (episode_init_lengths (narrowing := Toy.wraps)
              [[0%Q]; [1%Q; 2%Q]] [0; 1] [1%Q; 1%Q]) as (_ & Hragged & _).
  destruct (episode_init_lengths (narrowing := Toy.wraps)
              [[0%Q]; [1%Q]] [0; 2 ^ 70] [1%Q; 1%Q]) as (_ & _ & Hwraps & _).
  destruct (episode_init_lengths (narrowing := Toy.refuses)
              [[0%Q]; [1%Q]] [0; 2 ^ 70] [1%Q; 1%Q]) as (_ & _ & Hrefuses & _).
  destruct (episode_init_lengths (narrowing := Toy.wraps)
              [[0%Q]; [1%Q]] [0; 1] [1%Q; 1%Q]) as (_ & _ & _ & Hbuilt & _).
  split; [|split; [|split; [|split]]].
  - apply Hassert. intros [_ H]. discriminate.
  - apply Hragged; [split; reflexivity | reflexivity].
  - apply (Hwraps (conj eq_refl eq_refl) eq_refl [0] [] (2 ^ 70) eq_refl).
    + repeat constructor; vm_compute; discriminate.
    + intros [_ H']. vm_compute in H'. discriminate.
  - apply (Hrefuses (conj eq_refl eq_refl) eq_refl [0] [] (2 ^ 70) eq_refl).
    + repeat constructor; vm_compute; discriminate.
    + intros [_ H']. vm_compute in H'. discriminate.
  - destruct Hbuilt as (e & E & Hlen & _).
    + split; reflexivity.
    + reflexivity.
    + repeat constructor; vm_compute; discriminate.
    + exists e. split; [exact E | exact Hlen].
Defined.

Lemma cart_pole_wins_at_200_steps_witness :
  CartPoleEnvironment.win_condition (Toy.flat_episode 200 1) = true
  <-> 200 <= Episode.len (Toy.flat_episode 200 1).
Proof.
  apply (cart_pole_wins_at_200_steps (narrowing := Toy.wraps)
           (replicate 200 [0%Q]) (replicate 200 0) 200).
  vm_compute. reflexivity.
Defined.

Lemma acrobot_never_wins_witness :
  AcrobotEnvironment.win_condition (Toy.flat_episode 300 (-1)) = false.
Proof.
  apply (acrobot_never_wins (narrowing := Toy.wraps)
           (replicate 300 [0%Q]) (replicate 300 0) (replicate 300 (-1)%Q)).
  - vm_compute. reflexivity.
  - apply Forall_replicate. discriminate.
Defined.

(* ===================================================================== *)
(** * Further properties of the trainer *)
(* ===================================================================== *)

Lemma for_each_invariant {S A : Type} (body : S -> A -> result S) (P : S -> Prop) :
  (forall s x s', P s -> body s x = Ok s' -> P s') ->
  forall l s s', P s -> DQN.for_each body l s = Ok s' -> P s'.
Proof.
  intros Hbody l. induction l as [|x l IH]; intros s s' Hs; cbn [DQN.for_each].
  - now intros [= <-].
  - destruct (body s x) as [s1| |] eqn:E; [|discriminate|discriminate].
    cbn [mbind result_bind]. apply IH. eapply Hbody; eauto.
Qed.

(** A loop whose body moves a measure by one moves it by the length of the
    list. *)
Lemma for_each_count {S A : Type} (body : S -> A -> result S) (R : nat -> S -> Prop) :
  (forall n s x s', R n s -> body s x = Ok s' -> R (Datatypes.S n) s') ->
  forall l n s s', R n s -> DQN.for_each body l s = Ok s' -> R (n + length l)%nat s'.
Proof.
  intros Hbody l. induction l as [|x l IH]; intros n s s' Hs; cbn [DQN.for_each length].
  - intros [= <-]. now rewrite Nat.add_0_r.
  - destruct (body s x) as [s1| |] eqn:E; [|discriminate|discriminate].
    cbn [mbind result_bind]. intros Hrest.
    replace (n + Datatypes.S (length l))%nat with (Datatypes.S n + length l)%nat by lia.
    eapply IH; [|exact Hrest]. eapply Hbody; eauto.
Qed.

Section TrainerFrames.

Context {net : DQN.Network} {environment : DQN.Environment} {rnd : DQN.Random}.
Implicit Types (self : DQN.Agent) (g : DQN.Rng) (t : DQN.Transition)
               (tr : DQN.Training).

Lemma with_same_model self : DQN.with_model (DQN.model self) self = self.
Proof. now destruct self. Qed.

Lemma interact_frame (current_epsilon : Q) self g self1 g1 t :
  DQN.interact current_epsilon (self, g) = Ok (self1, g1, t) ->
  exists e, self1 = DQN.update_replay_memory t (DQN.with_env e self).
Proof.
  unfold DQN.interact.
  destruct (DQN.choose_action _ _ _ _) as [[a g']| |]; [|discriminate|discriminate].
  cbn [mbind result_bind].
  destruct (DQN.env_step (DQN.env self) a) as [[[s r] d] e].
  intros [= <- _ <-]. now exists e.
Qed.

(** [training_step] changes nothing of the agent but the main model, and
    not even that while the memory is below the threshold. *)
Lemma training_step_frame (discount : Q) self g self' g' :
  DQN.training_step discount (self, g) = Ok (self', g') ->
  exists m,
    self' = DQN.with_model m self
    /\ (Deque.len (DQN.replay_memory self) < DQN.min_replay_memory_size self ->
        m = DQN.model self /\ g' = g).
Proof.
  unfold DQN.training_step.
  destruct (Z.ltb_spec (Deque.len (DQN.replay_memory self))
              (DQN.min_replay_memory_size self)).
  - intros [= <- <-]. exists (DQN.model self). now rewrite with_same_model.
  - destruct (DQN.random_sample _ _ _) as [[minibatch g1]| |];
      [|discriminate|discriminate].
    cbn [mbind result_bind]. returns. returns. intros [= <- <-].
    eexists. split; [reflexivity | lia].
Qed.

Lemma count_terminal_frame t self (wins : list bool) self' (wins' : list bool) :
  DQN.count_terminal t self wins = Ok (self', wins') ->
  self' = DQN.with_target_update_counter
            (DQN.target_update_counter self + (if DQN.done t then 1 else 0)) self
  /\ length wins' = (length wins + (if DQN.done t then 1 else 0))%nat.
Proof.
  unfold DQN.count_terminal. destruct (DQN.done t).
  - destruct (Py.getitem _ 0) as [p| |]; [|discriminate|discriminate].
    cbn [mbind result_bind]. intros [= <- <-]. split; [reflexivity|].
    destruct (Np.ge _ _); rewrite length_app; reflexivity.
  - intros [= <- <-]. rewrite Z.add_0_r, with_same_counter. split; [reflexivity|lia].
Qed.

Lemma sync_target_frame self self' :
  DQN.sync_target self = Ok self' ->
  DQN.update_target_every self <> 0
  /\ self' = (if (DQN.target_update_counter self mod DQN.update_target_every self =? 0)
                 && (0 <? DQN.target_update_counter self)
              then DQN.with_target_update_counter 0
                     (DQN.with_target_model
                        (DQN.set_weights (DQN.get_weights (DQN.model self))
                           (DQN.target_model self)) self)
              else self).
Proof.
  intros Hsync.
  destruct (Z.eq_dec (DQN.update_target_every self) 0) as [E|E].
  - unfold DQN.sync_target in Hsync. rewrite sync_due_zero in Hsync by exact E.
    discriminate.
  - split; [exact E|]. rewrite sync_target_spec in Hsync by exact E. congruence.
Qed.

(** One pass of the training loop, stage by stage. *)
Lemma train_iteration_stages (discount current_epsilon : Q) tr tr'
    (episode_reward episode_reward' : Q) (done : bool) :
  DQN.train_iteration discount current_epsilon tr episode_reward
  = Ok (tr', episode_reward', done) ->
  exists self1 g1 t self2 g2 self3 wins3,
    DQN.interact current_epsilon (DQN.agent tr, DQN.rng tr) = Ok (self1, g1, t)
    /\ DQN.training_step discount (self1, g1) = Ok (self2, g2)
    /\ DQN.count_terminal t self2 (DQN.episodes_wins tr) = Ok (self3, wins3)
    /\ DQN.sync_target self3 = Ok (DQN.agent tr')
    /\ tr' = DQN.Build_Training (DQN.agent tr') g2 (DQN.episodes_counter tr) wins3
               (DQN.episodes_rewards tr)
    /\ DQN.done t = done.
Proof.
  unfold DQN.train_iteration, DQN.bookkeeping.
  destruct (DQN.interact _ _) as [[[self1 g1] t]| |]; [|discriminate|discriminate].
  cbn [mbind result_bind].
  destruct (DQN.training_step _ _) as [[self2 g2]| |] eqn:E2; [|discriminate|discriminate].
  cbn [mbind result_bind].
  destruct (DQN.count_terminal _ _ _) as [[self3 wins3]| |] eqn:E3;
    [|discriminate|discriminate].
  cbn [mbind result_bind].
  destruct (DQN.sync_target self3) as [self4| |] eqn:E4; [|discriminate|discriminate].
  cbn [mbind result_bind]. intros [= <- _ <-].
  exists self1, g1, t, self2, g2, self3, wins3. repeat split; assumption.
Qed.

(** A property of the agent that resetting the environment and one pass
    of the training loop keep is kept by [train_agent]. *)
Lemma train_agent_invariant (P : DQN.Agent -> Prop) :
  (forall e self, P self -> P (DQN.with_env e self)) ->
  (forall discount current_epsilon tr tr' episode_reward episode_reward' done,
      P (DQN.agent tr) ->
      DQN.train_iteration discount current_epsilon tr episode_reward
      = Ok (tr', episode_reward', done) ->
      P (DQN.agent tr')) ->
  forall (fuel : nat) (episodes : Z) (epsilon : Q) (show_every : option Z)
         (discount : Q) (cycles : Z) self g tr,
    P self ->
    DQN.train_agent fuel episodes epsilon show_every discount cycles (self, g) = Ok tr ->
    P (DQN.agent tr).
Proof.
  intros Henv Hstep fuel episodes epsilon show_every discount cycles self g tr Hself.
  unfold DQN.train_agent.
  assert (Hsteps : forall fuel current_epsilon tr r tr' r',
             P (DQN.agent tr) ->
             DQN.episode_steps fuel discount current_epsilon tr r = Ok (tr', r') ->
             P (DQN.agent tr')).
  { clear fuel. intros fuel current_epsilon.
    induction fuel as [|fuel IH]; intros tr0 r tr' r' Htr; [discriminate|].
    cbn [DQN.episode_steps].
    destruct (DQN.train_iteration _ _ _ _) as [[[tr1 r1] d]| |] eqn:E;
      [|discriminate|discriminate].
    cbn [mbind result_bind]. pose proof (Hstep _ _ _ _ _ _ _ Htr E) as Htr1.
    destruct d; [now intros [= <- <-] | now apply IH]. }
  apply (for_each_invariant _ (fun tr => P (DQN.agent tr))); [|exact Hself].
  intros tr0 cycle tr1 Htr0. unfold DQN.run_cycle.
  destruct (DQN.for_each _ _ _) as [[tr2 eps2]| |] eqn:Ecycle;
    [|discriminate|discriminate].
  cbn [mbind result_bind]. intros [= <-].
  apply (for_each_invariant _ (fun st => P (DQN.agent st.1))) in Ecycle;
    [exact Ecycle | | exact Htr0].
  intros [tr3 eps3] episode [tr4 eps4] Htr3. cbn [fst] in *.
  unfold DQN.run_episode, DQN.episode_at.
  destruct (DQN.show_episode _ _ _ _) as [shown| |]; [|discriminate|discriminate].
  cbn [mbind result_bind].
  destruct (DQN.episode_steps _ _ _ _ _) as [[tr5 r5]| |] eqn:Esteps;
    [|discriminate|discriminate].
  cbn [mbind result_bind]. intros [= <- _]. cbn [DQN.agent].
  eapply Hsteps; [|exact Esteps]. cbn [DQN.agent]. now apply Henv.
Qed.

End TrainerFrames.

Section TrainerProperties.

Context {net : DQN.Network} {environment : DQN.Environment} {rnd : DQN.Random}.
Implicit Types (self : DQN.Agent) (g : DQN.Rng) (t : DQN.Transition)
               (tr : DQN.Training).

(** [__init__] refuses a negative [replay_memory_size] with [ValueError].
    Otherwise the new agent has an empty memory, a refresh counter at zero,
    the environment reset, and a target network that predicts what the
    main model predicts on every input. *)
Theorem init_agent (made : DQN.Env) (fresh fresh_target : DQN.DQNModel)
    (size min_size batch every : Z) :
  (size < 0 ->
   DQN.init made fresh fresh_target size min_size batch every = Raise ValueError)
  /\ (0 <= size ->
      exists self,
        DQN.init made fresh fresh_target size min_size batch every = Ok self
        /\ Deque.items (DQN.replay_memory self) = []
        /\ Deque.maxlen (DQN.replay_memory self) = size
        /\ DQN.target_update_counter self = 0
        /\ DQN.env self = DQN.env_reset made
        /\ DQN.model self = fresh
        /\ DQN.optimizer (DQN.target_model self) = DQN.optimizer fresh_target
        /\ forall inputs,
             DQN.predict (DQN.target_model self) inputs
             = DQN.predict (DQN.model self) inputs).
Proof.
  unfold DQN.init, Deque.new. split; intros Hsize.
  - destruct (Z.ltb_spec size 0); [reflexivity | lia].
  - destruct (Z.ltb_spec size 0); [lia|]. cbn [mbind result_bind].
    eexists. split; [reflexivity|]. repeat split.
Qed.

(** [training_step] touches nothing but the main model (and the
    generator): environment, target network, memory, counter and settings
    come out as they went in. *)
Theorem training_step_changes_model_only (discount : Q) self g self' g' :
  DQN.training_step discount (self, g) = Ok (self', g') ->
  self' = DQN.with_model (DQN.model self') self
  /\ DQN.target_model self' = DQN.target_model self
  /\ DQN.replay_memory self' = DQN.replay_memory self
  /\ DQN.target_update_counter self' = DQN.target_update_counter self
  /\ DQN.env self' = DQN.env self.
Proof.
  intros Hstep. apply training_step_frame in Hstep as (m & -> & _).
  repeat split.
Qed.

(** A pass of the training loop changes the target network only by a
    refresh, and refreshes only at the end of an episode: with the counter
    below [update_target_every] on entry, either the target network is what
    it was, or the pass ended an episode, the counter is back at zero and
    the target network predicts what the main model, as trained in this
    pass, predicts. *)
Theorem target_changes_only_by_refresh (discount current_epsilon : Q) tr tr'
    (episode_reward episode_reward' : Q) (done : bool) :
  0 <= DQN.target_update_counter (DQN.agent tr)
       < DQN.update_target_every (DQN.agent tr) ->
  DQN.train_iteration discount current_epsilon tr episode_reward
  = Ok (tr', episode_reward', done) ->
  DQN.target_model (DQN.agent tr') = DQN.target_model (DQN.agent tr)
  \/ (done = true
      /\ DQN.target_update_counter (DQN.agent tr') = 0
      /\ forall inputs,
           DQN.predict (DQN.target_model (DQN.agent tr')) inputs
           = DQN.predict (DQN.model (DQN.agent tr')) inputs).
Proof.
  intros Hc Hrun.
  destruct (train_iteration_stages _ _ _ _ _ _ _ Hrun)
    as (self1 & g1 & t & self2 & g2 & self3 & wins3
        & Hinteract & Htrain & Hcount & Hsync & _ & Hdone).
  apply interact_frame in Hinteract as (e & ->).
  apply training_step_frame in Htrain as (m & -> & _).
  apply count_terminal_frame in Hcount as (-> & _).
  apply sync_target_frame in Hsync as (Hevery & ->).
  set (c := DQN.target_update_counter (DQN.agent tr)) in *.
  set (every := DQN.update_target_every (DQN.agent tr)) in *.
  cbn [DQN.target_update_counter DQN.update_target_every DQN.with_target_update_counter
         DQN.with_model DQN.update_replay_memory DQN.with_replay_memory DQN.with_env].
  fold c every. rewrite Hdone.
  destruct (((c + (if done then 1 else 0)) mod every =? 0)
            && (0 <? c + (if done then 1 else 0))) eqn:Edue;
    [right | left; reflexivity].
  split; [|split; reflexivity].
  destruct done; [reflexivity|]. exfalso.
  rewrite Z.add_0_r, Z.mod_small in Edue by lia.
  destruct (Z.eqb_spec c 0) as [E|E]; [rewrite E in Edue|]; discriminate.
Qed.

End TrainerProperties.

(** Read the fields of an agent written with the [with_...] updates. *)
Ltac agent_fields :=
  cbn [DQN.env DQN.action_space DQN.state_space DQN.model DQN.target_model
         DQN.replay_memory DQN.min_replay_memory_size DQN.batch_size
         DQN.target_update_counter DQN.update_target_every
         DQN.with_env DQN.with_model DQN.with_target_model DQN.with_replay_memory
         DQN.with_target_update_counter DQN.update_replay_memory] in *.

Section TrainerRuns.

Context {net : DQN.Network} {environment : DQN.Environment} {rnd : DQN.Random}.
Implicit Types (self : DQN.Agent) (g : DQN.Rng) (t : DQN.Transition)
               (tr : DQN.Training).

Lemma train_iteration_keeps_bounds (self0 : DQN.Agent) (discount current_epsilon : Q)
    tr tr' (episode_reward episode_reward' : Q) (done : bool) :
  DQN.within_bounds (DQN.agent tr) /\ DQN.same_settings self0 (DQN.agent tr) ->
  DQN.train_iteration discount current_epsilon tr episode_reward
  = Ok (tr', episode_reward', done) ->
  DQN.within_bounds (DQN.agent tr') /\ DQN.same_settings self0 (DQN.agent tr').
Proof.
  intros [(Hmax & Hlen & Hc) Hsame] Hrun.
  destruct (train_iteration_stages _ _ _ _ _ _ _ Hrun)
    as (self1 & g1 & t & self2 & g2 & self3 & wins3
        & Hinteract & Htrain & Hcount & Hsync & _ & _).
  apply interact_frame in Hinteract as (e & ->).
  apply training_step_frame in Htrain as (m & -> & _).
  apply count_terminal_frame in Hcount as (-> & _).
  apply sync_target_frame in Hsync as (Hevery & ->).
  set (c := DQN.target_update_counter (DQN.agent tr)) in *.
  set (every := DQN.update_target_every (DQN.agent tr)) in *.
  pose proof (append_bounded (DQN.replay_memory (DQN.agent tr)) t Hmax Hlen) as Hlen'.
  pose proof (append_maxlen (DQN.replay_memory (DQN.agent tr)) t) as Hmax'.
  unfold DQN.within_bounds, DQN.same_settings in *. agent_fields. fold c every.
  destruct (Z.eqb_spec ((c + (if DQN.done t then 1 else 0)) mod every) 0) as [Emod|Emod];
    destruct (Z.ltb_spec 0 (c + (if DQN.done t then 1 else 0))) as [Hpos|Hneg];
    cbn [andb]; agent_fields; fold c every; rewrite Hmax';
    repeat split; try tauto; try lia.
  all: destruct (DQN.done t); try lia.
  all: destruct (Z.eq_dec (c + 1) every) as [E|E]; [|lia].
  all: rewrite E, Z_mod_same_full in Emod; lia.
Qed.

(** Training keeps the agent within its bounds: for an agent whose memory
    is within its capacity and whose refresh counter is below
    [update_target_every], the agent [train_agent] returns is so too, with
    the same capacity and settings. *)
Theorem train_agent_keeps_bounds (fuel : nat) (episodes : Z) (epsilon : Q)
    (show_every : option Z) (discount : Q) (cycles : Z) self g tr :
  DQN.within_bounds self ->
  DQN.train_agent fuel episodes epsilon show_every discount cycles (self, g) = Ok tr ->
  DQN.within_bounds (DQN.agent tr) /\ DQN.same_settings self (DQN.agent tr).
Proof.
  intros Hself Hrun.
  apply (train_agent_invariant
           (fun a => DQN.within_bounds a /\ DQN.same_settings self a))
    with (2 := train_iteration_keeps_bounds self) in Hrun.
  - exact Hrun.
  - intros e a Ha. exact Ha.
  - split; [exact Hself | repeat split].
Qed.

Lemma train_iteration_untrained (m0 t0 : DQN.DQNModel)
    (Hw : DQN.weights t0 = DQN.weights m0) (discount current_epsilon : Q)
    tr tr' (episode_reward episode_reward' : Q) (done : bool) :
  (0 <= Deque.maxlen (DQN.replay_memory (DQN.agent tr))
        < DQN.min_replay_memory_size (DQN.agent tr)
   /\ Deque.len (DQN.replay_memory (DQN.agent tr))
      <= Deque.maxlen (DQN.replay_memory (DQN.agent tr))
   /\ DQN.model (DQN.agent tr) = m0 /\ DQN.target_model (DQN.agent tr) = t0) ->
  DQN.train_iteration discount current_epsilon tr episode_reward
  = Ok (tr', episode_reward', done) ->
  0 <= Deque.maxlen (DQN.replay_memory (DQN.agent tr'))
       < DQN.min_replay_memory_size (DQN.agent tr')
  /\ Deque.len (DQN.replay_memory (DQN.agent tr'))
     <= Deque.maxlen (DQN.replay_memory (DQN.agent tr'))
  /\ DQN.model (DQN.agent tr') = m0 /\ DQN.target_model (DQN.agent tr') = t0.
Proof.
  intros (Hmax & Hlen & Hm & Ht) Hrun.
  destruct (train_iteration_stages _ _ _ _ _ _ _ Hrun)
    as (self1 & g1 & t & self2 & g2 & self3 & wins3
        & Hinteract & Htrain & Hcount & Hsync & _ & _).
  apply interact_frame in Hinteract as (e & ->).
  pose proof (append_bounded (DQN.replay_memory (DQN.agent tr)) t (proj1 Hmax) Hlen)
    as Hlen'.
  pose proof (append_maxlen (DQN.replay_memory (DQN.agent tr)) t) as Hmax'.
  apply training_step_frame in Htrain as (m & -> & Hm').
  destruct Hm' as [-> _]; [agent_fields; lia|].
  apply count_terminal_frame in Hcount as (-> & _).
  apply sync_target_frame in Hsync as (_ & ->).
  destruct (_ && _); agent_fields; rewrite Hmax'; repeat split; try tauto; try lia.
  unfold DQN.set_weights, DQN.get_weights. rewrite Hm, Ht, <- Hw. now destruct t0.
Qed.

(** A memory smaller than [min_replay_memory_size] means no training at
    all: the memory can never reach the threshold, so with the two networks
    in agreement at the start (as [__init__] leaves them), [train_agent]
    returns the main model and the target network it was given. *)
Theorem undersized_memory_never_trains (fuel : nat) (episodes : Z) (epsilon : Q)
    (show_every : option Z) (discount : Q) (cycles : Z) self g tr :
  0 <= Deque.maxlen (DQN.replay_memory self) < DQN.min_replay_memory_size self ->
  Deque.len (DQN.replay_memory self) <= Deque.maxlen (DQN.replay_memory self) ->
  DQN.weights (DQN.target_model self) = DQN.weights (DQN.model self) ->
  DQN.train_agent fuel episodes epsilon show_every discount cycles (self, g) = Ok tr ->
  DQN.model (DQN.agent tr) = DQN.model self
  /\ DQN.target_model (DQN.agent tr) = DQN.target_model self.
Proof.
  intros Hmax Hlen Hw Hrun.
  apply (train_agent_invariant
           (fun a =>
              0 <= Deque.maxlen (DQN.replay_memory a) < DQN.min_replay_memory_size a
              /\ Deque.len (DQN.replay_memory a) <= Deque.maxlen (DQN.replay_memory a)
              /\ DQN.model a = DQN.model self
              /\ DQN.target_model a = DQN.target_model self))
    with (2 := train_iteration_untrained (DQN.model self) (DQN.target_model self) Hw)
    in Hrun.
  - tauto.
  - intros e a Ha. exact Ha.
  - auto.
Qed.

End TrainerRuns.

Section TrainerStatistics.

Context {net : DQN.Network} {environment : DQN.Environment} {rnd : DQN.Random}.
Implicit Types (self : DQN.Agent) (g : DQN.Rng) (tr : DQN.Training).

Lemma episode_steps_one_win (fuel : nat) (discount current_epsilon : Q) tr tr'
    (r r' : Q) :
  DQN.episode_steps fuel discount current_epsilon tr r = Ok (tr', r') ->
  DQN.episodes_counter tr' = DQN.episodes_counter tr
  /\ DQN.episodes_rewards tr' = DQN.episodes_rewards tr
  /\ length (DQN.episodes_wins tr') = Datatypes.S (length (DQN.episodes_wins tr)).
Proof.
  revert tr r. induction fuel as [|fuel IH]; intros tr r; [discriminate|].
  cbn [DQN.episode_steps].
  destruct (DQN.train_iteration _ _ _ _) as [[[tr1 r1] d]| |] eqn:E;
    [|discriminate|discriminate].
  cbn [mbind result_bind].
  destruct (train_iteration_stages _ _ _ _ _ _ _ E)
    as (self1 & g1 & t & self2 & g2 & self3 & wins3 & _ & _ & Hcount & _ & Htr1 & Hdone).
  apply count_terminal_frame in Hcount as (_ & Hwins). rewrite Hdone in Hwins.
  assert (Hc1 : DQN.episodes_counter tr1 = DQN.episodes_counter tr)
    by (rewrite Htr1; reflexivity).
  assert (Hr1 : DQN.episodes_rewards tr1 = DQN.episodes_rewards tr)
    by (rewrite Htr1; reflexivity).
  assert (Hw1 : DQN.episodes_wins tr1 = wins3) by (rewrite Htr1; reflexivity).
  destruct d.
  - intros [= <- <-]. rewrite Hc1, Hr1, Hw1, Hwins.
    split; [reflexivity|]. split; [reflexivity | lia].
  - intros Hrest. apply IH in Hrest as (Hc & Hr & Hw).
    rewrite Hc, Hr, Hw, Hc1, Hr1, Hw1, Hwins.
    split; [reflexivity|]. split; [reflexivity | lia].
Qed.

Lemma run_episode_tallies (fuel : nat) (episodes show_every : Z) (discount : Q)
    (cycle : Z) (n : nat) (st st' : DQN.Training * Q) (episode : Z) :
  DQN.tallied n st.1 ->
  DQN.run_episode fuel episodes show_every discount cycle st episode = Ok st' ->
  DQN.tallied (Datatypes.S n) st'.1.
Proof.
  destruct st as [tr eps], st' as [tr' eps']. cbn [fst].
  intros (Hc & Hw & Hr). unfold DQN.run_episode, DQN.episode_at.
  destruct (DQN.show_episode _ _ _ _) as [shown| |]; [|discriminate|discriminate].
  cbn [mbind result_bind].
  destruct (DQN.episode_steps _ _ _ _ _) as [[tr1 r1]| |] eqn:Esteps;
    [|discriminate|discriminate].
  cbn [mbind result_bind]. intros [= <- _].
  apply episode_steps_one_win in Esteps as (Hc1 & Hr1 & Hw1). cbn in *.
  unfold DQN.tallied. cbn. rewrite Hc1, Hr1, Hw1, Hc, Hw, length_app, Hr. cbn.
  repeat split; lia.
Qed.

(** [train_agent] keeps one entry per episode: when it returns,
    [episodes_counter], the list of wins and the list of rewards all count
    the episodes played, [cycles] times [episodes] of them. *)
Theorem train_agent_counts_episodes (fuel : nat) (episodes : Z) (epsilon : Q)
    (show_every : option Z) (discount : Q) (cycles : Z) self g tr :
  DQN.train_agent fuel episodes epsilon show_every discount cycles (self, g) = Ok tr ->
  DQN.episodes_counter tr = Z.of_nat (Z.to_nat cycles * Z.to_nat episodes)
  /\ length (DQN.episodes_wins tr) = (Z.to_nat cycles * Z.to_nat episodes)%nat
  /\ length (DQN.episodes_rewards tr) = (Z.to_nat cycles * Z.to_nat episodes)%nat.
Proof.
  unfold DQN.train_agent. intros Hrun.
  assert (Hrange : forall n, length (Py.range n) = Z.to_nat n)
    by (intros n; unfold Py.range; now rewrite length_map, length_seq).
  apply (for_each_count _ (fun k tr => DQN.tallied (k * Z.to_nat episodes) tr))
    with (n := 0%nat) in Hrun.
  - rewrite Hrange in Hrun. exact Hrun.
  - intros k tr0 cycle tr1 Htr0. unfold DQN.run_cycle.
    destruct (DQN.for_each (DQN.run_episode _ _ _ _ _) _ _) as [[tr2 eps2]| |] eqn:Ecycle;
      [|discriminate|discriminate].
    cbn [mbind result_bind]. intros [= <-].
    apply (for_each_count _ (fun n st => DQN.tallied n st.1))
      with (n := (k * Z.to_nat episodes)%nat) in Ecycle.
    + rewrite Hrange in Ecycle. cbn [fst] in Ecycle.
      now replace (Datatypes.S k * Z.to_nat episodes)%nat
        with (k * Z.to_nat episodes + Z.to_nat episodes)%nat by lia.
    + intros n st episode st'. apply run_episode_tallies.
    + exact Htr0.
  - repeat split.
Qed.

(** The action chosen is a valid one: with a generator that keeps to its
    bounds and a network with one output per action, [choose_action]
    returns an index in [0, action_space_n). *)
Theorem choose_action_in_range (current_epsilon : Q) self (s : list Q) g :
  (forall low high g0, low < high -> low <= (DQN.randint_draw low high g0).1 < high) ->
  Z.of_nat (length (DQN.forward (DQN.weights (DQN.model self)) s))
  = DQN.action_space_n (DQN.env self) ->
  0 < DQN.action_space_n (DQN.env self) ->
  exists action g',
    DQN.choose_action current_epsilon self s g = Ok (action, g')
    /\ 0 <= action < DQN.action_space_n (DQN.env self).
Proof.
  intros Hdraw Hout Hn. unfold DQN.choose_action.
  destruct (DQN.random_draw g) as [u g1].
  destruct (Np.gt u current_epsilon).
  - destruct (produce_action_first_maximizer self s) as (i & -> & (m & Hi & _)).
    + intros E. rewrite E in Hout. simpl in Hout. lia.
    + cbn [mbind result_bind]. eexists _, _. split; [reflexivity|].
      apply lookup_lt_Some in Hi. lia.
  - unfold DQN.randint.
    destruct (Z.ltb_spec 0 (DQN.action_space_n (DQN.env self))); [|lia].
    specialize (Hdraw 0 (DQN.action_space_n (DQN.env self)) g1 Hn).
    destruct (DQN.randint_draw 0 _ g1) as [a g2]. eexists _, _.
    split; [reflexivity | exact Hdraw].
Qed.

End TrainerStatistics.

(** ** The cadence of target refreshes *)

Section TargetCadence.

Context {net : DQN.Network} {environment : DQN.Environment} {rnd : DQN.Random}.
Implicit Types (self : DQN.Agent) (g : DQN.Rng) (tr : DQN.Training).








End TargetCadence.


(** ** The greedy action and the largest value *)

Lemma argmax_from_max (l pre : list Q) (best_i : nat) (best : Q) :
  pre !! best_i = Some best ->
  (pre ++ l) !! Np.argmax_from best_i best (length pre) l
  = Some (fold_left (fun m y => if Np.gt y m then y else m) l best).
Proof.
  revert pre best_i best.
  induction l as [|x l IH]; intros pre best_i best Hbest; cbn [Np.argmax_from fold_left].
  - rewrite app_nil_r. exact Hbest.
  - assert (Hlen : length (pre ++ [x]) = Datatypes.S (length pre))
      by (rewrite length_app; simpl; lia).
    rewrite (cons_middle x), app_assoc, <- Hlen.
    destruct (Np.gt x best); apply IH.
    + rewrite lookup_app_r by lia. now rewrite Nat.sub_diag.
    + now apply lookup_app_l_Some.
Qed.

Section GreedyValue.

Context {net : DQN.Network} {environment : DQN.Environment}.

(** The value the main model gives to the action [produce_action] selects
    is the largest value of the prediction, the same [np.max] returns. *)
Theorem greedy_action_has_largest_value (self : DQN.Agent) (s : list Q) (action : Z) :
  DQN.produce_action self s = Ok action ->
  Py.getitem (DQN.forward (DQN.weights (DQN.model self)) s) action
  = Np.max (DQN.forward (DQN.weights (DQN.model self)) s)
  /\ 0 <= action < Z.of_nat (length (DQN.forward (DQN.weights (DQN.model self)) s)).
Proof.
  unfold DQN.produce_action, DQN.get_q_values, DQN.call. cbn [map concat].
  rewrite app_nil_r.
  destruct (DQN.forward (DQN.weights (DQN.model self)) s) as [|x l]; [discriminate|].
  cbn [Np.argmax Np.max]. intros [= <-].
  pose proof (argmax_from_max l [x] 0 x eq_refl) as Hmax. cbn [length app] in Hmax.
  split.
  - apply getitem_nonneg; [lia|]. now rewrite Nat2Z.id.
  - apply lookup_lt_Some in Hmax. lia.
Qed.

End GreedyValue.

(** ** The trainer on the small instances *)

Lemma init_agent_witness :
  DQN.init (net := Toy.net) (environment := Toy.environment) 0 Toy.model0 Toy.model1
    (-1) 2 2 3 = Raise ValueError
  /\ exists self,
       Toy.init 5 2 2 3 = Ok self
       /\ forall inputs,
            DQN.predict (DQN.target_model self) inputs
            = DQN.predict (DQN.model self) inputs.
Proof.
  split.
  - apply (init_agent (net := Toy.net) (environment := Toy.environment)
             0 Toy.model0 Toy.model1 (-1) 2 2 3). reflexivity.
  - destruct (proj2 (init_agent (net := Toy.net) (environment := Toy.environment)
                       0 Toy.model0 Toy.model1 5 2 2 3))
      as (self & E & _ & _ & _ & _ & _ & _ & Hagree); [discriminate|].
    exists self. split; [exact E | exact Hagree].
Defined.

Lemma training_step_changes_model_only_witness :
  exists self',
    DQN.training_step (rnd := Toy.rnd) (95 # 100)
      (DQN.pushes (map Toy.labelled [1; 2; 3]) (Toy.fresh 5 2 2 3), ())
    = Ok (self', ())
    /\ DQN.target_model self' = DQN.target_model (Toy.fresh 5 2 2 3)
    /\ DQN.model self' <> DQN.model (Toy.fresh 5 2 2 3).
Proof.
  destruct (DQN.training_step (rnd := Toy.rnd) (95 # 100)
              (DQN.pushes (map Toy.labelled [1; 2; 3]) (Toy.fresh 5 2 2 3), ()))
    as [[self' []]| |] eqn:Hstep.
  - exists self'. split; [reflexivity|].
    destruct (training_step_changes_model_only (rnd := Toy.rnd) _ _ _ _ _ Hstep)
      as (_ & Htarget & _).
    split; [exact Htarget|].
    vm_compute in Hstep. injection Hstep as <-. discriminate.
  - vm_compute in Hstep. discriminate.
  - vm_compute in Hstep. discriminate.
Defined.

Lemma target_changes_only_by_refresh_witness :
  let tr :=
    DQN.Build_Training (net := Toy.net) (rnd := Toy.rnd)
      (DQN.with_env (environment := Toy.environment) 2
         (DQN.with_target_update_counter 2
            (DQN.pushes (map Toy.labelled [1; 2]) (Toy.fresh 5 2 2 3))))
      () 0 [] [] in
  exists tr' r,
    DQN.train_iteration (95 # 100) 1 tr 0 = Ok (tr', r, true)
    /\ DQN.target_model (DQN.agent tr') <> DQN.target_model (DQN.agent tr)
    /\ DQN.target_update_counter (DQN.agent tr') = 0.
Proof.
  intros tr.
  destruct (DQN.train_iteration (95 # 100) 1 tr 0) as [[[tr' r] d]| |] eqn:Hrun.
  - assert (d = true) as -> by (vm_compute in Hrun; now injection Hrun).
    exists tr', r. split; [reflexivity|].
    assert (Hchanged : DQN.target_model (DQN.agent tr') <> DQN.target_model (DQN.agent tr))
      by (vm_compute in Hrun; injection Hrun as <- _; discriminate).
    split; [exact Hchanged|].
    assert (Hc : 0 <= DQN.target_update_counter (DQN.agent tr)
                      < DQN.update_target_every (DQN.agent tr))
      by (vm_compute; split; [discriminate | reflexivity]).
    destruct (target_changes_only_by_refresh (rnd := Toy.rnd) _ _ tr _ _ _ _ Hc Hrun)
      as [Hsame | (_ & Hzero & _)].
    + contradiction.
    + exact Hzero.
  - vm_compute in Hrun. discriminate.
  - vm_compute in Hrun. discriminate.
Defined.

Lemma train_agent_keeps_bounds_witness :
  exists tr,
    DQN.train_agent (rnd := Toy.rnd) 5 4 1 None (95 # 100) 2 (Toy.fresh 5 2 2 3, ())
    = Ok tr
    /\ DQN.within_bounds (DQN.agent tr).
Proof.
  destruct (DQN.train_agent (rnd := Toy.rnd) 5 4 1 None (95 # 100) 2
              (Toy.fresh 5 2 2 3, ())) as [tr| |] eqn:Hrun.
  - exists tr. split; [reflexivity|].
    refine (proj1 (train_agent_keeps_bounds (rnd := Toy.rnd) _ _ _ _ _ _ _ _ _ _ Hrun)).
    vm_compute. repeat split; first [discriminate | reflexivity].
  - vm_compute in Hrun. discriminate.
  - vm_compute in Hrun. discriminate.
Defined.

Lemma undersized_memory_never_trains_witness :
  exists tr,
    DQN.train_agent (rnd := Toy.rnd) 5 4 1 None (95 # 100) 2 (Toy.fresh 1 2 2 3, ())
    = Ok tr
    /\ DQN.model (DQN.agent tr) = DQN.model (Toy.fresh 1 2 2 3)
    /\ DQN.target_model (DQN.agent tr) = DQN.target_model (Toy.fresh 1 2 2 3).
Proof.
  destruct (DQN.train_agent (rnd := Toy.rnd) 5 4 1 None (95 # 100) 2
              (Toy.fresh 1 2 2 3, ())) as [tr| |] eqn:Hrun.
  - exists tr. split; [reflexivity|].
    refine (undersized_memory_never_trains (rnd := Toy.rnd) _ _ _ _ _ _ _ _ _ _ _ _ Hrun).
    + vm_compute. split; [discriminate | reflexivity].
    + vm_compute. discriminate.
    + reflexivity.
  - vm_compute in Hrun. discriminate.
  - vm_compute in Hrun. discriminate.
Defined.

Lemma train_agent_counts_episodes_witness :
  exists tr,
    DQN.train_agent (rnd := Toy.rnd) 5 4 1 None (95 # 100) 2 (Toy.fresh 5 2 2 3, ())
    = Ok tr
    /\ DQN.episodes_counter tr = 8
    /\ length (DQN.episodes_wins tr) = 8%nat.
Proof.
  destruct (DQN.train_agent (rnd := Toy.rnd) 5 4 1 None (95 # 100) 2
              (Toy.fresh 5 2 2 3, ())) as [tr| |] eqn:Hrun.
  - exists tr. split; [reflexivity|].
    destruct (train_agent_counts_episodes (rnd := Toy.rnd) _ _ _ _ _ _ _ _ _ Hrun)
      as (Hc & Hw & _).
    split; [exact Hc | exact Hw].
  - vm_compute in Hrun. discriminate.
  - vm_compute in Hrun. discriminate.
Defined.

Lemma choose_action_in_range_witness :
  exists action g',
    DQN.choose_action (rnd := Toy.rnd) 1 (Toy.fresh 5 2 2 3) [0%Q; 0%Q] ()
    = Ok (action, g')
    /\ 0 <= action < 3.
Proof.
  apply (choose_action_in_range (rnd := Toy.rnd) 1 (Toy.fresh 5 2 2 3) [0%Q; 0%Q] ()).
  - intros low high g0 H. cbn. lia.
  - reflexivity.
  - reflexivity.
Defined.

Lemma greedy_action_has_largest_value_witness :
  Py.getitem [0%Q; 1%Q; 1%Q] 1 = Np.max [0%Q; 1%Q; 1%Q].
Proof.
  exact (proj1 (greedy_action_has_largest_value (net := Toy.net)
                  (environment := Toy.environment)
                  (Toy.fresh 5 2 2 3) [0%Q; 0%Q] 1 eq_refl)).
Defined.

(* ===================================================================== *)
(** * The test script's call of the constructor *)
(* ===================================================================== *)

Lemma evaluate_keywords {V : Type} (config : string -> option V)
    (arguments : list (string * string)) (l : list (string * V)) :
  TestAgent.evaluate config arguments = TestAgent.Bound l ->
  map fst l = map fst arguments.
Proof.
  revert l. induction arguments as [|[keyword key] arguments IH]; intros l; simpl.
  - now intros [= <-].
  - destruct (config key) as [v|]; [|discriminate].
    destruct (TestAgent.evaluate config arguments) as [l'| |]; try discriminate.
    intros [= <-]. simpl. now rewrite (IH l').
Qed.

(** Whatever the configuration holds, the constructor call of
    [test_agent.main] never builds an agent: if the configuration lacks one
    of the keys read, the call raises [KeyError]; otherwise it raises
    [TypeError], since [MountainCarAgent.__init__] has no parameter
    [double_q_learning] (nor [hidden_layers_count], nor [activation]). *)
Theorem test_agent_never_constructs {V : Type} (config : string -> option V) :
  (forall arguments, TestAgent.construct config <> TestAgent.Bound arguments)
  /\ ((forall key, key ∈ map snd TestAgent.call_arguments -> is_Some (config key)) ->
      TestAgent.construct config = TestAgent.TypeError "double_q_learning"%string).
Proof.
  assert (Hbind : forall l : list (string * V),
             map fst l = map fst TestAgent.call_arguments ->
             TestAgent.bind TestAgent.init_parameters l
             = TestAgent.TypeError "double_q_learning"%string).
  { intros l Hl. cbn in Hl.
    do 9 (destruct l as [|[? ?] l]; [discriminate|]).
    destruct l; [|discriminate].
    injection Hl as -> -> -> -> -> -> -> -> ->. reflexivity. }
  split.
  - intros arguments. unfold TestAgent.construct.
    destruct (TestAgent.evaluate config TestAgent.call_arguments) as [l| |] eqn:E;
      [|discriminate|discriminate].
    rewrite (Hbind l (evaluate_keywords _ _ _ E)). discriminate.
  - intros Hkeys. unfold TestAgent.construct.
    destruct (TestAgent.evaluate config TestAgent.call_arguments) as [l|key|name] eqn:E.
    + exact (Hbind l (evaluate_keywords _ _ _ E)).
    + exfalso. revert E. unfold TestAgent.call_arguments. cbn [TestAgent.evaluate].
      repeat match goal with
             | |- context [config ?k] =>
                 let Hk := fresh in
                 destruct (config k) as [?|] eqn:Hk;
                 [| let H := fresh in
                    destruct (Hkeys k) as [? H];
                    [cbn; repeat constructor
                    | rewrite H in Hk; discriminate] ]
             end.
      discriminate.
    + exfalso. revert E. unfold TestAgent.call_arguments. cbn [TestAgent.evaluate].
      repeat match goal with
             | |- context [config ?k] => destruct (config k) as [?|]
             end; discriminate.
Qed.

Lemma test_agent_never_constructs_witness :
  TestAgent.construct (fun _ : string => Some 1)
  = TestAgent.TypeError "double_q_learning"%string.
Proof.
  apply (test_agent_never_constructs (fun _ : string => Some 1)).
  intros key _. now exists 1.
Defined.
